(** * ExperienceMe: a shallow embedding of the browser scripts

    The repository is a set of page scripts (finder.js, experiences.js,
    detailed_experience.js, dashboards/user.js, dashboards/business.js,
    dashboards/businessmetrics.js) that talk to a hosted relational
    platform through its client.  The embedding keeps the shape of the
    scripts: every page is a module, page-level [let] variables are fields
    of a page state, every awaited platform call is a [send] in a small
    state-and-exception monad that logs the request, and the platform is a
    set of tables together with a fault oracle that decides which requests
    answer with an error object and which reject. *)

From stdpp Require Import gmap strings list.
From Stdlib Require Import ZArith QArith Lqa Lia.
From Stdlib Require Import Strings.String Strings.Ascii.
From Stdlib Require Import Numbers.DecimalString Numbers.DecimalZ.
From Stdlib Require Import Sorting.Sorted Sorting.Permutation.

Local Open Scope string_scope.
Local Open Scope list_scope.

(* ===================================================================== *)
(** ** JavaScript values used by the scripts *)
(* ===================================================================== *)

Module Js.

(** Text is a string of bytes, the UTF-8 form of the JavaScript string.
    Comparison, concatenation and the replacement of an ASCII character
    are the same on the bytes as on the JavaScript string.  Length,
    [slice] and [substring], [trim] and [toLowerCase] are the JavaScript
    ones on ASCII text only: JavaScript counts UTF-16 units, trims the
    white space of Unicode and lower-cases every letter.  A property that
    rests on one of them is stated for ASCII text ([plain], below), or for
    text whose ends are ASCII where only the ends matter.  [null],
    [undefined] and the empty string are all falsy and the scripts only
    ever test text with [||], [?.] or [!], so the three are represented
    by [""]. *)
Definition truthy (s : string) : bool := negb (String.eqb s "").

(** [a || b] on text. *)
Definition or_else (a b : string) : string := if truthy a then a else b.

(** [s.replaceAll(c, by)] for a one-character needle. *)
Fixpoint replaceAll (c : ascii) (by_ : string) (s : string) : string :=
  match s with
  | EmptyString => EmptyString
  | String a rest =>
      if Ascii.eqb a c then by_ ++ replaceAll c by_ rest
      else String a (replaceAll c by_ rest)
  end.

(** [s.includes(c)] for a one-character needle. *)
Fixpoint includes (c : ascii) (s : string) : bool :=
  match s with
  | EmptyString => false
  | String a rest => Ascii.eqb a c || includes c rest
  end.

(** The double-quote character, by its code. *)
Definition dquote : ascii := ascii_of_nat 34.

(** [toLowerCase] on ASCII text: the letters A to Z become a to z, every
    other byte is kept. *)
Definition lower_ascii (a : ascii) : ascii :=
  let n := nat_of_ascii a in
  if (65 <=? n)%nat && (n <=? 90)%nat then ascii_of_nat (n + 32) else a.

Fixpoint toLowerCase (s : string) : string :=
  match s with
  | EmptyString => EmptyString
  | String a rest => String (lower_ascii a) (toLowerCase rest)
  end.

(** [String(n)] for an integer. *)
Definition String_ (z : Z) : string := NilEmpty.string_of_int (Z.to_int z).

(** [Number(s)] on the texts the pages themselves store, [String(n)] of an
    integer: the optionally signed decimal digit strings.  Any other text
    is read as [NaN], represented by [None]; JavaScript also reads padded,
    fractional, exponent and hexadecimal forms, so a property that rests on
    the number read is stated for a stored [String(n)]. *)
Definition Number_ (s : string) : option Z :=
  match NilEmpty.int_of_string s with
  | Some d => Some (Z.of_int d)
  | None => None
  end.

(** [a - b < w] where either operand may be [NaN]: a comparison with
    [NaN] is false. *)
Definition diff_lt (a : Z) (b : option Z) (w : Z) : bool :=
  match b with
  | Some b' => (a - b' <? w)%Z
  | None => false
  end.

Definition is_space (a : ascii) : bool :=
  let n := nat_of_ascii a in
  (n =? 32)%nat || ((9 <=? n)%nat && (n <=? 13)%nat).

Fixpoint trim_start (s : string) : string :=
  match s with
  | String a rest => if is_space a then trim_start rest else s
  | EmptyString => EmptyString
  end.

Fixpoint rev_string (acc s : string) : string :=
  match s with
  | EmptyString => acc
  | String a rest => rev_string (String a acc) rest
  end.

(** [s.trim()] on text whose leading and trailing white space is ASCII
    (space, tab, line feed, vertical tab, form feed, carriage return). *)
Definition trim (s : string) : string :=
  rev_string "" (trim_start (rev_string "" (trim_start s))).

(** [encodeURIComponent] on the bytes of the text. *)
Definition unreserved (a : ascii) : bool :=
  let n := nat_of_ascii a in
  ((48 <=? n) && (n <=? 57) || (65 <=? n) && (n <=? 90) ||
   (97 <=? n) && (n <=? 122))%nat ||
  includes a "-_.!~*'()".

Definition hex_digit (n : nat) : ascii :=
  if (n <? 10)%nat then ascii_of_nat (48 + n) else ascii_of_nat (55 + n).

Fixpoint encodeURIComponent (s : string) : string :=
  match s with
  | EmptyString => EmptyString
  | String a rest =>
      if unreserved a then String a (encodeURIComponent rest)
      else
        let n := nat_of_ascii a in
        String "%" (String (hex_digit (n / 16)) (String (hex_digit (n mod 16))
          (encodeURIComponent rest)))
  end.

End Js.

(* ===================================================================== *)
(** ** The shared escaping helper

    Five scripts carry the same textual copy of [escapeHtml]
    (finder.js 372, experiences.js 429, detailed_experience.js 511,
    businessmetrics.js 694, admin.js 584). *)
(* ===================================================================== *)

Definition escapeHtml (value : string) : string :=
  Js.replaceAll "'"%char "&#039;"
    (Js.replaceAll Js.dquote "&quot;"
       (Js.replaceAll ">"%char "&gt;"
          (Js.replaceAll "<"%char "&lt;"
             (Js.replaceAll "&"%char "&amp;" value)))).

(* ===================================================================== *)
(** ** Rows of the hosted store *)
(* ===================================================================== *)

Record Image := {
  image_url : string;
  is_primary : bool;
  display_order : option Z
}.

Record Experience := {
  experience_id : string;
  title : string;
  short_description : string;
  event_description : string;
  county : string;
  min_price : option Q;
  max_price : option Q;
  status : string;
  is_published : bool;
  booking_url : string;
  business_name : string;
  website_url : string;
  created_at : Z;
  image : list Image
}.

Record LinkRow := {
  link_category_id : string;
  link_experience_id : string
}.

Record UserRow := {
  user_id : string;
  role : string
}.

Record FavoriteRow := {
  fav_user_id : string;
  fav_experience_id : string
}.

Inductive EventType := view | booking_click.

Record EventRow := {
  ev_experience_id : string;
  ev_event_type : EventType;
  ev_source : string;
  ev_session_id : string;
  ev_user_id : option string
}.

(* ===================================================================== *)
(** ** Queries on the experiences table

    The query builder calls of the scripts, one constructor per call
    actually made.  [OrFilter] carries the raw text handed to [.or(...)];
    how the platform reads that text is a parameter of the semantics. *)
(* ===================================================================== *)

Inductive Filter :=
| InStatus (vals : list string)
| EqStatus (v : string)
| EqPublished (b : bool)
| EqCounty (c : string)
| GteMinPrice (v : Q)
| LteMinPrice (v : Q)
| InExperienceId (ids : list string)
| EqExperienceId (id : string)
| OrFilter (raw : string).

Record Query := {
  filters : list Filter;
  order_created_desc : bool;
  limit : option nat
}.

Definition base_query : Query :=
  {| filters := []; order_created_desc := false; limit := None |}.

(** Builder calls append a filter, as the client library does. *)
Definition and_filter (q : Query) (f : Filter) : Query :=
  {| filters := filters q ++ [f];
     order_created_desc := order_created_desc q;
     limit := limit q |}.

Definition with_limit (q : Query) (n : nat) : Query :=
  {| filters := filters q; order_created_desc := order_created_desc q;
     limit := Some n |}.

Definition with_order (q : Query) : Query :=
  {| filters := filters q; order_created_desc := true; limit := limit q |}.

Definition mem_string (s : string) (l : list string) : bool :=
  existsb (String.eqb s) l.

(** A comparison on a NULL price is not true, so the row is left out. *)
Definition holds (or_sem : string -> Experience -> bool)
    (f : Filter) (e : Experience) : bool :=
  match f with
  | InStatus vals => mem_string (status e) vals
  | EqStatus v => String.eqb (status e) v
  | EqPublished b => Bool.eqb (is_published e) b
  | EqCounty c => String.eqb (county e) c
  | GteMinPrice v =>
      match min_price e with Some p => Qle_bool v p | None => false end
  | LteMinPrice v =>
      match min_price e with Some p => Qle_bool p v | None => false end
  | InExperienceId ids => mem_string (experience_id e) ids
  | EqExperienceId id => String.eqb (experience_id e) id
  | OrFilter raw => or_sem raw e
  end.

Definition satisfies (or_sem : string -> Experience -> bool)
    (q : Query) (e : Experience) : bool :=
  forallb (fun f => holds or_sem f e) (filters q).

(** Stable insertion sort by a key: [Array.prototype.sort] with a numeric
    comparator keeps equal keys in their incoming order.  The same sort
    stands for ORDER BY on the platform side, where the order of equal keys
    is the platform's choice. *)
Section StableSort.
Context {A : Type} (key : A -> Z).

Fixpoint insert_by (x : A) (l : list A) : list A :=
  match l with
  | [] => [x]
  | y :: rest =>
      if (key x <=? key y)%Z then x :: y :: rest
      else y :: insert_by x rest
  end.

Definition sort_by (l : list A) : list A :=
  fold_right insert_by [] l.
End StableSort.

Definition take_limit {A : Type} (lim : option nat) (l : list A) : list A :=
  match lim with
  | Some n => firstn n l
  | None => l
  end.

Definition run_select (or_sem : string -> Experience -> bool)
    (table : list Experience) (q : Query) : list Experience :=
  let rows := List.filter (satisfies or_sem q) table in
  let rows := if order_created_desc q
              then sort_by (fun e => (- created_at e)%Z) rows
              else rows in
  take_limit (limit q) rows.

(* ===================================================================== *)
(** ** Budget buckets

    finder.js 298-301 and experiences.js 319-322 hold the same four lines;
    [budget_filters] is what those lines add to the query for a bucket
    value, and [in_bucket] is the resulting predicate on [min_price]. *)
(* ===================================================================== *)

Definition apply_if (c : bool) (fs : list Filter) (q : Query) : Query :=
  if c then fold_left and_filter fs q else q.

Definition budget_filters (budget : string) (q : Query) : Query :=
  let q := apply_if (String.eqb budget "under_50") [LteMinPrice 50] q in
  let q := apply_if (String.eqb budget "50_100")
             [GteMinPrice 50; LteMinPrice 100] q in
  let q := apply_if (String.eqb budget "100_200")
             [GteMinPrice 100; LteMinPrice 200] q in
  let q := apply_if (String.eqb budget "200_plus") [GteMinPrice 200] q in
  q.

Inductive Bucket := under_50 | b50_100 | b100_200 | b200_plus.

Definition bucket_value (b : Bucket) : string :=
  match b with
  | under_50 => "under_50"
  | b50_100 => "50_100"
  | b100_200 => "100_200"
  | b200_plus => "200_plus"
  end.

(** A row that carries only a price, to read a bucket as a predicate. *)
Definition priced (p : Q) : Experience :=
  {| experience_id := ""; title := ""; short_description := "";
     event_description := ""; county := ""; min_price := Some p;
     max_price := None; status := ""; is_published := false;
     booking_url := ""; business_name := ""; website_url := "";
     created_at := 0; image := [] |}.

Definition in_bucket (b : Bucket) (p : Q) : bool :=
  satisfies (fun _ _ => false)
    (budget_filters (bucket_value b) base_query) (priced p).

(* ===================================================================== *)
(** ** The hosted platform

    Every [await supabaseClient...] of the scripts is one [Request].  A
    request is answered from the tables unless the fault oracle says
    otherwise: [error_result] is the client's [{ data: null, error }]
    answer, [rejects] is a rejected promise (an exception at the [await]).
    The oracle sees how many requests were sent before, so the same request
    may fail once and succeed later. *)
(* ===================================================================== *)

Inductive Fault := no_fault | error_result (msg : string) | rejects (msg : string).

Inductive Request :=
| AuthGetUser
| AuthSignOut
| SelectRole (uid : string)
| SelectExperiences (q : Query)
| SelectExperienceSingle (q : Query)
| SelectCategoryLinks (category_id : string)
| SelectFavoriteOne (uid eid : string)
| SelectFavorites (uid : string)
| DeleteFavorite (uid eid : string)
| InsertFavorite (uid eid : string)
| InsertVisitorSession (sid : string)
| InsertEventMetric (row : EventRow)
| CountEvents (business_id start : string) (event_type : EventType)
    (experienceId : string)
| CountSaves (business_id start : string) (experienceId : string)
| SelectEventsDaily (business_id startDateStr : string) (experienceId : string)
| SelectSavesDaily (business_id startDateStr : string) (experienceId : string).

(** Rows of the two daily views read by the metrics dashboard. *)
Record DailyEvent := {
  de_day : string;
  de_event_type : string;
  de_total : Z
}.

Record DailySave := {
  ds_day : string;
  ds_saves : Z
}.

(** The platform as a page meets it: the tables, the signed-in user of
    the session (if any), how the platform reads the text of an [.or(...)]
    filter, what its aggregate views answer to a request, the fault
    oracle, and the log of the requests sent so far, oldest first. *)
Record Env := {
  tbl_experiences : list Experience;
  tbl_experience_category : list LinkRow;
  tbl_users : list UserRow;
  tbl_favorite : list FavoriteRow;
  tbl_event_metric : list EventRow;
  tbl_visitor_session : list string;
  session : option string;
  or_sem : string -> Experience -> bool;
  view_count : Request -> option nat;
  view_events_daily : Request -> list DailyEvent;
  view_saves_daily : Request -> list DailySave;
  fault : nat -> Request -> Fault;
  sent : list Request
}.

Definition set_sent (l : list Request) (e : Env) : Env :=
  {| tbl_experiences := tbl_experiences e;
     tbl_experience_category := tbl_experience_category e;
     tbl_users := tbl_users e; tbl_favorite := tbl_favorite e;
     tbl_event_metric := tbl_event_metric e;
     tbl_visitor_session := tbl_visitor_session e;
     session := session e; or_sem := or_sem e; view_count := view_count e;
     view_events_daily := view_events_daily e;
     view_saves_daily := view_saves_daily e;
     fault := fault e; sent := l |}.

Definition set_favorite (l : list FavoriteRow) (e : Env) : Env :=
  {| tbl_experiences := tbl_experiences e;
     tbl_experience_category := tbl_experience_category e;
     tbl_users := tbl_users e; tbl_favorite := l;
     tbl_event_metric := tbl_event_metric e;
     tbl_visitor_session := tbl_visitor_session e;
     session := session e; or_sem := or_sem e; view_count := view_count e;
     view_events_daily := view_events_daily e;
     view_saves_daily := view_saves_daily e;
     fault := fault e; sent := sent e |}.

Definition set_event_metric (l : list EventRow) (e : Env) : Env :=
  {| tbl_experiences := tbl_experiences e;
     tbl_experience_category := tbl_experience_category e;
     tbl_users := tbl_users e; tbl_favorite := tbl_favorite e;
     tbl_event_metric := l;
     tbl_visitor_session := tbl_visitor_session e;
     session := session e; or_sem := or_sem e; view_count := view_count e;
     view_events_daily := view_events_daily e;
     view_saves_daily := view_saves_daily e;
     fault := fault e; sent := sent e |}.

Definition set_visitor_session (l : list string) (e : Env) : Env :=
  {| tbl_experiences := tbl_experiences e;
     tbl_experience_category := tbl_experience_category e;
     tbl_users := tbl_users e; tbl_favorite := tbl_favorite e;
     tbl_event_metric := tbl_event_metric e;
     tbl_visitor_session := l;
     session := session e; or_sem := or_sem e; view_count := view_count e;
     view_events_daily := view_events_daily e;
     view_saves_daily := view_saves_daily e;
     fault := fault e; sent := sent e |}.

Definition set_session (u : option string) (e : Env) : Env :=
  {| tbl_experiences := tbl_experiences e;
     tbl_experience_category := tbl_experience_category e;
     tbl_users := tbl_users e; tbl_favorite := tbl_favorite e;
     tbl_event_metric := tbl_event_metric e;
     tbl_visitor_session := tbl_visitor_session e;
     session := u; or_sem := or_sem e; view_count := view_count e;
     view_events_daily := view_events_daily e;
     view_saves_daily := view_saves_daily e;
     fault := fault e; sent := sent e |}.

(** The client's [{ data, error }] answer. *)
Record Resp (A : Type) := { data : option A; error : option string }.
Arguments data {A} _.
Arguments error {A} _.

Definition ok {A : Type} (a : A) : Resp A := {| data := Some a; error := None |}.
Definition null {A : Type} : Resp A := {| data := None; error := None |}.
Definition failed {A : Type} (m : string) : Resp A :=
  {| data := None; error := Some m |}.

(** [.single()]: exactly one row or an error; [.maybeSingle()]: no row is
    a null answer, not an error. *)
Definition single {A : Type} (rows : list A) : Resp A :=
  match rows with
  | [r] => ok r
  | _ => failed "PGRST116"
  end.

Definition maybeSingle {A : Type} (rows : list A) : Resp A :=
  match rows with
  | [] => null
  | [r] => ok r
  | _ => failed "PGRST116"
  end.

(* ===================================================================== *)
(** ** Page code: state, exceptions, awaited requests *)
(* ===================================================================== *)

Inductive Outcome (A : Type) := Returned (a : A) | Threw (e : string).
Arguments Returned {A} _.
Arguments Threw {A} _.

Definition M (S A : Type) : Type := S -> Outcome A * S.

Definition ret {S A : Type} (a : A) : M S A := fun s => (Returned a, s).

Definition throw {S A : Type} (e : string) : M S A := fun s => (Threw e, s).

Definition bind {S A B : Type} (c : M S A) (k : A -> M S B) : M S B :=
  fun s =>
    match c s with
    | (Returned a, s') => k a s'
    | (Threw e, s') => (Threw e, s')
    end.

(** [try { body } catch (e) { handler }]. *)
Definition try_catch {S A : Type} (body : M S A) (handler : string -> M S A)
    : M S A :=
  fun s =>
    match body s with
    | (Returned a, s') => (Returned a, s')
    | (Threw e, s') => handler e s'
    end.

Definition gets {S A : Type} (f : S -> A) : M S A := fun s => (Returned (f s), s).

(** [await Promise.all([a, b])] on two calls of [async] functions that
    each await one request and write no page state: both calls are made,
    so both requests are sent, in the order written, whatever becomes of
    the other; the [await] throws when one of them rejected.  Which
    rejection it throws when both reject is a matter of timing; the first
    in the order written is taken. *)
Definition promise_all2 {S A B : Type} (a : M S A) (b : M S B) : M S (A * B) :=
  fun s =>
    match a s with
    | (ra, s1) =>
        match b s1 with
        | (rb, s2) =>
            match ra, rb with
            | Returned x, Returned y => (Returned (x, y), s2)
            | Threw e, _ => (Threw e, s2)
            | _, Threw e => (Threw e, s2)
            end
        end
    end.

(** The same for three calls. *)
Definition promise_all3 {S A B C : Type} (a : M S A) (b : M S B) (c : M S C)
    : M S (A * B * C) :=
  fun s =>
    match promise_all2 a b s with
    | (rab, s2) =>
        match c s2 with
        | (rc, s3) =>
            match rab, rc with
            | Returned xy, Returned z => (Returned (xy, z), s3)
            | Threw e, _ => (Threw e, s3)
            | _, Threw e => (Threw e, s3)
            end
        end
    end.

Definition modify {S : Type} (f : S -> S) : M S unit := fun s => (Returned tt, f s).

Declare Scope page_scope.
Delimit Scope page_scope with page.
Notation "x <- c ;; k" := (bind c (fun x => k))
  (at level 100, c at next level, right associativity) : page_scope.
Notation "c ;; k" := (bind c (fun _ => k))
  (at level 100, right associativity) : page_scope.
Local Open Scope page_scope.

Definition state_after {S A : Type} (r : Outcome A * S) : S := snd r.
Definition outcome_of {S A : Type} (r : Outcome A * S) : Outcome A := fst r.

(** A page state gives access to the platform it talks to. *)
Class HasEnv (S : Type) := {
  env_of : S -> Env;
  with_env : Env -> S -> S
}.

(** One awaited request: it is logged, then it rejects, answers with an
    error object, or is answered from the tables and takes effect. *)
Definition send {S : Type} `{HasEnv S} {A : Type} (r : Request)
    (answer : Env -> Resp A) (effect : Env -> Env) : M S (Resp A) :=
  fun s =>
    let e := env_of s in
    let logged := set_sent (sent e ++ [r]) e in
    match fault e (List.length (sent e)) r with
    | no_fault => (Returned (answer e), with_env (effect logged) s)
    | error_result m => (Returned (failed m), with_env logged s)
    | rejects m => (Threw m, with_env logged s)
    end.

Definition read_only (e : Env) : Env := e.

(** What the users table answers to [.eq('user_id', uid).single()]. *)
Definition role_answer (uid : string) (e : Env) : Resp UserRow :=
  single (List.filter (fun r => String.eqb (user_id r) uid) (tbl_users e)).

Section Requests.
Context {S : Type} `{HasEnv S}.

(** [supabaseClient.auth.getUser()]; the answer's [data.user]. *)
Definition auth_getUser : M S (Resp string) :=
  send AuthGetUser
    (fun e => {| data := session e; error := None |}) read_only.

Definition auth_signOut : M S (Resp unit) :=
  send AuthSignOut (fun _ => ok tt) (set_session None).

(** [from('users').select('role').eq('user_id', uid).single()] *)
Definition select_role (uid : string) : M S (Resp UserRow) :=
  send (SelectRole uid) (role_answer uid) read_only.

Definition select_experiences (q : Query) : M S (Resp (list Experience)) :=
  send (SelectExperiences q)
    (fun e => ok (run_select (or_sem e) (tbl_experiences e) q)) read_only.

Definition select_experience_single (q : Query) : M S (Resp Experience) :=
  send (SelectExperienceSingle q)
    (fun e => single (run_select (or_sem e) (tbl_experiences e) q)) read_only.

(** [from('experience_category').select('experience_id')
     .eq('category_id', categoryId)] *)
Definition select_category_links (categoryId : string)
    : M S (Resp (list LinkRow)) :=
  send (SelectCategoryLinks categoryId)
    (fun e => ok (List.filter
                    (fun r => String.eqb (link_category_id r) categoryId)
                    (tbl_experience_category e)))
    read_only.

Definition is_favorite_of (uid eid : string) (r : FavoriteRow) : bool :=
  String.eqb (fav_user_id r) uid && String.eqb (fav_experience_id r) eid.

Definition select_favorite_one (uid eid : string) : M S (Resp FavoriteRow) :=
  send (SelectFavoriteOne uid eid)
    (fun e => maybeSingle (List.filter (is_favorite_of uid eid) (tbl_favorite e)))
    read_only.

Definition select_favorites (uid : string) : M S (Resp (list FavoriteRow)) :=
  send (SelectFavorites uid)
    (fun e => ok (List.filter (fun r => String.eqb (fav_user_id r) uid)
                    (tbl_favorite e)))
    read_only.

Definition delete_favorite (uid eid : string) : M S (Resp unit) :=
  send (DeleteFavorite uid eid) (fun _ => null)
    (fun e => set_favorite
       (List.filter (fun r => negb (is_favorite_of uid eid r)) (tbl_favorite e)) e).

Definition insert_favorite (uid eid : string) : M S (Resp unit) :=
  send (InsertFavorite uid eid) (fun _ => null)
    (fun e => set_favorite
       (tbl_favorite e ++ [{| fav_user_id := uid; fav_experience_id := eid |}]) e).

Definition insert_visitor_session (sid : string) : M S (Resp unit) :=
  send (InsertVisitorSession sid) (fun _ => null)
    (fun e => set_visitor_session (tbl_visitor_session e ++ [sid]) e).

Definition insert_event_metric (row : EventRow) : M S (Resp unit) :=
  send (InsertEventMetric row) (fun _ => null)
    (fun e => set_event_metric (tbl_event_metric e ++ [row]) e).

(** A [{ count: 'exact', head: true }] select: the answer carries a count
    and no rows.  The views are the platform's; what they hold for a
    request is read from [view_count]. *)
Definition select_count (r : Request) : M S (Resp nat) :=
  send r (fun e => {| data := view_count e r; error := None |}) read_only.

Definition select_events_daily (r : Request) : M S (Resp (list DailyEvent)) :=
  send r (fun e => ok (view_events_daily e r)) read_only.

Definition select_saves_daily (r : Request) : M S (Resp (list DailySave)) :=
  send r (fun e => ok (view_saves_daily e r)) read_only.

End Requests.

(* ===================================================================== *)
(** ** Role-aware navigation: the three nav containers

    [None] is an element that is not in the document, [Some d] an element
    whose [style.display] is [d]. *)
(* ===================================================================== *)

Record Nav := {
  navGuest : option string;
  navUser : option string;
  navBusiness : option string
}.

(** [if (el) el.style.display = d] *)
Definition set_display (d : string) (el : option string) : option string :=
  match el with
  | Some _ => Some d
  | None => None
  end.

Definition show_guest_nav (n : Nav) : Nav :=
  {| navGuest := set_display "flex" (navGuest n);
     navUser := set_display "none" (navUser n);
     navBusiness := set_display "none" (navBusiness n) |}.

Definition show_user_nav (n : Nav) : Nav :=
  {| navGuest := set_display "none" (navGuest n);
     navUser := set_display "flex" (navUser n);
     navBusiness := set_display "none" (navBusiness n) |}.

Definition hide_guest (n : Nav) : Nav :=
  {| navGuest := set_display "none" (navGuest n);
     navUser := navUser n; navBusiness := navBusiness n |}.

Definition flex_user (n : Nav) : Nav :=
  {| navGuest := navGuest n;
     navUser := set_display "flex" (navUser n);
     navBusiness := navBusiness n |}.

Definition flex_business (n : Nav) : Nav :=
  {| navGuest := navGuest n; navUser := navUser n;
     navBusiness := set_display "flex" (navBusiness n) |}.

(** [userRow?.role || 'user'] *)
Definition role_or_user (r : Resp UserRow) : string :=
  match data r with
  | Some row => Js.or_else (role row) "user"
  | None => "user"
  end.

(** The tail shared by the three nav functions, once a role is known. *)
Definition nav_for_role (r : string) (n : Nav) : Nav :=
  let n := hide_guest n in
  if String.eqb r "business" then flex_business n else flex_user n.

Definition displayed (el : option string) : bool :=
  match el with
  | Some d => negb (String.eqb d "none")
  | None => false
  end.

Inductive Variant := guest_nav | user_nav | business_nav.

(** The variants an onlooker sees. *)
Definition variants_shown (n : Nav) : list Variant :=
  (if displayed (navGuest n) then [guest_nav] else []) ++
  (if displayed (navUser n) then [user_nav] else []) ++
  (if displayed (navBusiness n) then [business_nav] else []).

(** [find] then [|| imgs[0]]: the first image flagged primary, else the
    first image; the shared first line of every primary-image helper. *)
Definition primary_or_first (imgs : list Image) : option Image :=
  match List.find is_primary imgs with
  | Some i => Some i
  | None => List.head imgs
  end.

(** [primary?.image_url || ''] *)
Definition url_of (i : option Image) : string :=
  match i with
  | Some img => image_url img
  | None => ""
  end.

(** [getPrimaryImageUrl], finder.js 366 and experiences.js 416 (same text). *)
Definition getPrimaryImageUrl (exp : Experience) : string :=
  url_of (primary_or_first (image exp)).

(** [[...new Set(xs)]]: first occurrences, in order. *)
Fixpoint uniq_from (seen : list string) (xs : list string) : list string :=
  match xs with
  | [] => []
  | x :: rest =>
      if mem_string x seen then uniq_from seen rest
      else x :: uniq_from (x :: seen) rest
  end.

Definition uniq (xs : list string) : list string := uniq_from [] xs.

(** The placeholder of the finder and experiences cards. *)
Definition card_placeholder : string := "https://via.placeholder.com/300x200".

(** The base of both list queries:
    [.in('status', ['approved', 'Approved']).eq('is_published', true)]. *)
Definition approved_published : Query :=
  and_filter (and_filter base_query (InStatus ["approved"; "Approved"]))
    (EqPublished true).

(* ===================================================================== *)
(** ** finder.js *)
(* ===================================================================== *)

Module Finder.

Definition TYPES : list (string * string) :=
  [ ("Food & drink", "food"); ("Outdoors", "outdoors");
    ("Wellness", "wellness"); ("Adventure", "adventure");
    ("Arts & creativity", "arts") ].

Definition TYPE_TO_CATEGORY_ID : list (string * string) :=
  [ ("food", "b97c14aa-cd1e-4f9d-8670-6d7cb0ab5cd4");
    ("outdoors", "50f6b39a-2399-43fa-a661-b85930e8f1d3");
    ("wellness", "da794edb-3c5b-4f8b-aae6-29b22454fc6e");
    ("adventure", "cd35ad00-dad3-4bb6-b0a9-c9709a74df4d");
    ("arts", "f9a0e772-bbfd-4292-9ba4-a4f857b18135") ].

(** Lookup in a literal table; a missing key reads as a falsy value. *)
Definition lookup_text (k : string) (tbl : list (string * string)) : string :=
  match List.find (fun kv => String.eqb (fst kv) k) tbl with
  | Some kv => snd kv
  | None => ""
  end.

(** The [state] object. *)
Record Selections := {
  sel_recipient : string;
  sel_occasion : string;
  sel_type : string;
  sel_county : string;
  sel_budget : string
}.

Record Filters := {
  categoryId : string;
  f_county : string;
  f_budget : string
}.

Record Card := {
  card_title : string;
  card_county : string;
  card_businessName : string;
  card_fromPrice : option Q;
  card_imgUrl : string;
  card_view_id : string
}.

Inductive MatchesView :=
| loading
| no_matches
| match_cards (cs : list Card)
| went_wrong.

Record Page := {
  state : Selections;
  nav : Nav;
  matchesList : option MatchesView;
  env : Env
}.

Definition set_nav (n : Nav) (p : Page) : Page :=
  {| state := state p; nav := n; matchesList := matchesList p; env := env p |}.

Definition set_matches (v : MatchesView) (p : Page) : Page :=
  {| state := state p; nav := nav p;
     matchesList := match matchesList p with Some _ => Some v | None => None end;
     env := env p |}.

#[global] Instance page_env : HasEnv Page := {|
  env_of := env;
  with_env := fun e p =>
    {| state := state p; nav := nav p; matchesList := matchesList p; env := e |}
|}.

Definition updateNavForAuthState : M Page unit :=
  modify (fun p => set_nav (show_guest_nav (nav p)) p) ;;
  try_catch
    (u <- auth_getUser ;;
     match data u with
     | None => ret tt
     | Some uid =>
         userRow <- select_role uid ;;
         let role := role_or_user userRow in
         modify (fun p => set_nav (nav_for_role role (nav p)) p)
     end)
    (fun _ => modify (fun p => set_nav (show_guest_nav (nav p)) p)).

Definition buildFiltersFromState (s : Selections) : Filters :=
  let typeKey := lookup_text (sel_type s) TYPES in
  let categoryId :=
    if Js.truthy typeKey then lookup_text typeKey TYPE_TO_CATEGORY_ID else "" in
  {| categoryId := categoryId; f_county := sel_county s; f_budget := sel_budget s |}.

Definition getExperienceIdsForCategory (categoryId : string)
    : M Page (list string) :=
  r <- select_category_links categoryId ;;
  match error r with
  | Some e => throw e
  | None =>
      ret (uniq (List.map link_experience_id
                   (match data r with Some rows => rows | None => [] end)))
  end.

(** The query [fetchMatches] builds once the category ids are known
    ([None]: no category selected). *)
Definition matches_query (categoryExperienceIds : option (list string))
    (f : Filters) : Query :=
  let query := approved_published in
  let query := apply_if (Js.truthy (f_county f)) [EqCounty (f_county f)] query in
  let query := budget_filters (f_budget f) query in
  let query := match categoryExperienceIds with
               | Some ids => and_filter query (InExperienceId ids)
               | None => query
               end in
  with_limit query 3.

Definition run_matches_query (ids : option (list string)) (f : Filters)
    : M Page (list Experience) :=
  r <- select_experiences (matches_query ids f) ;;
  match error r with
  | Some e => throw e
  | None => ret (match data r with Some rows => rows | None => [] end)
  end.

Definition fetchMatches (f : Filters) : M Page (list Experience) :=
  if Js.truthy (categoryId f) then
    categoryExperienceIds <- getExperienceIdsForCategory (categoryId f) ;;
    match categoryExperienceIds with
    | [] => ret []
    | _ :: _ => run_matches_query (Some categoryExperienceIds) f
    end
  else run_matches_query None f.

Definition renderMatchCard (exp : Experience) : Card :=
  {| card_title := escapeHtml (Js.or_else (title exp) "Experience");
     card_county := escapeHtml (Js.or_else (county exp) "Ireland");
     card_businessName := escapeHtml (business_name exp);
     card_fromPrice := min_price exp;
     card_imgUrl := Js.or_else (getPrimaryImageUrl exp) card_placeholder;
     card_view_id := experience_id exp |}.

Definition refreshMatches : M Page unit :=
  present <- gets matchesList ;;
  match present with
  | None => ret tt
  | Some _ =>
      modify (set_matches loading) ;;
      try_catch
        (filters <- gets (fun p => buildFiltersFromState (state p)) ;;
         results <- fetchMatches filters ;;
         match results with
         | [] => modify (set_matches no_matches)
         | _ :: _ => modify (set_matches (match_cards (List.map renderMatchCard results)))
         end)
        (fun _ => modify (set_matches went_wrong))
  end.

(** [resetFinder]: every choice back to none (the dropdowns and chip
    highlights it clears keep no state of this model). *)
Definition resetFinder : M Page unit :=
  modify (fun p =>
    {| state := {| sel_recipient := ""; sel_occasion := ""; sel_type := "";
                   sel_county := ""; sel_budget := "" |};
       nav := nav p; matchesList := matchesList p; env := env p |}).

(** The click handler of [btnReset], run to completion. *)
Definition onResetClick : M Page unit :=
  resetFinder ;;
  refreshMatches.

End Finder.

(* ===================================================================== *)
(** ** experiences.js *)
(* ===================================================================== *)

Module Experiences.

Record Card := {
  card_title : string;
  card_county : string;
  card_desc : string;
  card_businessName : string;
  card_fromPrice : option Q;
  card_imgUrl : string;
  card_data_id : string
}.

Inductive GridView :=
| grid_loading
| grid_no_results
| grid_cards (cs : list Card)
| grid_went_wrong.

(** The filter inputs ([.value] of each), the two result containers, the
    nav containers and the platform. *)
Record Page := {
  heroSearch : string;
  categorySelect : string;
  countySelect : string;
  budgetSelect : string;
  nav : Nav;
  resultsMeta : option string;
  experiencesGrid : option GridView;
  env : Env
}.

Definition set_nav (n : Nav) (p : Page) : Page :=
  {| heroSearch := heroSearch p; categorySelect := categorySelect p;
     countySelect := countySelect p; budgetSelect := budgetSelect p;
     nav := n; resultsMeta := resultsMeta p;
     experiencesGrid := experiencesGrid p; env := env p |}.

Definition set_meta (t : string) (p : Page) : Page :=
  {| heroSearch := heroSearch p; categorySelect := categorySelect p;
     countySelect := countySelect p; budgetSelect := budgetSelect p;
     nav := nav p;
     resultsMeta := match resultsMeta p with Some _ => Some t | None => None end;
     experiencesGrid := experiencesGrid p; env := env p |}.

Definition set_grid (v : GridView) (p : Page) : Page :=
  {| heroSearch := heroSearch p; categorySelect := categorySelect p;
     countySelect := countySelect p; budgetSelect := budgetSelect p;
     nav := nav p; resultsMeta := resultsMeta p;
     experiencesGrid :=
       match experiencesGrid p with Some _ => Some v | None => None end;
     env := env p |}.

#[global] Instance page_env : HasEnv Page := {|
  env_of := env;
  with_env := fun e p =>
    {| heroSearch := heroSearch p; categorySelect := categorySelect p;
       countySelect := countySelect p; budgetSelect := budgetSelect p;
       nav := nav p; resultsMeta := resultsMeta p;
       experiencesGrid := experiencesGrid p; env := e |}
|}.

(** No [try] in this copy: a rejected request leaves the function by
    exception. *)
Definition updateNavForAuthState : M Page unit :=
  u <- auth_getUser ;;
  modify (fun p => set_nav (show_guest_nav (nav p)) p) ;;
  match data u with
  | None => ret tt
  | Some uid =>
      userRow <- select_role uid ;;
      let role := role_or_user userRow in
      modify (fun p => set_nav (nav_for_role role (nav p)) p)
  end.

Record Filters := {
  searchText : string;
  categoryId : string;
  f_county : string;
  f_budget : string
}.

Definition getFilters (p : Page) : Filters :=
  {| searchText := Js.trim (heroSearch p);
     categoryId := categorySelect p;
     f_county := countySelect p;
     f_budget := budgetSelect p |}.

(** [null] when no category is chosen, else the linked ids with falsy ids
    dropped ([.filter(Boolean)]). *)
Definition getExperienceIdsForCategory (categoryId : string)
    : M Page (option (list string)) :=
  if Js.truthy categoryId then
    r <- select_category_links categoryId ;;
    match error r with
    | Some e => throw e
    | None =>
        ret (Some (List.filter Js.truthy
                     (List.map link_experience_id
                        (match data r with Some rows => rows | None => [] end))))
    end
  else ret None.

Definition or_text (searchText : string) : string :=
  "title.ilike.%" ++ searchText ++ "%,event_description.ilike.%" ++
  searchText ++ "%".

Definition experiences_query (categoryExperienceIds : option (list string))
    (f : Filters) : Query :=
  let query := approved_published in
  let query := apply_if (Js.truthy (searchText f))
                 [OrFilter (or_text (searchText f))] query in
  let query := apply_if (Js.truthy (f_county f)) [EqCounty (f_county f)] query in
  let query := if Js.truthy (f_budget f)
               then budget_filters (f_budget f) query else query in
  match categoryExperienceIds with
  | Some ids => and_filter query (InExperienceId ids)
  | None => query
  end.

(** The fields of one card of [renderExperiences].  [slice(0, 110)] counts
    UTF-16 units, which are the bytes counted here when the description is
    ASCII. *)
Definition renderCard (exp : Experience) : Card :=
  {| card_imgUrl := Js.or_else (getPrimaryImageUrl exp) card_placeholder;
     card_title := escapeHtml (Js.or_else (title exp) "Experience");
     card_county := escapeHtml (Js.or_else (county exp) "Ireland");
     card_desc := escapeHtml (String.substring 0 110 (event_description exp));
     card_businessName := escapeHtml (business_name exp);
     card_fromPrice := min_price exp;
     card_data_id := experience_id exp |}.

Definition renderExperiences (experiences : list Experience) : M Page unit :=
  match experiences with
  | [] => modify (set_grid grid_no_results)
  | _ :: _ => modify (set_grid (grid_cards (List.map renderCard experiences)))
  end.

Definition found_text (n : nat) : string :=
  Js.String_ (Z.of_nat n) ++ " experiences found".

Definition query_and_render (ids : option (list string)) (f : Filters)
    : M Page unit :=
  r <- select_experiences (experiences_query ids f) ;;
  match error r with
  | Some e => throw e
  | None =>
      let list := match data r with Some rows => rows | None => [] end in
      modify (set_meta (found_text (List.length list))) ;;
      renderExperiences list
  end.

Definition loadExperiences : M Page unit :=
  meta <- gets resultsMeta ;;
  grid <- gets experiencesGrid ;;
  match meta, grid with
  | Some _, Some _ =>
      modify (set_meta "Loading experiences...") ;;
      modify (set_grid grid_loading) ;;
      f <- gets getFilters ;;
      try_catch
        (if Js.truthy (categoryId f) then
           categoryExperienceIds <- getExperienceIdsForCategory (categoryId f) ;;
           match categoryExperienceIds with
           | None => throw "TypeError: categoryExperienceIds is null"
           | Some [] =>
               modify (set_meta "0 experiences found") ;;
               modify (set_grid grid_no_results)
           | Some (_ :: _) => query_and_render categoryExperienceIds f
           end
         else query_and_render None f)
        (fun _ =>
           modify (set_meta "Error loading experiences") ;;
           modify (set_grid grid_went_wrong))
  | _, _ => ret tt
  end.

(** The click handler of [btnClearFilters]: the four inputs are emptied,
    then the list is loaded again. *)
Definition onClearFilters : M Page unit :=
  modify (fun p =>
    {| heroSearch := ""; categorySelect := ""; countySelect := "";
       budgetSelect := ""; nav := nav p; resultsMeta := resultsMeta p;
       experiencesGrid := experiencesGrid p; env := env p |}) ;;
  loadExperiences.

End Experiences.

(* ===================================================================== *)
(** ** detailed_experience.js *)
(* ===================================================================== *)

Module Detail.

(** The three page-level [let] variables. *)
Record Vars := {
  authUser : option string;
  currentExperienceId : string;
  isFavorited : bool
}.

(** [btnBusinessSite]: its [href], whether it takes clicks, and the
    experience id and url captured by the click handler once bound. *)
Record BookingButton := {
  href : string;
  enabled : bool;
  trackingBound : option (string * string)
}.

Record Dom := {
  nav : Nav;
  detailError : option (option string);
  btnSave : option string;
  mainImage : option string;
  btnBusinessSite : option BookingButton
}.

Record Browser := {
  localStorage : gmap string string;
  location : option string;
  opened : list string;
  alerts : list string
}.

Record Page := {
  vars : Vars;
  dom : Dom;
  browser : Browser;
  url_id : string;
  url_src : string;
  env : Env
}.

Definition set_vars (v : Vars) (p : Page) : Page :=
  {| vars := v; dom := dom p; browser := browser p; url_id := url_id p;
     url_src := url_src p; env := env p |}.

Definition set_dom (d : Dom) (p : Page) : Page :=
  {| vars := vars p; dom := d; browser := browser p; url_id := url_id p;
     url_src := url_src p; env := env p |}.

Definition set_browser (b : Browser) (p : Page) : Page :=
  {| vars := vars p; dom := dom p; browser := b; url_id := url_id p;
     url_src := url_src p; env := env p |}.

#[global] Instance page_env : HasEnv Page := {|
  env_of := env;
  with_env := fun e p =>
    {| vars := vars p; dom := dom p; browser := browser p;
       url_id := url_id p; url_src := url_src p; env := e |}
|}.

Definition set_isFavorited (b : bool) (p : Page) : Page :=
  set_vars {| authUser := authUser (vars p);
              currentExperienceId := currentExperienceId (vars p);
              isFavorited := b |} p.

Definition set_currentExperienceId (id : string) (p : Page) : Page :=
  set_vars {| authUser := authUser (vars p);
              currentExperienceId := id;
              isFavorited := isFavorited (vars p) |} p.

Definition set_nav (n : Nav) (p : Page) : Page :=
  set_dom {| nav := n; detailError := detailError (dom p);
             btnSave := btnSave (dom p); mainImage := mainImage (dom p);
             btnBusinessSite := btnBusinessSite (dom p) |} p.

Definition set_detailError (m : option string) (p : Page) : Page :=
  set_dom {| nav := nav (dom p);
             detailError := match detailError (dom p) with
                            | Some _ => Some m
                            | None => None
                            end;
             btnSave := btnSave (dom p); mainImage := mainImage (dom p);
             btnBusinessSite := btnBusinessSite (dom p) |} p.

Definition set_btnSave (t : string) (p : Page) : Page :=
  set_dom {| nav := nav (dom p); detailError := detailError (dom p);
             btnSave := match btnSave (dom p) with
                        | Some _ => Some t
                        | None => None
                        end;
             mainImage := mainImage (dom p);
             btnBusinessSite := btnBusinessSite (dom p) |} p.

Definition set_mainImage (src : string) (p : Page) : Page :=
  set_dom {| nav := nav (dom p); detailError := detailError (dom p);
             btnSave := btnSave (dom p);
             mainImage := match mainImage (dom p) with
                          | Some _ => Some src
                          | None => None
                          end;
             btnBusinessSite := btnBusinessSite (dom p) |} p.

Definition set_btnBusinessSite (b : option BookingButton) (p : Page) : Page :=
  set_dom {| nav := nav (dom p); detailError := detailError (dom p);
             btnSave := btnSave (dom p); mainImage := mainImage (dom p);
             btnBusinessSite := b |} p.

Definition set_localStorage (m : gmap string string) (p : Page) : Page :=
  set_browser {| localStorage := m; location := location (browser p);
                 opened := opened (browser p);
                 alerts := alerts (browser p) |} p.

Definition navigate (url : string) (p : Page) : Page :=
  set_browser {| localStorage := localStorage (browser p);
                 location := Some url; opened := opened (browser p);
                 alerts := alerts (browser p) |} p.

Definition window_open (url : string) (p : Page) : Page :=
  set_browser {| localStorage := localStorage (browser p);
                 location := location (browser p);
                 opened := opened (browser p) ++ [url];
                 alerts := alerts (browser p) |} p.

Definition alert (m : string) (p : Page) : Page :=
  set_browser {| localStorage := localStorage (browser p);
                 location := location (browser p);
                 opened := opened (browser p);
                 alerts := alerts (browser p) ++ [m] |} p.

Definition setNavState (user : option string) : M Page unit :=
  modify (fun p => set_nav (show_guest_nav (nav (dom p))) p) ;;
  match user with
  | None => ret tt
  | Some uid =>
      try_catch
        (userRow <- select_role uid ;;
         let role := role_or_user userRow in
         modify (fun p => set_nav (nav_for_role role (nav (dom p))) p))
        (fun _ => modify (fun p => set_nav (show_user_nav (nav (dom p))) p))
  end.

Definition showError (message : string) : M Page unit :=
  modify (set_detailError
            (Some (Js.or_else message
                     "Something went wrong loading this experience."))).

Definition hideError : M Page unit := modify (set_detailError None).

Definition updateSaveButtonUI : M Page unit :=
  modify (fun p =>
    match authUser (vars p) with
    | None => set_btnSave "♡ Save" p
    | Some _ =>
        set_btnSave (if isFavorited (vars p) then "♥ Saved" else "♡ Save") p
    end).

Definition loadFavoriteState (experienceId : string) : M Page unit :=
  try_catch
    (u <- gets (fun p => authUser (vars p)) ;;
     match u with
     | None => throw "TypeError: authUser is null"
     | Some uid =>
         r <- select_favorite_one uid experienceId ;;
         match error r with
         | Some e => throw e
         | None =>
             modify (set_isFavorited
                       (match data r with Some _ => true | None => false end))
         end
     end)
    (fun _ => modify (set_isFavorited false)).

Definition toggleFavorite (experienceId : string) : M Page unit :=
  u <- gets (fun p => authUser (vars p)) ;;
  match u with
  | None => ret tt
  | Some uid =>
      try_catch
        (fav <- gets (fun p => isFavorited (vars p)) ;;
         if (fav : bool) then
           r <- delete_favorite uid experienceId ;;
           match error r with
           | Some e => throw e
           | None => modify (set_isFavorited false)
           end
         else
           r <- insert_favorite uid experienceId ;;
           match error r with
           | Some e => throw e
           | None => modify (set_isFavorited true)
           end)
        (fun _ => modify (alert "Error updating favourites."))
  end.

(** [a.display_order ?? 999] *)
Definition order_key (i : Image) : Z :=
  match display_order i with
  | Some n => n
  | None => 999%Z
  end.

(** The hero image of [renderDetail] (lines 308-319). *)
Definition placeholder (exp : Experience) : string :=
  ("https://via.placeholder.com/1200x800?text=" ++
   Js.encodeURIComponent (Js.or_else (title exp) "Experience"))%string.

Definition mainUrl (exp : Experience) : string :=
  let sorted := sort_by order_key (image exp) in
  let primary := primary_or_first sorted in
  Js.or_else (url_of primary) (placeholder exp).

(** [wireBookingClickTracking]: binds once; the handler keeps the id and
    url it was bound with. *)
Definition wireBookingClickTracking (experienceId finalUrl : string)
    (b : BookingButton) : BookingButton :=
  match trackingBound b with
  | Some _ => b
  | None => {| href := href b; enabled := enabled b;
               trackingBound := Some (experienceId, finalUrl) |}
  end.

(** The parts of [renderDetail] that later handlers depend on: the booking
    link and the hero image.  The text fields are written through
    [textContent] and keep no state a handler reads. *)
Definition renderDetail (exp : Experience) : M Page unit :=
  let finalUrl := Js.or_else (booking_url exp) (website_url exp) in
  modify (fun p =>
    match btnBusinessSite (dom p) with
    | None => p
    | Some b =>
        let b := if Js.truthy finalUrl
                 then {| href := finalUrl; enabled := true;
                         trackingBound := trackingBound b |}
                 else {| href := "#"; enabled := false;
                         trackingBound := trackingBound b |} in
        set_btnBusinessSite
          (Some (wireBookingClickTracking (experience_id exp) finalUrl b)) p
    end) ;;
  modify (set_mainImage (mainUrl exp)).

Definition detail_query (experienceId : string) : Query :=
  and_filter
    (and_filter (and_filter base_query (EqExperienceId experienceId))
       (EqStatus "approved"))
    (EqPublished true).

Definition loadAndRenderExperience (experienceId : string) : M Page unit :=
  try_catch
    (hideError ;;
     r <- select_experience_single (detail_query experienceId) ;;
     match error r, data r with
     | None, Some exp =>
         u <- gets (fun p => authUser (vars p)) ;;
         (match u with
          | Some _ => loadFavoriteState experienceId
          | None => ret tt
          end) ;;
         updateSaveButtonUI ;;
         renderDetail exp
     | _, _ => showError "Could not load this experience."
     end)
    (fun _ => showError "Something went wrong.").

Definition getItem (key : string) : M Page (option string) :=
  gets (fun p => localStorage (browser p) !! key).

Definition setItem (key value : string) : M Page unit :=
  modify (fun p => set_localStorage (<[key := value]> (localStorage (browser p))) p).

(** [crypto.randomUUID()] is an input: [uuid] is what it would answer. *)
Definition getOrCreateVisitorSessionId (uuid : string) : M Page string :=
  stored <- getItem "visitor_session_id" ;;
  let sessionId := match stored with Some s => s | None => "" end in
  if Js.truthy sessionId then ret sessionId
  else
    setItem "visitor_session_id" uuid ;;
    try_catch (_ <- insert_visitor_session uuid ;; ret tt) (fun _ => ret tt) ;;
    ret uuid.

Definition getSourceFromUrl (p : Page) : string :=
  Js.toLowerCase (Js.or_else (url_src p) "direct").

Definition logEvent (uuid experienceId : string) (eventType : EventType)
    : M Page unit :=
  sessionId <- getOrCreateVisitorSessionId uuid ;;
  u <- auth_getUser ;;
  source <- gets getSourceFromUrl ;;
  let payload := {| ev_experience_id := experienceId;
                    ev_event_type := eventType;
                    ev_source := source;
                    ev_session_id := sessionId;
                    ev_user_id := data u |} in
  _ <- insert_event_metric payload ;;
  ret tt.

(** [Number(localStorage.getItem(key) || 0)] *)
Definition last_seen (stored : option string) : option Z :=
  match stored with
  | None => Some 0%Z
  | Some s => if Js.truthy s then Js.Number_ s else Some 0%Z
  end.

Definition cooldown (minutes : Z) : Z := (minutes * 60 * 1000)%Z.

(** [Date.now()] is an input: [now]. *)
Definition logViewOnce (now : Z) (uuid experienceId : string) : M Page unit :=
  let dedupeKey := ("viewed_" ++ experienceId)%string in
  stored <- getItem dedupeKey ;;
  if Js.diff_lt now (last_seen stored) (cooldown 30) then ret tt
  else
    setItem dedupeKey (Js.String_ now) ;;
    logEvent uuid experienceId view.

Definition logBookingClickOnce (now : Z) (uuid experienceId : string)
    (minutes : Z) : M Page unit :=
  let dedupeKey := ("booking_" ++ experienceId)%string in
  stored <- getItem dedupeKey ;;
  if Js.diff_lt now (last_seen stored) (cooldown minutes) then ret tt
  else
    setItem dedupeKey (Js.String_ now) ;;
    logEvent uuid experienceId booking_click.

(** *** Handlers *)

Definition onDOMContentLoaded (now : Z) (uuid : string) : M Page unit :=
  u <- gets (fun p => authUser (vars p)) ;;
  setNavState u ;;
  experienceId <- gets url_id ;;
  if Js.truthy experienceId then
    modify (set_currentExperienceId experienceId) ;;
    loadAndRenderExperience experienceId ;;
    logViewOnce now uuid experienceId
  else showError "Missing experience id in URL.".

Definition onSaveClick : M Page unit :=
  u <- gets (fun p => authUser (vars p)) ;;
  match u with
  | None => modify (navigate "auth/login.html")
  | Some _ =>
      id <- gets (fun p => currentExperienceId (vars p)) ;;
      if Js.truthy id then toggleFavorite id ;; updateSaveButtonUI
      else ret tt
  end.

Definition onSignOutClick : M Page unit :=
  try_catch
    (_ <- auth_signOut ;; modify (navigate "landing.html"))
    (fun _ => modify (alert "Could not sign out. Please try again.")).

Definition onBookingClick (now : Z) (uuid : string) : M Page unit :=
  b <- gets (fun p => btnBusinessSite (dom p)) ;;
  match b with
  | Some {| trackingBound := Some (experienceId, finalUrl) |} =>
      if Js.truthy finalUrl then
        logBookingClickOnce now uuid experienceId 30 ;;
        modify (window_open finalUrl)
      else ret tt
  | _ => ret tt
  end.

(** What can happen to a loaded document.  A save click needs the save
    button, a booking click the booking link. *)
Inductive Event :=
| DOMContentLoaded (now : Z) (uuid : string)
| SaveClick
| ShareClick
| SignOutClick
| BookingClick (now : Z) (uuid : string).

Definition handler (ev : Event) : M Page unit :=
  match ev with
  | DOMContentLoaded now uuid => onDOMContentLoaded now uuid
  | SaveClick => onSaveClick
  | ShareClick => ret tt
  | SignOutClick => onSignOutClick
  | BookingClick now uuid => onBookingClick now uuid
  end.

Definition step (ev : Event) (p : Page) : Page := state_after (handler ev p).

(** The script as loaded: the three [let] initialisers have run and no
    request has been sent yet.  Everything else (document, local storage,
    tables, session) is as the visitor's browser and the platform have
    it. *)
Definition freshly_loaded (p : Page) : Prop :=
  vars p = {| authUser := None; currentExperienceId := ""; isFavorited := false |}
  /\ sent (env p) = [].

Inductive reachable : Page -> Prop :=
| reach_loaded (p : Page) : freshly_loaded p -> reachable p
| reach_step (ev : Event) (p : Page) : reachable p -> reachable (step ev p).

Definition is_favorite_request (r : Request) : bool :=
  match r with
  | SelectFavoriteOne _ _ | SelectFavorites _
  | DeleteFavorite _ _ | InsertFavorite _ _ => true
  | _ => false
  end.

(** [renderThumbnails(images)]: the urls the thumbnail row holds, in row
    order; at most four. *)
Definition renderThumbnails (images : list Image) : list string :=
  List.map image_url (firstn 4 images).

(** The row [renderDetail] builds: it hands [renderThumbnails] the images
    sorted by display order. *)
Definition thumbnails (exp : Experience) : list string :=
  renderThumbnails (sort_by order_key (image exp)).

End Detail.

(* ===================================================================== *)
(** ** dashboards/user.js *)
(* ===================================================================== *)

Module UserDashboard.

Record FavCard := {
  fc_title : string;
  fc_meta : string;
  fc_min_price : option Q;
  fc_max_price : option Q;
  fc_experience_id : string
}.

Inductive FavView :=
| fav_untouched
| fav_none_yet
| fav_cards (cs : list FavCard)
| fav_error.

Record Page := {
  currentUser : option string;
  favoriteExperienceIds : gset string;
  favoritesList : option FavView;
  toasts : list (string * string);
  env : Env
}.

Definition set_ids (ids : gset string) (p : Page) : Page :=
  {| currentUser := currentUser p; favoriteExperienceIds := ids;
     favoritesList := favoritesList p; toasts := toasts p; env := env p |}.

Definition set_list (v : FavView) (p : Page) : Page :=
  {| currentUser := currentUser p;
     favoriteExperienceIds := favoriteExperienceIds p;
     favoritesList := match favoritesList p with
                      | Some _ => Some v
                      | None => None
                      end;
     toasts := toasts p; env := env p |}.

Definition showToast (message type : string) (p : Page) : Page :=
  {| currentUser := currentUser p;
     favoriteExperienceIds := favoriteExperienceIds p;
     favoritesList := favoritesList p;
     toasts := toasts p ++ [(message, type)]; env := env p |}.

#[global] Instance page_env : HasEnv Page := {|
  env_of := env;
  with_env := fun e p =>
    {| currentUser := currentUser p;
       favoriteExperienceIds := favoriteExperienceIds p;
       favoritesList := favoritesList p; toasts := toasts p; env := e |}
|}.

(** [currentUser.id]: a [TypeError] when no user is set. *)
Definition currentUser_id : M Page string :=
  u <- gets currentUser ;;
  match u with
  | Some uid => ret uid
  | None => throw "TypeError: currentUser is null"
  end.

Definition renderCard (exp : Experience) : FavCard :=
  {| fc_title := Js.or_else (title exp) "Untitled";
     fc_meta := Js.or_else (county exp) "Location TBD";
     fc_min_price := min_price exp;
     fc_max_price := max_price exp;
     fc_experience_id := experience_id exp |}.

Definition renderFavoritesList (favorites : list Experience) : M Page unit :=
  match favorites with
  | [] => modify (set_list fav_none_yet)
  | _ :: _ => modify (set_list (fav_cards (List.map renderCard favorites)))
  end.

Definition favorites_query (ids : list string) : Query :=
  with_order (and_filter base_query (InExperienceId ids)).

(** [e.status === 'approved' && e.is_published === true] *)
Definition safe (e : Experience) : bool :=
  String.eqb (status e) "approved" && is_published e.

Definition loadFavorites : M Page unit :=
  try_catch
    (uid <- currentUser_id ;;
     favRows <- select_favorites uid ;;
     match error favRows with
     | Some e => throw e
     | None =>
         let ids := List.map fav_experience_id
                      (match data favRows with Some rows => rows | None => [] end) in
         modify (set_ids (list_to_set ids)) ;;
         match ids with
         | [] => renderFavoritesList []
         | _ :: _ =>
             exps <- select_experiences (favorites_query ids) ;;
             match error exps with
             | Some e => throw e
             | None =>
                 renderFavoritesList
                   (List.filter safe
                      (match data exps with Some rows => rows | None => [] end))
             end
         end
     end)
    (fun _ => modify (set_list fav_error)).

Definition toggleFavorite (experienceId : string) : M Page unit :=
  try_catch
    (ids <- gets favoriteExperienceIds ;;
     (if bool_decide (experienceId ∈ ids) then
        uid <- currentUser_id ;;
        r <- delete_favorite uid experienceId ;;
        match error r with
        | Some e => throw e
        | None =>
            modify (fun p => set_ids (favoriteExperienceIds p ∖ {[experienceId]}) p) ;;
            modify (showToast "Removed from favorites" "info")
        end
      else
        uid <- currentUser_id ;;
        r <- insert_favorite uid experienceId ;;
        match error r with
        | Some e => throw e
        | None =>
            modify (fun p => set_ids ({[experienceId]} ∪ favoriteExperienceIds p) p) ;;
            modify (showToast "Added to favorites" "success")
        end) ;;
     loadFavorites)
    (fun _ => modify (showToast "Error updating favorites" "error")).

End UserDashboard.

(* ===================================================================== *)
(** ** Markup built by string interpolation

    dashboards/business.js [createExperienceCard] and the landing script's
    [displayCategories] return markup text that is assigned to
    [innerHTML].  The text is built here tag by tag; the white space the
    template literal has between tags is left out. *)
(* ===================================================================== *)

Definition dq : string := String Js.dquote "".

(** [name="value"] *)
Definition attr (name value : string) : string :=
  (name ++ "=" ++ dq ++ value ++ dq)%string.

(** [haystack.includes(needle)] *)
Fixpoint contains (needle haystack : string) : bool :=
  String.prefix needle haystack ||
  match haystack with
  | EmptyString => false
  | String _ rest => contains needle rest
  end.

Module Business.

(** [truncateText]: [text.length] and [text.substring] count UTF-16 units,
    which are the bytes counted here when the text is ASCII. *)
Definition truncateText (text : string) (maxLength : nat) : string :=
  if negb (Js.truthy text) then ""
  else if (String.length text <=? maxLength)%nat then text
  else (String.substring 0 maxLength text ++ "...")%string.

(** [images?.find(img => img.is_primary)?.image_url ||
     images?.[0]?.image_url || null], set on each experience by
    [loadExperiences]. *)
Definition primaryImage (images : list Image) : string :=
  Js.or_else (url_of (List.find is_primary images)) (url_of (List.head images)).

Definition upper_ascii (a : ascii) : ascii :=
  let n := nat_of_ascii a in
  if (97 <=? n)%nat && (n <=? 122)%nat then ascii_of_nat (n - 32) else a.

(** [s.charAt(0).toUpperCase() + s.slice(1)] *)
Definition capitalise (s : string) : string :=
  match s with
  | EmptyString => EmptyString
  | String a rest => String (upper_ascii a) rest
  end.

(** A price is truthy when it is there and not zero. *)
Definition truthy_price (p : option Q) : bool :=
  match p with
  | Some v => negb (Qeq_bool v 0)
  | None => false
  end.

Section Card.
(** How the browser prints a number inside a template literal. *)
Variable show_number : Q -> string.

Definition show_price (p : option Q) : string :=
  match p with
  | Some v => show_number v
  | None => "null"
  end.

Definition priceDisplay (exp : Experience) : string :=
  if truthy_price (min_price exp) && truthy_price (max_price exp)
  then ("€" ++ show_price (min_price exp) ++ " - €" ++ show_price (max_price exp))%string
  else if truthy_price (min_price exp)
  then ("From €" ++ show_price (min_price exp))%string
  else "Price TBD".

Definition createExperienceCard (experience : Experience) : string :=
  let primaryImage :=
    Js.or_else (primaryImage (image experience))
      "https://via.placeholder.com/400x250?text=No+Image" in
  let statusClass := ("status-" ++ status experience)%string in
  let statusText := capitalise (status experience) in
  let countyDisplay := Js.or_else (county experience) "Location TBD" in
  ("<div " ++ attr "class" "experience-card" ++ ">" ++
     "<div " ++ attr "class" "experience-image" ++ " " ++
        attr "style" ("background-image: url('" ++ primaryImage ++ "')") ++ ">" ++
       "<span " ++ attr "class" ("status-badge " ++ statusClass) ++ ">" ++
         statusText ++ "</span>" ++
     "</div>" ++
     "<div " ++ attr "class" "experience-content" ++ ">" ++
       "<h3>" ++ title experience ++ "</h3>" ++
       "<p " ++ attr "class" "experience-meta" ++ ">" ++ countyDisplay ++ "</p>" ++
       "<p " ++ attr "class" "experience-description" ++ ">" ++
         truncateText (Js.or_else (short_description experience)
                         (event_description experience)) 120 ++ "</p>" ++
       "<div " ++ attr "class" "experience-footer" ++ ">" ++
         "<span " ++ attr "class" "experience-price" ++ ">" ++
           priceDisplay experience ++ "</span>" ++
         "<div " ++ attr "class" "experience-actions" ++ ">" ++
           "<button " ++ attr "class" "btn-icon" ++ " " ++
              attr "onclick" ("editExperience('" ++ experience_id experience ++ "')") ++
              " " ++ attr "title" "Edit" ++ ">✏️</button>" ++
           "<button " ++ attr "class" "btn-icon" ++ " " ++
              attr "onclick" ("deleteExperience('" ++ experience_id experience ++ "')") ++
              " " ++ attr "title" "Delete" ++ ">🗑️</button>" ++
         "</div>" ++
       "</div>" ++
     "</div>" ++
   "</div>")%string.

End Card.

(** *** The image gallery of the create and edit form

    [uploadedImages] is a list of entries; [imageId], which the edit form
    copies onto an entry and nothing reads, is left out. *)

Record File := {
  file_name : string;
  file_type : string;
  file_size : Z
}.

Record GalleryImage := {
  file : option File;
  preview : string;
  uploaded : bool;
  url : string;
  isPrimary : bool
}.

Definition set_isPrimary (b : bool) (img : GalleryImage) : GalleryImage :=
  {| file := file img; preview := preview img; uploaded := uploaded img;
     url := url img; isPrimary := b |}.

(** [if (!uploadedImages.some(i => i.isPrimary) && uploadedImages.length)
       uploadedImages[0].isPrimary = true] *)
Definition ensurePrimary (images : list GalleryImage) : list GalleryImage :=
  if existsb isPrimary images then images
  else match images with
       | [] => []
       | first :: rest => set_isPrimary true first :: rest
       end.

(** [file.type.match('image/(jpeg|png|webp)')]: the pattern is not
    anchored. *)
Definition supported (type : string) : bool :=
  contains "image/jpeg" type || contains "image/png" type ||
  contains "image/webp" type.

Definition maxFiles : nat := 5.
Definition maxSize : Z := 5 * 1024 * 1024.

Section Gallery.
(** [URL.createObjectURL]: the preview address the browser hands out. *)
Variable createObjectURL : File -> string.

(** One round of the [forEach] in [handleFiles]: an alert, or a new
    entry.  The alerts are kept in the order raised. *)
Definition add_file (acc : list GalleryImage * list string) (f : File)
    : list GalleryImage * list string :=
  if negb (supported (file_type f)) then
    (fst acc,
     snd acc ++ [(file_name f ++
                  " is not a supported format. Use JPG, PNG, or WebP.")%string])
  else if (maxSize <? file_size f)%Z then
    (fst acc,
     snd acc ++ [(file_name f ++ " is too large. Maximum size is 5MB.")%string])
  else
    (fst acc ++ [{| file := Some f; preview := createObjectURL f;
                    uploaded := false; url := ""; isPrimary := false |}],
     snd acc).

Definition handleFiles (files : list File) (uploadedImages : list GalleryImage)
    : list GalleryImage * list string :=
  if (maxFiles <? List.length uploadedImages + List.length files)%nat then
    (uploadedImages, ["Maximum 5 images allowed"])
  else
    let added := fold_left add_file files (uploadedImages, []) in
    (ensurePrimary (fst added), snd added).

End Gallery.

(** [uploadedImages.forEach((img, i) => img.isPrimary = (i === index))] *)
Fixpoint setPrimary_from (i index : nat) (images : list GalleryImage)
    : list GalleryImage :=
  match images with
  | [] => []
  | img :: rest =>
      set_isPrimary (Nat.eqb i index) img :: setPrimary_from (S i) index rest
  end.

Definition setPrimaryImage (index : nat) (uploadedImages : list GalleryImage)
    : list GalleryImage :=
  setPrimary_from 0 index uploadedImages.

(** [uploadedImages.splice(index, 1)] *)
Fixpoint splice1 (index : nat) (images : list GalleryImage)
    : list GalleryImage :=
  match images, index with
  | [], _ => []
  | _ :: rest, O => rest
  | img :: rest, S i => img :: splice1 i rest
  end.

Definition removeImage (index : nat) (uploadedImages : list GalleryImage)
    : list GalleryImage :=
  ensurePrimary (splice1 index uploadedImages).

(** [[...uploadedImages.filter(i => i.isPrimary),
      ...uploadedImages.filter(i => !i.isPrimary)]] *)
Definition ordered (uploadedImages : list GalleryImage) : list GalleryImage :=
  List.filter isPrimary uploadedImages ++
  List.filter (fun i => negb (isPrimary i)) uploadedImages.

Section Upload.
(** The storage upload of the file of the entry at a position of the
    ordered list: the public address of the stored file, or the error the
    loop throws on. *)
Variable upload : nat -> File -> Outcome string.

(** The loop of [uploadImagesToStorage] from position [i]: the addresses
    pushed, in order.  The marks [uploaded] and [url] it leaves on the
    entries are read by a later attempt only and are no part of the
    result. *)
Fixpoint upload_from (i : nat) (ordered : list GalleryImage)
    : Outcome (list string) :=
  match ordered with
  | [] => Returned []
  | imageData :: rest =>
      let pushed :=
        if uploaded imageData && Js.truthy (url imageData)
        then Returned (url imageData)
        else match file imageData with
             | Some f => upload i f
             | None => Threw "TypeError: imageData.file is null"
             end in
      match pushed with
      | Threw m => Threw m
      | Returned u =>
          match upload_from (S i) rest with
          | Returned urls => Returned (u :: urls)
          | Threw m => Threw m
          end
      end
  end.

Definition uploadImagesToStorage (uploadedImages : list GalleryImage)
    : Outcome (list string) :=
  match uploadedImages with
  | [] => Threw "No images to upload"
  | _ :: _ => upload_from 0 (ordered uploadedImages)
  end.

End Upload.

(** [imageUrls.map((url, index) => ({ image_url: url,
      is_primary: index === 0, display_order: index }))], the rows
    [submitExperience] inserts into the image table. *)
Fixpoint imageRecords_from (index : nat) (imageUrls : list string)
    : list Image :=
  match imageUrls with
  | [] => []
  | url :: rest =>
      {| image_url := url; is_primary := Nat.eqb index 0;
         display_order := Some (Z.of_nat index) |}
      :: imageRecords_from (S index) rest
  end.

Definition imageRecords (imageUrls : list string) : list Image :=
  imageRecords_from 0 imageUrls.

(** [a.display_order ?? 0], the sort key of [editExperience]. *)
Definition edit_order_key (i : Image) : Z :=
  match display_order i with
  | Some n => n
  | None => 0%Z
  end.

(** The gallery [editExperience] builds from the stored images of an
    experience. *)
Definition editImages (images : list Image) : list GalleryImage :=
  ensurePrimary
    (List.map
       (fun img => {| file := None; preview := image_url img; uploaded := true;
                      url := image_url img; isPrimary := is_primary img |})
       (sort_by edit_order_key images)).

End Business.

Module Landing.

Record Category := {
  category_id : string;
  category_name : string;
  category_image_url : string
}.

Definition categoryCard (category : Category) : string :=
  ("<div " ++ attr "class" "image-card" ++ " " ++
      attr "onclick" ("searchByCategory('" ++ category_id category ++ "', '" ++
                      category_name category ++ "')") ++ ">" ++
     "<img " ++ attr "src" (category_image_url category) ++ " " ++
        attr "alt" (category_name category) ++ " " ++
        attr "onerror" ("this.src='https://via.placeholder.com/400x300?text=" ++
                        Js.encodeURIComponent (category_name category) ++ "'") ++
        ">" ++
     "<div " ++ attr "class" "image-card-overlay" ++ ">" ++
       "<h3 " ++ attr "class" "image-card-title" ++ ">" ++
         category_name category ++ "</h3>" ++
     "</div>" ++
   "</div>")%string.

(** [displayCategories]: the text assigned to the grid's [innerHTML]. *)
Definition displayCategories (categories : list Category) : string :=
  match categories with
  | [] => "<p " ++ attr "class" "loading" ++ ">No categories available yet</p>"
  | _ :: _ => String.concat "" (List.map categoryCard categories)
  end%string.

End Landing.

(* ===================================================================== *)
(** ** dashboards/businessmetrics.js *)
(* ===================================================================== *)

Module BusinessMetrics.

Record Kpis := { k_views : nat; k_saves : nat; k_clicks : nat }.

Record Series := {
  days : list string;
  views : list Z;
  saves : list Z;
  bookingClicks : list Z
}.

Record Chart := {
  labels : list string;
  datasets : list (string * list Z)
}.

(** The page-level [let] variables. *)
Record Vars := {
  currentBusiness : option string;
  currentDays : Z;
  currentExperienceId : string;
  activityChart : option Chart;
  selectedMetric : string;
  lastDailySeries : option Series;
  lastKpis : Kpis
}.

(** The elements written by the KPI refresh; [chart_ready] says that the
    chart canvas is in the document and the chart library is loaded. *)
Record Dom := {
  kpiViews : option string;
  kpiSaves : option string;
  kpiClicks : option string;
  snapshotLabel : option string;
  experienceSelect : option string;
  chart_ready : bool
}.

(** What the browser's clock and locale answer during one refresh. *)
Record Browser := {
  sinceISO : Z -> string;
  today : string;
  buildDayList : string -> string -> list string;
  toLocaleString : Z -> string
}.

Record Page := {
  vars : Vars;
  dom : Dom;
  browser : Browser;
  env : Env
}.

Definition set_vars (v : Vars) (p : Page) : Page :=
  {| vars := v; dom := dom p; browser := browser p; env := env p |}.

Definition set_dom (d : Dom) (p : Page) : Page :=
  {| vars := vars p; dom := d; browser := browser p; env := env p |}.

#[global] Instance page_env : HasEnv Page := {|
  env_of := env;
  with_env := fun e p =>
    {| vars := vars p; dom := dom p; browser := browser p; env := e |}
|}.

Definition write (t : string) (el : option string) : option string :=
  match el with
  | Some _ => Some t
  | None => None
  end.

(** [setText(id, text)] for the three KPI tiles. *)
Definition set_kpi_texts (v s c : string) (p : Page) : Page :=
  set_dom {| kpiViews := write v (kpiViews (dom p));
             kpiSaves := write s (kpiSaves (dom p));
             kpiClicks := write c (kpiClicks (dom p));
             snapshotLabel := snapshotLabel (dom p);
             experienceSelect := experienceSelect (dom p);
             chart_ready := chart_ready (dom p) |} p.

Definition set_lastKpis (k : Kpis) (p : Page) : Page :=
  set_vars {| currentBusiness := currentBusiness (vars p);
              currentDays := currentDays (vars p);
              currentExperienceId := currentExperienceId (vars p);
              activityChart := activityChart (vars p);
              selectedMetric := selectedMetric (vars p);
              lastDailySeries := lastDailySeries (vars p);
              lastKpis := k |} p.

Definition set_series_and_chart (s : option Series) (c : option Chart)
    (p : Page) : Page :=
  set_vars {| currentBusiness := currentBusiness (vars p);
              currentDays := currentDays (vars p);
              currentExperienceId := currentExperienceId (vars p);
              activityChart := c;
              selectedMetric := selectedMetric (vars p);
              lastDailySeries := s;
              lastKpis := lastKpis (vars p) |} p.

Definition setSelectedExperience (expId : string) (p : Page) : Page :=
  let p :=
    set_vars {| currentBusiness := currentBusiness (vars p);
                currentDays := currentDays (vars p);
                currentExperienceId := expId;
                activityChart := activityChart (vars p);
                selectedMetric := selectedMetric (vars p);
                lastDailySeries := lastDailySeries (vars p);
                lastKpis := lastKpis (vars p) |} p in
  let expText := if Js.truthy expId then "Selected: 1 experience"
                 else "Selected: All experiences" in
  set_dom {| kpiViews := kpiViews (dom p); kpiSaves := kpiSaves (dom p);
             kpiClicks := kpiClicks (dom p);
             snapshotLabel :=
               write (expText ++ " • Last " ++
                      Js.String_ (currentDays (vars p)) ++ " days")%string
                 (snapshotLabel (dom p));
             experienceSelect := write expId (experienceSelect (dom p));
             chart_ready := chart_ready (dom p) |} p.

(** [count || 0] *)
Definition count_or_zero (r : Resp nat) : nat :=
  match data r with
  | Some n => n
  | None => 0%nat
  end.

Definition countEvents (businessId start : string) (eventType : EventType)
    (experienceId : string) : M Page nat :=
  r <- select_count (CountEvents businessId start eventType experienceId) ;;
  match error r with
  | Some _ => ret 0%nat
  | None => ret (count_or_zero r)
  end.

Definition countSaves (businessId start experienceId : string) : M Page nat :=
  r <- select_count (CountSaves businessId start experienceId) ;;
  match error r with
  | Some _ => ret 0%nat
  | None => ret (count_or_zero r)
  end.

Definition loadEventsDaily (businessId startDateStr experienceId : string)
    : M Page (list DailyEvent) :=
  r <- select_events_daily (SelectEventsDaily businessId startDateStr experienceId) ;;
  match error r with
  | Some _ => ret []
  | None => ret (match data r with Some rows => rows | None => [] end)
  end.

Definition loadSavesDaily (businessId startDateStr experienceId : string)
    : M Page (list DailySave) :=
  r <- select_saves_daily (SelectSavesDaily businessId startDateStr experienceId) ;;
  match error r with
  | Some _ => ret []
  | None => ret (match data r with Some rows => rows | None => [] end)
  end.

(** [m.set(day, (m.get(day) || 0) + total)].  The totals are added as
    integers; JavaScript adds them as numbers, which is the same as long
    as the counts stay within 2^53 ([exact_counts], below). *)
Definition add_total (m : gmap string Z) (day : string) (total : Z)
    : gmap string Z :=
  <[day := (default 0%Z (m !! day) + total)%Z]> m.

Definition totals_of (kind : string) (rows : list DailyEvent) : gmap string Z :=
  fold_left
    (fun m r => if String.eqb (de_event_type r) kind
                then add_total m (de_day r) (de_total r) else m)
    rows ∅.

Definition save_totals (rows : list DailySave) : gmap string Z :=
  fold_left (fun m r => add_total m (ds_day r) (ds_saves r)) rows ∅.

Definition build_series (dayList : list string) (eventsDaily : list DailyEvent)
    (savesDaily : list DailySave) : Series :=
  let viewsMap := totals_of "view" eventsDaily in
  let clicksMap := totals_of "booking_click" eventsDaily in
  let savesMap := save_totals savesDaily in
  {| days := dayList;
     views := List.map (fun d => default 0%Z (viewsMap !! d)) dayList;
     saves := List.map (fun d => default 0%Z (savesMap !! d)) dayList;
     bookingClicks := List.map (fun d => default 0%Z (clicksMap !! d)) dayList |}.

Definition chart_datasets (metric : string) (s : Series)
    : list (string * list Z) :=
  (if String.eqb metric "view" then [("Views", views s)] else []) ++
  (if String.eqb metric "save" then [("Saves", saves s)] else []) ++
  (if String.eqb metric "booking_click"
   then [("Booking clicks", bookingClicks s)] else []) ++
  (if String.eqb metric "all"
   then [("Views", views s); ("Saves", saves s);
         ("Booking clicks", bookingClicks s)]
   else []).

(** [lastDailySeries = series; renderActivityChart(series)] *)
Definition show_series (s : Series) (p : Page) : Page :=
  let chart :=
    if chart_ready (dom p)
    then Some {| labels := days s;
                 datasets := chart_datasets (selectedMetric (vars p)) s |}
    else activityChart (vars p) in
  set_series_and_chart (Some s) chart p.

Definition refreshDailyActivity : M Page unit :=
  b <- gets (fun p => currentBusiness (vars p)) ;;
  match b with
  | None => ret tt
  | Some businessId =>
      startDateStr <- gets (fun p =>
        String.substring 0 10 (sinceISO (browser p) (currentDays (vars p)))) ;;
      endDateStr <- gets (fun p => today (browser p)) ;;
      dayList <- gets (fun p => buildDayList (browser p) startDateStr endDateStr) ;;
      experienceId <- gets (fun p => currentExperienceId (vars p)) ;;
      both <- promise_all2
                (loadEventsDaily businessId startDateStr experienceId)
                (loadSavesDaily businessId startDateStr experienceId) ;;
      let (eventsDaily, savesDaily) := both : list DailyEvent * list DailySave in
      modify (show_series (build_series dayList eventsDaily savesDaily))
  end.

(** [formatNumber] *)
Definition formatNumber (p : Page) (n : nat) : string :=
  toLocaleString (browser p) (Z.of_nat n).

(** The funnel block written by [renderFunnel] is percentages in floating
    point and is read by nothing else; it is not part of this state. *)
Definition refreshKpis : M Page unit :=
  b <- gets (fun p => currentBusiness (vars p)) ;;
  match b with
  | None => ret tt
  | Some businessId =>
      modify (set_kpi_texts "—" "—" "—") ;;
      start <- gets (fun p => sinceISO (browser p) (currentDays (vars p))) ;;
      experienceId <- gets (fun p => currentExperienceId (vars p)) ;;
      counts <- promise_all3
                  (countEvents businessId start view experienceId)
                  (countSaves businessId start experienceId)
                  (countEvents businessId start booking_click experienceId) ;;
      let '(views, saves, clicks) := counts : nat * nat * nat in
      modify (fun p => set_kpi_texts (formatNumber p views)
                         (formatNumber p saves) (formatNumber p clicks) p) ;;
      modify (set_lastKpis {| k_views := views; k_saves := saves;
                              k_clicks := clicks |}) ;;
      modify (fun p => setSelectedExperience (currentExperienceId (vars p)) p) ;;
      refreshDailyActivity
  end.

Definition is_count_request (r : Request) : bool :=
  match r with
  | CountEvents _ _ _ _ | CountSaves _ _ _ => true
  | _ => false
  end.

(** *** Top referrers

    The body of [refreshTopReferrers] between the answer of its query and
    the chart: [rows] are the [source] fields of the rows answered. *)




End BusinessMetrics.

(* ===================================================================== *)
(** ** Vocabulary of the properties *)
(* ===================================================================== *)

(** What a visitor without privileges may be shown: status "approved" in
    any letter case, and published. *)
Definition surfaced_ok (e : Experience) : Prop :=
  Js.toLowerCase (status e) = "approved" /\ is_published e = true.

(** The rows an awaited list request hands to the page; none when it
    rejects, answers with an error object or answers null. *)
Definition rows_of {S A : Type} (r : Outcome (list A) * S) : list A :=
  match outcome_of r with
  | Returned l => l
  | Threw _ => []
  end.

Definition data_rows {S A : Type} (r : Outcome (Resp (list A)) * S) : list A :=
  match outcome_of r with
  | Returned {| data := Some l |} => l
  | _ => []
  end.

Definition data_row {S A : Type} (r : Outcome (Resp A) * S) : list A :=
  match outcome_of r with
  | Returned {| data := Some x |} => [x]
  | _ => []
  end.

(** Sample rows for the worked instances. *)
Definition img (url : string) (primary : bool) (order : option Z) : Image :=
  {| image_url := url; is_primary := primary; display_order := order |}.

Definition experience_with (id name st : string) (published : bool)
    (price : option Q) (imgs : list Image) : Experience :=
  {| experience_id := id; title := name; short_description := "";
     event_description := ""; county := "Dublin"; min_price := price;
     max_price := None; status := st; is_published := published;
     booking_url := ""; business_name := "Host"; website_url := "";
     created_at := 0; image := imgs |}.

(** Two unflagged images, fetched with the higher display order first. *)
Definition out_of_order : Experience :=
  experience_with "e1" "Kayak tour" "approved" true (Some 60)
    [img "b.jpg" false (Some 2%Z); img "a.jpg" false (Some 1%Z)].

Definition no_images : Experience :=
  experience_with "e2" "Pottery" "approved" true (Some 40) [].

(** A title and a category name that carry markup. *)
Definition hostile : Experience :=
  experience_with "e3" "<img src=x onerror=alert(1)>" "approved" true None [].

Definition hostile_category : Landing.Category :=
  {| Landing.category_id := "c1";
     Landing.category_name := "<script>alert(1)</script>";
     Landing.category_image_url := "food.jpg" |}.

(** The two ways the role lookup, sent as request number [n], can fail:
    it comes back with an error object and no row (the platform reports an
    error, or the users table has no single row for the user), or the
    awaited promise rejects. *)
Inductive LookupFailure := answers_error | throws.

Definition role_lookup_fails (how : LookupFailure) (e : Env) (n : nat)
    (uid : string) : Prop :=
  match how with
  | answers_error =>
      (exists m, fault e n (SelectRole uid) = error_result m) \/
      (fault e n (SelectRole uid) = no_fault /\ data (role_answer uid e) = None)
  | throws => exists m, fault e n (SelectRole uid) = rejects m
  end.

(** A signed-in visitor whose session the page can read as request [n]. *)
Definition signed_in (e : Env) (n : nat) (uid : string) : Prop :=
  session e = Some uid /\ fault e n AuthGetUser = no_fault.

(** All three nav containers are in the document. *)
Definition complete (n : Nav) : Prop :=
  navGuest n <> None /\ navUser n <> None /\ navBusiness n <> None.

(** A platform for the worked instances. *)
Definition no_faults : nat -> Request -> Fault := fun _ _ => no_fault.

Definition role_lookup_rejects : nat -> Request -> Fault :=
  fun _ r => match r with SelectRole _ => rejects "network" | _ => no_fault end.

Definition role_lookup_errors : nat -> Request -> Fault :=
  fun _ r => match r with SelectRole _ => error_result "timeout" | _ => no_fault end.

Definition platform (who : option string) (faults : nat -> Request -> Fault)
    : Env :=
  {| tbl_experiences := [out_of_order; no_images; hostile];
     tbl_experience_category :=
       [{| link_category_id := "50f6b39a-2399-43fa-a661-b85930e8f1d3";
           link_experience_id := "e1" |}];
     tbl_users := [{| user_id := "u1"; role := "user" |}];
     tbl_favorite := [];
     tbl_event_metric := [];
     tbl_visitor_session := [];
     session := who;
     or_sem := fun _ _ => true;
     view_count := fun _ => Some 7%nat;
     view_events_daily := fun _ => [];
     view_saves_daily := fun _ => [];
     fault := faults;
     sent := [] |}.

Definition full_nav : Nav :=
  {| navGuest := Some "flex"; navUser := Some "none"; navBusiness := Some "none" |}.

Definition finder_page (chosen_type : string) (e : Env) : Finder.Page :=
  {| Finder.state := {| Finder.sel_recipient := ""; Finder.sel_occasion := "";
                        Finder.sel_type := chosen_type; Finder.sel_county := "";
                        Finder.sel_budget := "" |};
     Finder.nav := full_nav;
     Finder.matchesList := Some Finder.loading;
     Finder.env := e |}.

Definition experiences_page (category : string) (e : Env) : Experiences.Page :=
  {| Experiences.heroSearch := ""; Experiences.categorySelect := category;
     Experiences.countySelect := ""; Experiences.budgetSelect := "";
     Experiences.nav := full_nav;
     Experiences.resultsMeta := Some "";
     Experiences.experiencesGrid := Some Experiences.grid_loading;
     Experiences.env := e |}.

Definition detail_page (user : option string) (favorited : bool) (id : string)
    (e : Env) : Detail.Page :=
  {| Detail.vars := {| Detail.authUser := user;
                       Detail.currentExperienceId := "";
                       Detail.isFavorited := favorited |};
     Detail.dom := {| Detail.nav := full_nav;
                      Detail.detailError := Some None;
                      Detail.btnSave := Some "";
                      Detail.mainImage := Some "";
                      Detail.btnBusinessSite :=
                        Some {| Detail.href := ""; Detail.enabled := false;
                                Detail.trackingBound := None |} |};
     Detail.browser := {| Detail.localStorage := ∅; Detail.location := None;
                          Detail.opened := []; Detail.alerts := [] |};
     Detail.url_id := id;
     Detail.url_src := "";
     Detail.env := e |}.

(** ASCII text: every byte is below 128.  On such text the bytes are the
    UTF-16 units JavaScript counts, and its letters are A to Z and a to
    z. *)
Definition plain_char (c : ascii) : bool := (nat_of_ascii c <? 128)%nat.

Definition plain (s : string) : bool :=
  forallb plain_char (list_ascii_of_string s).

(** The small letter of a capital letter A to Z, by the alphabet; every
    other character is itself. *)
Definition small_letter (c : ascii) : ascii :=
  match
    List.find (fun letters : ascii * ascii => Ascii.eqb (fst letters) c)
      (combine (list_ascii_of_string "ABCDEFGHIJKLMNOPQRSTUVWXYZ")
               (list_ascii_of_string "abcdefghijklmnopqrstuvwxyz"))
  with
  | Some letters => snd letters
  | None => c
  end.

Definition in_small_letters (s : string) : string :=
  string_of_list_ascii (List.map small_letter (list_ascii_of_string s)).

(** The display order of an image as the detail page reads it: a missing
    order counts as 999. *)
Definition shown_order (i : Image) : Z :=
  match display_order i with
  | Some n => n
  | None => 999%Z
  end.

(** The detail page opened from an address that names a source. *)
Definition arrived_from (src : string) (p : Detail.Page) : Detail.Page :=
  {| Detail.vars := Detail.vars p; Detail.dom := Detail.dom p;
     Detail.browser := Detail.browser p; Detail.url_id := Detail.url_id p;
     Detail.url_src := src; Detail.env := Detail.env p |}.

(** Five images fetched out of order, none flagged: one has no display
    order and one has an order above 999. *)
Definition five_images : Experience :=
  experience_with "e7" "Cliff walk" "approved" true (Some 25)
    [img "late.jpg" false (Some 1000%Z); img "none.jpg" false None;
     img "c.jpg" false (Some 3%Z); img "a.jpg" false (Some 1%Z);
     img "b.jpg" false (Some 2%Z)].

(** What stays true of the detail page from load onwards: no user is
    known to it, the favourite flag is off, and no request about the
    favourite table has been sent. *)
Definition anonymous (p : Detail.Page) : Prop :=
  Detail.authUser (Detail.vars p) = None /\
  Detail.isFavorited (Detail.vars p) = false /\
  forall r, In r (sent (Detail.env p)) -> Detail.is_favorite_request r = false.

(** A computation of the detail page that keeps it [anonymous]. *)
Definition keeps {A : Type} (c : M Detail.Page A) : Prop :=
  forall p, anonymous p -> anonymous (state_after (c p)).

(** One logging attempt of either kind, as the page makes it: a view at
    load, a booking click with the fixed 30 minutes. *)
Definition attempt (kind : EventType) (id : string) (try : Z * string)
    : M Detail.Page unit :=
  match kind with
  | view => Detail.logViewOnce (fst try) (snd try) id
  | booking_click => Detail.logBookingClickOnce (fst try) (snd try) id 30
  end.

(** The cache key of an experience and an event kind. *)
Definition dedupe_key (kind : EventType) (id : string) : string :=
  match kind with
  | view => "viewed_" ++ id
  | booking_click => "booking_" ++ id
  end%string.

(** Attempts one after the other, each with its clock reading and the
    uuid the browser would hand out. *)
Fixpoint run_attempts (kind : EventType) (id : string)
    (tries : list (Z * string)) (p : Detail.Page) : Detail.Page :=
  match tries with
  | [] => p
  | try :: rest =>
      run_attempts kind id rest (state_after (attempt kind id try p))
  end.

Definition same_kind (a b : EventType) : bool :=
  match a, b with
  | view, view | booking_click, booking_click => true
  | _, _ => false
  end.

(** How many events of the kind the metric table holds for the experience. *)
Definition recorded (kind : EventType) (id : string) (p : Detail.Page) : nat :=
  List.length
    (List.filter
       (fun row => String.eqb (ev_experience_id row) id &&
                   same_kind (ev_event_type row) kind)
       (tbl_event_metric (Detail.env p))).

(** Clock readings, in milliseconds, that all fall in one cool-down
    window: each later one is less than 30 minutes, 1 800 000 ms, after
    each earlier one. *)
Definition within_window (times : list Z) : Prop :=
  ForallOrdPairs (fun t t' => (t' - t < 1800000)%Z) times.

(** The cache lets an attempt at clock reading [t] through: it has no
    entry for the experience and kind and [t] is at least 30 minutes after
    the epoch, or the entry is the reading [c] an earlier attempt stored,
    as [String(c)], and [t] is at least 30 minutes after [c]. *)
Definition cache_lets_through (p : Detail.Page) (kind : EventType)
    (id : string) (t : Z) : Prop :=
  match Detail.localStorage (Detail.browser p) !! dedupe_key kind id with
  | None => (1800000 <= t)%Z
  | Some text => exists c, text = Js.String_ c /\ (1800000 <= t - c)%Z
  end.

(** A platform on which no request fails. *)
Definition healthy (e : Env) : Prop := forall n r, fault e n r = no_fault.

(** Every count query of the metrics dashboard comes back with an error
    object; and no request at all rejects. *)
Definition count_queries_fail (e : Env) : Prop :=
  forall n r, BusinessMetrics.is_count_request r = true ->
              exists m, fault e n r = error_result m.

Definition nothing_rejects (e : Env) : Prop :=
  forall n r m, fault e n r <> rejects m.

(** The favourite ids the store holds for a user, and the list the user
    dashboard derives from the store alone: the experiences of those ids
    that are approved and published, or the empty state. *)
Definition favourites_of (uid : string) (e : Env) : list string :=
  List.map fav_experience_id
    (List.filter (fun r => String.eqb (fav_user_id r) uid) (tbl_favorite e)).

Definition view_of (rows : list Experience) : UserDashboard.FavView :=
  match rows with
  | [] => UserDashboard.fav_none_yet
  | _ :: _ => UserDashboard.fav_cards (List.map UserDashboard.renderCard rows)
  end.

Definition view_from_store (uid : string) (e : Env) : UserDashboard.FavView :=
  match favourites_of uid e with
  | [] => UserDashboard.fav_none_yet
  | ids =>
      view_of (List.filter UserDashboard.safe
                 (run_select (or_sem e) (tbl_experiences e)
                    (UserDashboard.favorites_query ids)))
  end.

(** The request a favourite toggle makes for the state it believes in. *)
Definition toggle_request (believed : bool) (uid eid : string) : Request :=
  if believed then DeleteFavorite uid eid else InsertFavorite uid eid.

Definition user_page (uid : string) (known : list string) (e : Env)
    : UserDashboard.Page :=
  {| UserDashboard.currentUser := Some uid;
     UserDashboard.favoriteExperienceIds := list_to_set known;
     UserDashboard.favoritesList := Some UserDashboard.fav_untouched;
     UserDashboard.toasts := [];
     UserDashboard.env := e |}.

(** A dashboard that is out of date: the store holds "e1" for the user,
    the page believes in "e3". *)
Definition dashboard_out_of_date : UserDashboard.Page :=
  user_page "u1" ["e3"]
    (set_favorite [{| fav_user_id := "u1"; fav_experience_id := "e1" |}]
       (platform (Some "u1") no_faults)).

(** A metrics dashboard of a known business on a platform whose count
    queries are refused. *)
Definition counts_refused : nat -> Request -> Fault :=
  fun _ r => if BusinessMetrics.is_count_request r
             then error_result "permission denied" else no_fault.

Definition metrics_page (e : Env) : BusinessMetrics.Page :=
  {| BusinessMetrics.vars :=
       {| BusinessMetrics.currentBusiness := Some "b1";
          BusinessMetrics.currentDays := 30;
          BusinessMetrics.currentExperienceId := "";
          BusinessMetrics.activityChart := None;
          BusinessMetrics.selectedMetric := "all";
          BusinessMetrics.lastDailySeries := None;
          BusinessMetrics.lastKpis :=
            {| BusinessMetrics.k_views := 5; BusinessMetrics.k_saves := 2;
               BusinessMetrics.k_clicks := 1 |} |};
     BusinessMetrics.dom :=
       {| BusinessMetrics.kpiViews := Some "5";
          BusinessMetrics.kpiSaves := Some "2";
          BusinessMetrics.kpiClicks := Some "1";
          BusinessMetrics.snapshotLabel := Some "";
          BusinessMetrics.experienceSelect := Some "";
          BusinessMetrics.chart_ready := true |};
     BusinessMetrics.browser :=
       {| BusinessMetrics.sinceISO := fun _ => "2026-10-03T00:00:00.000Z";
          BusinessMetrics.today := "2026-11-02";
          BusinessMetrics.buildDayList := fun a b => [a; b];
          BusinessMetrics.toLocaleString := Js.String_ |};
     BusinessMetrics.env := e |}.

(** What a choice of filters asks of a row, said over the tables alone:
    listed (approved in either spelling, and published), in the chosen
    county, priced inside the chosen bucket, and linked to the chosen
    category.  An empty choice, and a budget value that is none of the
    four, ask nothing. *)
Definition listed (e : Experience) : bool :=
  mem_string (status e) ["approved"; "Approved"] && is_published e.

Definition in_county (chosen : string) (e : Experience) : bool :=
  if Js.truthy chosen then String.eqb (county e) chosen else true.

Definition bucket_of (budget : string) : option Bucket :=
  if String.eqb budget "under_50" then Some under_50
  else if String.eqb budget "50_100" then Some b50_100
  else if String.eqb budget "100_200" then Some b100_200
  else if String.eqb budget "200_plus" then Some b200_plus
  else None.

Definition price_fits (budget : string) (e : Experience) : bool :=
  match bucket_of budget with
  | Some b =>
      match min_price e with Some p => in_bucket b p | None => false end
  | None => true
  end.

Definition linked (env : Env) (categoryId : string) (e : Experience) : bool :=
  existsb (fun r => String.eqb (link_category_id r) categoryId &&
                    String.eqb (link_experience_id r) (experience_id e))
    (tbl_experience_category env).

Definition in_category (env : Env) (chosen : string) (e : Experience) : bool :=
  if Js.truthy chosen then linked env chosen e else true.

Definition wanted (env : Env) (categoryId county_ budget : string)
    (e : Experience) : bool :=
  listed e && in_county county_ e && price_fits budget e &&
  in_category env categoryId e.

(** The text search of the experiences page: with a search text, the rows
    for which the platform reads the filter text
    [title.ilike.%text%,event_description.ilike.%text%] as true. *)
Definition searched (env : Env) (text : string) (e : Experience) : bool :=
  if Js.truthy text
  then or_sem env
         ("title.ilike.%" ++ text ++ "%,event_description.ilike.%" ++ text ++ "%")
         e
  else true.

(** The ASCII white space: space, tab, line feed, vertical tab, form feed
    and carriage return. *)
Definition white (c : ascii) : bool :=
  Ascii.eqb c " " || Ascii.eqb c (ascii_of_nat 9) ||
  Ascii.eqb c (ascii_of_nat 10) || Ascii.eqb c (ascii_of_nat 11) ||
  Ascii.eqb c (ascii_of_nat 12) || Ascii.eqb c (ascii_of_nat 13).

Definition blank (s : string) : bool :=
  forallb white (list_ascii_of_string s).

(** An ASCII character that is not white space. *)
Definition solid (c : ascii) : bool := plain_char c && negb (white c).

(** Text that is empty, or begins and ends with an ASCII character that
    is not white space: what is left of a search text when the blanks
    around it are taken away. *)
Definition trimmed (q : string) : Prop :=
  q = "" \/
  (exists c rest, q = String c rest /\ solid c = true) /\
  (exists front c, q = (front ++ String c "")%string /\ solid c = true).

(** Every experience row carries an id (the table's key). *)
Definition ids_present (env : Env) : Prop :=
  Forall (fun e => experience_id e <> "") (tbl_experiences env).

(** The ids of the cards a panel or grid shows; none in any other state. *)
Definition finder_shown (p : Finder.Page) : list string :=
  match Finder.matchesList p with
  | Some (Finder.match_cards cs) => List.map Finder.card_view_id cs
  | _ => []
  end.

Definition experiences_shown (p : Experiences.Page) : list string :=
  match Experiences.experiencesGrid p with
  | Some (Experiences.grid_cards cs) => List.map Experiences.card_data_id cs
  | _ => []
  end.

(** The views of a list of rows. *)
Definition matches_view (rows : list Experience) : Finder.MatchesView :=
  match rows with
  | [] => Finder.no_matches
  | _ :: _ => Finder.match_cards (List.map Finder.renderMatchCard rows)
  end.

Definition grid_view (rows : list Experience) : Experiences.GridView :=
  match rows with
  | [] => Experiences.grid_no_results
  | _ :: _ => Experiences.grid_cards (List.map Experiences.renderCard rows)
  end.

(** Some request that the page sent after [before] was failed by the
    platform: it rejected or came back with an error object. *)
Definition failed_since (before after : Env) : Prop :=
  exists n r, (List.length (sent before) <= n)%nat /\
              nth_error (sent after) n = Some r /\
              fault before n r <> no_fault.

(** The five characters [escapeHtml] rewrites. *)
Definition special (c : ascii) : bool :=
  Ascii.eqb c "&" || Ascii.eqb c "<" || Ascii.eqb c ">" ||
  Ascii.eqb c Js.dquote || Ascii.eqb c "'".

Definition clean (s : string) : bool :=
  negb (Js.includes "&" s || Js.includes "<" s || Js.includes ">" s ||
        Js.includes Js.dquote s || Js.includes "'" s).

(** The users table holds a row that gives the user the business role. *)
Definition business_user (e : Env) (uid : string) : Prop :=
  exists row, In row (tbl_users e) /\ user_id row = uid /\ role row = "business".

(** The rows the detail query finds for an id: that id, status "approved"
    in exactly this spelling, and published. *)
Definition loadable (id : string) (e : Experience) : bool :=
  String.eqb (experience_id e) id && String.eqb (status e) "approved" &&
  is_published e.

(** More sample rows: a published row whose status is spelled with a
    capital, and a row that can be booked. *)
Definition capitalised : Experience :=
  experience_with "e4" "Sea swim" "Approved" true (Some 20) [].


(** The sample platform with another experiences table. *)
Definition platform_with (rows : list Experience) (who : option string)
    (faults : nat -> Request -> Fault) : Env :=
  {| tbl_experiences := rows;
     tbl_experience_category := tbl_experience_category (platform who faults);
     tbl_users := tbl_users (platform who faults);
     tbl_favorite := []; tbl_event_metric := []; tbl_visitor_session := [];
     session := who; or_sem := fun _ _ => true;
     view_count := fun _ => Some 7%nat;
     view_events_daily := fun _ => []; view_saves_daily := fun _ => [];
     fault := faults; sent := [] |}.

(** An experience as created at a given time. *)
Definition dated (t : Z) (e : Experience) : Experience :=
  {| experience_id := experience_id e; title := title e;
     short_description := short_description e;
     event_description := event_description e; county := county e;
     min_price := min_price e; max_price := max_price e; status := status e;
     is_published := is_published e; booking_url := booking_url e;
     business_name := business_name e; website_url := website_url e;
     created_at := t; image := image e |}.

Definition saved_by (uid eid : string) : FavoriteRow :=
  {| fav_user_id := uid; fav_experience_id := eid |}.

(** A store for the favourites list: the kayak tour, created first, the
    pottery class, created last, and a draft in between that is approved
    but not published; the user has saved all three, and someone else the
    sea swim, which is not in the table. *)
Definition favourites_platform : Env :=
  set_favorite
    [saved_by "u1" "e1"; saved_by "u2" "e4"; saved_by "u1" "e8";
     saved_by "u1" "e2"]
    (platform_with
       [dated 10 out_of_order;
        dated 20 (experience_with "e8" "Draft" "approved" false None []);
        dated 30 no_images]
       (Some "u1") no_faults).

(** An experience as found in a given county. *)
Definition located (c : string) (e : Experience) : Experience :=
  {| experience_id := experience_id e; title := title e;
     short_description := short_description e;
     event_description := event_description e; county := c;
     min_price := min_price e; max_price := max_price e; status := status e;
     is_published := is_published e; booking_url := booking_url e;
     business_name := business_name e; website_url := website_url e;
     created_at := created_at e; image := image e |}.

(** A platform that reads the filter text of the search for "kayak" as
    "the title or the description holds kayak, in any letter case", and
    finds no row for any other filter text.  Its table holds the kayak
    tour and four rows that each miss one of the choices of
    [searching_page]: the search text, the budget, the county, the
    category. *)
Definition kayak_search (raw : string) (e : Experience) : bool :=
  String.eqb raw "title.ilike.%kayak%,event_description.ilike.%kayak%" &&
  (contains "kayak" (Js.toLowerCase (title e)) ||
   contains "kayak" (Js.toLowerCase (event_description e))).

Definition outdoors_id : string := "50f6b39a-2399-43fa-a661-b85930e8f1d3".

Definition searching_platform : Env :=
  {| tbl_experiences :=
       [experience_with "e12" "Pottery day" "approved" true (Some 60) [];
        experience_with "e9" "Kayak lesson" "approved" true (Some 150) [];
        out_of_order;
        located "Cork"
          (experience_with "e10" "Night kayak" "approved" true (Some 60) []);
        experience_with "e11" "Kayak polo" "approved" true (Some 70) []];
     tbl_experience_category :=
       [{| link_category_id := outdoors_id; link_experience_id := "e1" |};
        {| link_category_id := outdoors_id; link_experience_id := "e12" |};
        {| link_category_id := outdoors_id; link_experience_id := "e9" |};
        {| link_category_id := outdoors_id; link_experience_id := "e10" |}];
     tbl_users := []; tbl_favorite := []; tbl_event_metric := [];
     tbl_visitor_session := []; session := None;
     or_sem := kayak_search;
     view_count := fun _ => None;
     view_events_daily := fun _ => []; view_saves_daily := fun _ => [];
     fault := no_faults; sent := [] |}.

(** The experiences page with every filter set: the search box holds
    "kayak" between blanks, the category is Outdoors, the county Dublin,
    the budget 50 to 100. *)
Definition searching_page : Experiences.Page :=
  {| Experiences.heroSearch := "  kayak ";
     Experiences.categorySelect := outdoors_id;
     Experiences.countySelect := "Dublin";
     Experiences.budgetSelect := "50_100";
     Experiences.nav := full_nav;
     Experiences.resultsMeta := Some "";
     Experiences.experiencesGrid := Some Experiences.grid_loading;
     Experiences.env := searching_platform |}.

(** What the business can do to the gallery of the form: add a batch of
    files, make an entry the primary one, remove an entry.  The last two
    are buttons drawn on the entries that are there. *)
Inductive GalleryAction :=
| AddFiles (files : list Business.File)
| MakePrimary (index : nat)
| Remove (index : nat).

Definition gallery_step (createObjectURL : Business.File -> string)
    (a : GalleryAction) (g : list Business.GalleryImage)
    : list Business.GalleryImage :=
  match a with
  | AddFiles files => fst (Business.handleFiles createObjectURL files g)
  | MakePrimary index => Business.setPrimaryImage index g
  | Remove index => Business.removeImage index g
  end.

Definition offered (a : GalleryAction) (g : list Business.GalleryImage) : Prop :=
  match a with
  | AddFiles _ => True
  | MakePrimary index | Remove index => (index < List.length g)%nat
  end.

(** How many entries are marked primary. *)
Definition primaries (g : list Business.GalleryImage) : nat :=
  List.length (List.filter Business.isPrimary g).

(** How many stored images are flagged primary. *)
Definition flagged (images : list Image) : nat :=
  List.length (List.filter is_primary images).

(** The galleries the form can come to hold from the gallery it started
    with: that one, and what the offered actions make of them.  The
    create form starts with the empty gallery, the edit form with the one
    [editExperience] builds from the stored images, whatever they are. *)
Inductive gallery_from (createObjectURL : Business.File -> string)
    (start : list Business.GalleryImage) : list Business.GalleryImage -> Prop :=
| gallery_start : gallery_from createObjectURL start start
| gallery_act (a : GalleryAction) (g : list Business.GalleryImage) :
    gallery_from createObjectURL start g -> offered a g ->
    gallery_from createObjectURL start (gallery_step createObjectURL a g).

(** Stored image rows with two flagged, as a refused delete followed by
    the re-insert of an edit leaves them. *)
Definition flagged_twice : list Image :=
  [img "old.jpg" true (Some 0%Z); img "new.jpg" true (Some 0%Z);
   img "side.jpg" false (Some 1%Z)].

(** The address the upload loop pushes for the entry at a position: the
    one the entry already has, or the one the storage upload answers. *)
Definition address_of (upload : nat -> Business.File -> Outcome string)
    (i : nat) (img : Business.GalleryImage) (u : string) : Prop :=
  if Business.uploaded img && Js.truthy (Business.url img)
  then u = Business.url img
  else exists f, Business.file img = Some f /\ upload i f = Returned u.

(** Sample files, the browser's preview address for a file, and a storage
    that accepts every upload. *)
Definition photo : Business.File :=
  {| Business.file_name := "kayak.jpg"; Business.file_type := "image/jpeg";
     Business.file_size := 1024 |}.

Definition beach : Business.File :=
  {| Business.file_name := "beach.png"; Business.file_type := "image/png";
     Business.file_size := 2048 |}.

Definition notes : Business.File :=
  {| Business.file_name := "notes.pdf"; Business.file_type := "application/pdf";
     Business.file_size := 512 |}.

Definition blob_of (f : Business.File) : string :=
  ("blob:" ++ Business.file_name f)%string.

Definition store_all (i : nat) (f : Business.File) : Outcome string :=
  Returned ("https://cdn.example/" ++ Business.file_name f)%string.

(** The total the daily views hold for a day: of the event rows of a kind,
    and of the save rows. *)
Definition day_total (kind day : string) (rows : list DailyEvent) : Z :=
  fold_right Z.add 0%Z
    (List.map de_total
       (List.filter (fun r => String.eqb (de_event_type r) kind &&
                              String.eqb (de_day r) day) rows)).

Definition day_saves (day : string) (rows : list DailySave) : Z :=
  fold_right Z.add 0%Z
    (List.map ds_saves (List.filter (fun r => String.eqb (ds_day r) day) rows)).

(** Counts that JavaScript adds without rounding: none is negative and
    together they stay within 2^53, the integers its numbers hold
    exactly. *)
Definition exact_counts (totals : list Z) : Prop :=
  Forall (fun t => (0 <= t)%Z) totals /\
  (fold_right Z.add 0%Z totals <= 2 ^ 53)%Z.

(** A sample platform whose daily views hold rows: seven views on the
    first day in two rows, two booking clicks and five saves on the last,
    and nine views on a day that is not in the day list. *)
Definition busy_platform : Env :=
  {| tbl_experiences := []; tbl_experience_category := [];
     tbl_users := []; tbl_favorite := []; tbl_event_metric := [];
     tbl_visitor_session := []; session := Some "u1";
     or_sem := fun _ _ => true;
     view_count := fun _ => Some 7%nat;
     view_events_daily := fun _ =>
       [ {| de_day := "2026-10-03"; de_event_type := "view"; de_total := 3 |};
         {| de_day := "2026-11-02"; de_event_type := "booking_click";
            de_total := 2 |};
         {| de_day := "2026-10-03"; de_event_type := "view"; de_total := 4 |};
         {| de_day := "2026-10-15"; de_event_type := "view"; de_total := 9 |} ];
     view_saves_daily := fun _ =>
       [ {| ds_day := "2026-11-02"; ds_saves := 5 |} ];
     fault := fun _ _ => no_fault;
     sent := [] |}.

(** The rows a daily query hands to the page when it is sent as request
    number [n]: what the view holds, or none when the query fails. *)
Definition delivered {A : Type} (e : Env) (n : nat) (r : Request)
    (held : list A) : list A :=
  match fault e n r with
  | no_fault => held
  | _ => []
  end.


(* ===================================================================== *)
(** * Properties *)
(* ===================================================================== *)

(** ** Budget buckets (filter composer) *)

Lemma Qle_bool_true (a b : Q) : Qle_bool a b = true <-> (a <= b)%Q.
Proof. apply Qle_bool_iff. Qed.

(** Each bucket, read as a predicate on the price, is a closed interval. *)
Lemma in_bucket_spec (b : Bucket) (p : Q) :
  in_bucket b p = true <->
  match b with
  | under_50 => (p <= 50)%Q
  | b50_100 => (50 <= p /\ p <= 100)%Q
  | b100_200 => (100 <= p /\ p <= 200)%Q
  | b200_plus => (200 <= p)%Q
  end.
Proof.
  destruct b; unfold in_bucket, satisfies; cbn;
    rewrite ?andb_true_r, ?andb_true_iff, !Qle_bool_true; tauto.
Qed.

(** C1, as the code has it.  Every price falls in some bucket; two
    different buckets can both hold only at one of the thresholds 50, 100,
    200, and each pair of neighbouring buckets does share its threshold:
    all four predicates are closed at their ends, [under_50] included. *)
Theorem budget_buckets_cover_and_meet_at_thresholds (p : Q) :
  (exists b, in_bucket b p = true) /\
  (forall b1 b2, b1 <> b2 ->
     in_bucket b1 p = true -> in_bucket b2 p = true ->
     (p == 50 \/ p == 100 \/ p == 200)%Q) /\
  (in_bucket under_50 p = true /\ in_bucket b50_100 p = true <-> (p == 50)%Q) /\
  (in_bucket b50_100 p = true /\ in_bucket b100_200 p = true <-> (p == 100)%Q) /\
  (in_bucket b100_200 p = true /\ in_bucket b200_plus p = true <-> (p == 200)%Q).
Proof.
  repeat split.
  - destruct (Qlt_le_dec 50 p) as [H50|H50];
      [ destruct (Qlt_le_dec 100 p) as [H100|H100];
        [ destruct (Qlt_le_dec 200 p) as [H200|H200] | ] | ].
    + exists b200_plus. apply in_bucket_spec. lra.
    + exists b100_200. apply in_bucket_spec. lra.
    + exists b50_100. apply in_bucket_spec. lra.
    + exists under_50. apply in_bucket_spec. lra.
  - intros b1 b2 Hne H1 H2.
    apply in_bucket_spec in H1. apply in_bucket_spec in H2.
    destruct b1, b2; try congruence; lra.
  - intros [H1 H2]. apply in_bucket_spec in H1. apply in_bucket_spec in H2. lra.
  - apply in_bucket_spec. lra.
  - apply in_bucket_spec. lra.
  - intros [H1 H2]. apply in_bucket_spec in H1. apply in_bucket_spec in H2. lra.
  - apply in_bucket_spec. lra.
  - apply in_bucket_spec. lra.
  - intros [H1 H2]. apply in_bucket_spec in H1. apply in_bucket_spec in H2. lra.
  - apply in_bucket_spec. lra.
  - apply in_bucket_spec. lra.
Qed.

(** C1, as stated, fails at the price 50: [under_50] holds there, and so
    does the different bucket [50_100]; likewise 100 is in both [50_100]
    and [100_200]. *)
Lemma price_50_is_in_under_50_and_in_50_100 :
  in_bucket under_50 50 = true /\ in_bucket b50_100 50 = true /\
  under_50 <> b50_100 /\
  in_bucket b50_100 100 = true /\ in_bucket b100_200 100 = true /\
  b50_100 <> b100_200.
Proof. repeat split; try reflexivity; discriminate. Qed.

(** ** Query composition *)

Lemma satisfies_in (sem : string -> Experience -> bool) (q : Query)
    (e : Experience) (f : Filter) :
  satisfies sem q e = true -> In f (filters q) -> holds sem f e = true.
Proof.
  unfold satisfies. intros Hall Hin.
  rewrite forallb_forall in Hall. now apply Hall.
Qed.

Lemma filters_apply_if (c : bool) (fs : list Filter) (q : Query) :
  filters (apply_if c fs q) = filters q ++ (if c then fs else []).
Proof.
  unfold apply_if. destruct c; [| now rewrite app_nil_r].
  revert q. induction fs as [|f fs IH]; intros q; cbn.
  - now rewrite app_nil_r.
  - rewrite IH. cbn. now rewrite <- app_assoc.
Qed.

Lemma filters_budget_filters (budget : string) (q : Query) :
  filters (budget_filters budget q) =
  filters q ++ filters (budget_filters budget base_query).
Proof.
  unfold budget_filters. rewrite !filters_apply_if. cbn [filters base_query].
  now rewrite !app_nil_l, <- !app_assoc.
Qed.

Lemma satisfies_app (sem : string -> Experience -> bool) (q1 q2 q : Query)
    (e : Experience) :
  filters q = filters q1 ++ filters q2 ->
  satisfies sem q e = satisfies sem q1 e && satisfies sem q2 e.
Proof. unfold satisfies. intros ->. apply forallb_app. Qed.

(** The budget lines of either page narrow a query by exactly the bucket
    predicate on [min_price]. *)
Lemma budget_filters_bucket (sem : string -> Experience -> bool) (b : Bucket)
    (q : Query) (e : Experience) :
  satisfies sem (budget_filters (bucket_value b) q) e = true <->
  satisfies sem q e = true /\
  exists p, min_price e = Some p /\ in_bucket b p = true.
Proof.
  rewrite (satisfies_app sem q (budget_filters (bucket_value b) base_query))
    by apply filters_budget_filters.
  rewrite andb_true_iff. apply and_iff_compat_l.
  unfold in_bucket, satisfies.
  destruct b; cbn; destruct (min_price e) as [p|]; cbn; split;
    try discriminate;
    try (intros (p' & Hp & _); discriminate);
    try (intros H; exists p; split; [reflexivity |];
         rewrite ?andb_true_r in *; exact H);
    try (intros (p' & Hp & H); inversion Hp; subst;
         rewrite ?andb_true_r in *; exact H).
Qed.

Lemma incl_filters_and_filter (q : Query) (f : Filter) :
  incl (filters q) (filters (and_filter q f)).
Proof. cbn. apply incl_appl, incl_refl. Qed.

Lemma incl_filters_apply_if (c : bool) (fs : list Filter) (q : Query) :
  incl (filters q) (filters (apply_if c fs q)).
Proof. rewrite filters_apply_if. apply incl_appl, incl_refl. Qed.

Lemma incl_filters_budget (budget : string) (q : Query) :
  incl (filters q) (filters (budget_filters budget q)).
Proof. rewrite filters_budget_filters. apply incl_appl, incl_refl. Qed.

Lemma finder_query_keeps_base (ids : option (list string)) (f : Finder.Filters) :
  incl (filters approved_published) (filters (Finder.matches_query ids f)).
Proof.
  unfold Finder.matches_query. cbn [filters with_limit].
  destruct ids as [ids|].
  - eapply incl_tran; [| apply incl_filters_and_filter].
    eapply incl_tran; [| apply incl_filters_budget].
    apply incl_filters_apply_if.
  - eapply incl_tran; [| apply incl_filters_budget].
    apply incl_filters_apply_if.
Qed.

Lemma experiences_query_keeps_base (ids : option (list string))
    (f : Experiences.Filters) :
  incl (filters approved_published) (filters (Experiences.experiences_query ids f)).
Proof.
  unfold Experiences.experiences_query.
  assert (Hb : incl (filters approved_published)
                 (filters (if Js.truthy (Experiences.f_budget f)
                           then budget_filters (Experiences.f_budget f)
                                  (apply_if (Js.truthy (Experiences.f_county f))
                                     [EqCounty (Experiences.f_county f)]
                                     (apply_if (Js.truthy (Experiences.searchText f))
                                        [OrFilter (Experiences.or_text
                                                     (Experiences.searchText f))]
                                        approved_published))
                           else apply_if (Js.truthy (Experiences.f_county f))
                                  [EqCounty (Experiences.f_county f)]
                                  (apply_if (Js.truthy (Experiences.searchText f))
                                     [OrFilter (Experiences.or_text
                                                  (Experiences.searchText f))]
                                     approved_published)))).
  { destruct (Js.truthy (Experiences.f_budget f)).
    - eapply incl_tran; [| apply incl_filters_budget].
      eapply incl_tran; [| apply incl_filters_apply_if].
      apply incl_filters_apply_if.
    - eapply incl_tran; [| apply incl_filters_apply_if].
      apply incl_filters_apply_if. }
  destruct ids as [ids|]; [| exact Hb].
  eapply incl_tran; [exact Hb | apply incl_filters_and_filter].
Qed.

(** ** Sorting and limiting on the platform side *)

Lemma insert_by_perm {A : Type} (key : A -> Z) (x : A) (l : list A) :
  Permutation (x :: l) (insert_by key x l).
Proof.
  induction l as [|y l IH]; cbn; [reflexivity |].
  destruct (key x <=? key y)%Z; [reflexivity |].
  rewrite perm_swap. now apply perm_skip.
Qed.

Lemma sort_by_perm {A : Type} (key : A -> Z) (l : list A) :
  Permutation l (sort_by key l).
Proof.
  induction l as [|x l IH]; cbn; [constructor |].
  rewrite <- insert_by_perm. now apply perm_skip.
Qed.

Lemma In_sort_by {A : Type} (key : A -> Z) (l : list A) (x : A) :
  In x (sort_by key l) <-> In x l.
Proof.
  split; apply Permutation_in; [symmetry |]; apply sort_by_perm.
Qed.

Lemma In_take_limit {A : Type} (lim : option nat) (l : list A) (x : A) :
  In x (take_limit lim l) -> In x l.
Proof.
  destruct lim as [n|]; cbn; [| trivial].
  revert l. induction n as [|n IH]; intros [|y l]; cbn; try tauto.
  intros [->|H]; [now left | right; now apply IH].
Qed.

(** The platform answers a select with rows of the table that satisfy
    every filter of the query. *)
Lemma run_select_sound (sem : string -> Experience -> bool)
    (table : list Experience) (q : Query) (e : Experience) :
  In e (run_select sem table q) -> In e table /\ satisfies sem q e = true.
Proof.
  unfold run_select. intros H. apply In_take_limit in H.
  destruct (order_created_desc q).
  - apply In_sort_by in H. now apply List.filter_In in H.
  - now apply List.filter_In in H.
Qed.

(** ** Only approved and published rows reach a visitor *)

Lemma in_status_lower (e : Experience) :
  mem_string (status e) ["approved"; "Approved"] = true ->
  Js.toLowerCase (status e) = "approved".
Proof.
  unfold mem_string. cbn. rewrite orb_false_r, orb_true_iff.
  intros [H|H]; apply String.eqb_eq in H; rewrite H; reflexivity.
Qed.

Lemma base_filters_surfaced (sem : string -> Experience -> bool) (q : Query)
    (e : Experience) :
  incl (filters approved_published) (filters q) ->
  satisfies sem q e = true -> surfaced_ok e.
Proof.
  intros Hincl Hsat. split.
  - apply in_status_lower.
    apply (satisfies_in sem q e (InStatus ["approved"; "Approved"]) Hsat).
    apply Hincl. cbn. auto.
  - pose proof (satisfies_in sem q e (EqPublished true) Hsat) as H.
    cbn in H. apply Bool.eqb_prop. apply H. apply Hincl. cbn. auto.
Qed.

Lemma select_rows_surfaced {S : Type} `{HasEnv S} (q : Query) (s : S) :
  incl (filters approved_published) (filters q) ->
  Forall surfaced_ok (data_rows (select_experiences q s)).
Proof.
  intros Hincl. unfold data_rows, outcome_of, select_experiences, send.
  destruct (fault _ _ _); cbn; try constructor.
  apply List.Forall_forall. intros e He.
  apply run_select_sound in He as [_ Hsat].
  eapply base_filters_surfaced; eauto.
Qed.

Lemma detail_query_surfaced (sem : string -> Experience -> bool) (id : string)
    (e : Experience) :
  satisfies sem (Detail.detail_query id) e = true -> surfaced_ok e.
Proof.
  unfold satisfies. cbn. rewrite !andb_true_iff.
  intros (_ & Hs & Hp & _). split.
  - apply String.eqb_eq in Hs. now rewrite Hs.
  - now apply Bool.eqb_prop.
Qed.

Lemma finder_query_rows_surfaced (ids : option (list string))
    (f : Finder.Filters) (p : Finder.Page) :
  Forall surfaced_ok (rows_of (Finder.run_matches_query ids f p)).
Proof.
  pose proof (select_rows_surfaced (Finder.matches_query ids f) p
                (finder_query_keeps_base ids f)) as H.
  unfold rows_of, data_rows, outcome_of, Finder.run_matches_query, bind in *.
  destruct (select_experiences _ p) as [[r|m] p']; cbn in *; [| constructor].
  destruct r as [[rows|] [m|]]; cbn in *; auto; constructor.
Qed.

Lemma fetchMatches_keeps_list (f : Finder.Filters) (p : Finder.Page) :
  Finder.matchesList (state_after (Finder.fetchMatches f p)) = Finder.matchesList p.
Proof.
  unfold Finder.fetchMatches, Finder.getExperienceIdsForCategory,
    Finder.run_matches_query, select_category_links, select_experiences, send,
    bind, ret, throw, state_after.
  destruct (Js.truthy _); cbn -[run_select Finder.matches_query uniq].
  - destruct (fault _ _ _); cbn -[run_select Finder.matches_query uniq];
      try reflexivity.
    destruct (uniq _); cbn -[run_select Finder.matches_query uniq];
      try reflexivity.
    destruct (fault _ _ _); reflexivity.
  - destruct (fault _ _ _); reflexivity.
Qed.

Lemma surfaced_cards {Card : Type} (render : Experience -> Card)
    (rows : list Experience) :
  Forall surfaced_ok rows ->
  Forall (fun c => exists e, surfaced_ok e /\ c = render e) (List.map render rows).
Proof.
  induction 1 as [|e rows He Hrows IH]; cbn; constructor; eauto.
Qed.

Lemma fetchMatches_rows_surfaced (f : Finder.Filters) (p : Finder.Page) :
  Forall surfaced_ok (rows_of (Finder.fetchMatches f p)).
Proof.
  unfold Finder.fetchMatches.
  destruct (Js.truthy (Finder.categoryId f));
    [| apply finder_query_rows_surfaced].
  unfold bind.
  destruct (Finder.getExperienceIdsForCategory _ p) as [[ids|m] p'] eqn:E;
    [| constructor].
  destruct ids as [|i ids]; [constructor |].
  apply finder_query_rows_surfaced.
Qed.

Lemma finder_cards_surfaced (p : Finder.Page) (cs : list Finder.Card) :
  Finder.matchesList (state_after (Finder.refreshMatches p))
    = Some (Finder.match_cards cs) ->
  Forall (fun c => exists e, surfaced_ok e /\ c = Finder.renderMatchCard e) cs.
Proof.
  unfold Finder.refreshMatches, bind, gets, modify, try_catch, state_after.
  cbn -[Finder.fetchMatches].
  destruct (Finder.matchesList p) as [v|] eqn:El; [| cbn; intros H; congruence].
  match goal with |- context [Finder.fetchMatches ?f ?q] =>
    pose proof (fetchMatches_keeps_list f q) as Hk;
    pose proof (fetchMatches_rows_surfaced f q) as Hrows;
    unfold state_after, rows_of, outcome_of in Hk, Hrows;
    destruct (Finder.fetchMatches f q) as [[rows|m] p2]
  end; cbn in Hk, Hrows.
  - destruct rows as [|e rows]; cbn; rewrite Hk; cbn; rewrite El; cbn;
      [discriminate |].
    intros [= <-]. exact (surfaced_cards Finder.renderMatchCard (e :: rows) Hrows).
  - cbn. rewrite Hk. cbn. rewrite El. discriminate.
Qed.

Lemma experiences_cards_surfaced (p : Experiences.Page)
    (cs : list Experiences.Card) :
  Experiences.resultsMeta p <> None ->
  Experiences.experiencesGrid (state_after (Experiences.loadExperiences p))
    = Some (Experiences.grid_cards cs) ->
  Forall (fun c => exists e, surfaced_ok e /\ c = Experiences.renderCard e) cs.
Proof.
  intros Hmeta.
  unfold Experiences.loadExperiences, Experiences.getExperienceIdsForCategory,
    Experiences.query_and_render, Experiences.renderExperiences,
    select_category_links, select_experiences, send, bind, gets, modify, ret,
    throw, try_catch, state_after.
  cbn -[run_select Experiences.experiences_query].
  destruct (Experiences.resultsMeta p) as [meta|] eqn:Em; [| congruence].
  destruct (Experiences.experiencesGrid p) as [grid|] eqn:Eg;
    [| cbn; rewrite Eg; discriminate].
  cbn -[run_select Experiences.experiences_query].
  destruct (Js.truthy (Experiences.categorySelect p));
    cbn -[run_select Experiences.experiences_query];
    repeat (match goal with
            | |- context [fault ?e ?n ?r] => destruct (fault e n r)
            | |- context [match List.filter Js.truthy ?l with _ => _ end] =>
                destruct (List.filter Js.truthy l)
            | |- context [match run_select ?a ?b ?c with _ => _ end] =>
                destruct (run_select a b c) eqn:Erows
            end; cbn -[run_select Experiences.experiences_query]);
    rewrite ?Em, ?Eg; cbn; try discriminate.
  all: intros [= <-];
       match type of Erows with run_select ?a ?b ?c = ?l =>
         apply (surfaced_cards Experiences.renderCard l);
         rewrite <- Erows; apply List.Forall_forall; intros x Hx;
         apply run_select_sound in Hx as [_ Hsat];
         eapply base_filters_surfaced;
           [apply experiences_query_keeps_base | exact Hsat]
       end.
Qed.

(** C2.  Whatever the tables hold and whichever requests fail, the rows
    handed to the page by the finder match query, by the experiences
    search query and by the detail query all have status "approved" up to
    letter case and are published; and so every card the finder panel or
    the experiences grid shows after a refresh is the card of such a row. *)
Theorem visitor_queries_surface_only_approved_published :
  (forall (f : Finder.Filters) (p : Finder.Page),
     Forall surfaced_ok (rows_of (Finder.fetchMatches f p))) /\
  (forall (ids : option (list string)) (f : Experiences.Filters)
          (p : Experiences.Page),
     Forall surfaced_ok
       (data_rows (select_experiences (Experiences.experiences_query ids f) p))) /\
  (forall (id : string) (p : Detail.Page),
     Forall surfaced_ok
       (data_row (select_experience_single (Detail.detail_query id) p))) /\
  (forall (p : Finder.Page) (cs : list Finder.Card),
     Finder.matchesList (state_after (Finder.refreshMatches p))
       = Some (Finder.match_cards cs) ->
     Forall (fun c => exists e, surfaced_ok e /\ c = Finder.renderMatchCard e) cs) /\
  (forall (p : Experiences.Page) (cs : list Experiences.Card),
     Experiences.resultsMeta p <> None ->
     Experiences.experiencesGrid (state_after (Experiences.loadExperiences p))
       = Some (Experiences.grid_cards cs) ->
     Forall (fun c => exists e, surfaced_ok e /\ c = Experiences.renderCard e) cs).
Proof.
  split; [| split; [| split; [| split]]].
  - apply fetchMatches_rows_surfaced.
  - intros ids f p. apply select_rows_surfaced, experiences_query_keeps_base.
  - intros id p. unfold data_row, outcome_of, select_experience_single, send.
    destruct (fault _ _ _); cbn [fst]; try constructor.
    destruct (run_select _ _ _) as [|e [|e' rest]] eqn:E; cbn; try constructor;
      [| constructor].
    assert (Hin : In e (run_select (or_sem (Detail.env p))
                          (tbl_experiences (Detail.env p))
                          (Detail.detail_query id)))
      by (cbn [env_of Detail.page_env] in E; rewrite E; now left).
    apply run_select_sound in Hin as [_ Hsat].
    eapply detail_query_surfaced; eauto.
  - apply finder_cards_surfaced.
  - apply experiences_cards_surfaced.
Qed.

(** ** Category short-circuit *)

Lemma finder_lookup_sends_one (cid : string) (p : Finder.Page) :
  sent (Finder.env (state_after (Finder.getExperienceIdsForCategory cid p))) =
  sent (Finder.env p) ++ [SelectCategoryLinks cid].
Proof.
  unfold Finder.getExperienceIdsForCategory, bind, select_category_links,
    send, state_after.
  destruct (fault _ _ _); cbn; reflexivity.
Qed.

(** C3.  When a category is chosen and the link-table lookup comes back
    with no experience id, the finder returns no match and the experiences
    page shows its no-results state; in both the only request sent is the
    lookup itself, so the experiences query is never issued. *)
Theorem empty_category_short_circuits :
  (forall (f : Finder.Filters) (p : Finder.Page),
     Js.truthy (Finder.categoryId f) = true ->
     outcome_of (Finder.getExperienceIdsForCategory (Finder.categoryId f) p)
       = Returned [] ->
     outcome_of (Finder.fetchMatches f p) = Returned [] /\
     sent (Finder.env (state_after (Finder.fetchMatches f p))) =
       sent (Finder.env p) ++ [SelectCategoryLinks (Finder.categoryId f)]) /\
  (forall (p : Experiences.Page),
     Js.truthy (Experiences.categorySelect p) = true ->
     Experiences.resultsMeta p <> None ->
     Experiences.experiencesGrid p <> None ->
     outcome_of (Experiences.getExperienceIdsForCategory
                   (Experiences.categorySelect p) p) = Returned (Some []) ->
     outcome_of (Experiences.loadExperiences p) = Returned tt /\
     Experiences.experiencesGrid (state_after (Experiences.loadExperiences p))
       = Some Experiences.grid_no_results /\
     Experiences.resultsMeta (state_after (Experiences.loadExperiences p))
       = Some "0 experiences found" /\
     sent (Experiences.env (state_after (Experiences.loadExperiences p))) =
       sent (Experiences.env p) ++
       [SelectCategoryLinks (Experiences.categorySelect p)]).
Proof.
  split.
  - intros f p Hcat Hempty.
    pose proof (finder_lookup_sends_one (Finder.categoryId f) p) as Hsent.
    unfold Finder.fetchMatches. rewrite Hcat. unfold bind, outcome_of, state_after in *.
    destruct (Finder.getExperienceIdsForCategory _ p) as [o p'].
    cbn in Hempty. subst o. cbn. auto.
  - intros p Hcat Hmeta Hgrid Hempty.
    unfold Experiences.loadExperiences, Experiences.getExperienceIdsForCategory in *.
    unfold outcome_of, state_after, bind, gets, modify, try_catch, ret, throw,
      select_category_links, send in *.
    destruct (Experiences.resultsMeta p) as [meta|] eqn:Em; [| congruence].
    destruct (Experiences.experiencesGrid p) as [grid|] eqn:Eg; [| congruence].
    cbn in *. rewrite Hcat in *. cbn in *.
    destruct (fault (Experiences.env p) _ _) eqn:Ef; cbn in *; try discriminate.
    destruct (List.filter Js.truthy _) as [|i ids] eqn:Eids; cbn in *;
      try discriminate.
    rewrite Em, Eg. cbn. auto.
Qed.

(** ** Primary image *)

Lemma insert_by_sorted {A : Type} (key : A -> Z) (x : A) (l : list A) :
  StronglySorted (fun a b => (key a <= key b)%Z) l ->
  StronglySorted (fun a b => (key a <= key b)%Z) (insert_by key x l).
Proof.
  induction 1 as [|y l Hs IH Hall]; cbn.
  - repeat constructor.
  - destruct (key x <=? key y)%Z eqn:E.
    + apply Z.leb_le in E. constructor; [now constructor |].
      constructor; [exact E |].
      eapply List.Forall_impl; [| exact Hall]. cbn. intros; lia.
    + apply Z.leb_gt in E. constructor; [exact IH |].
      eapply Permutation_Forall; [apply insert_by_perm |].
      constructor; [lia | exact Hall].
Qed.

Lemma sort_by_sorted {A : Type} (key : A -> Z) (l : list A) :
  StronglySorted (fun a b => (key a <= key b)%Z) (sort_by key l).
Proof.
  induction l as [|x l IH]; cbn; [constructor | now apply insert_by_sorted].
Qed.

(** In a list sorted by the key, [find] answers an element of least key
    among those that pass the test. *)
Lemma find_sorted_least {A : Type} (key : A -> Z) (P : A -> bool) (l : list A)
    (i : A) :
  StronglySorted (fun a b => (key a <= key b)%Z) l ->
  List.find P l = Some i ->
  forall j, In j l -> P j = true -> (key i <= key j)%Z.
Proof.
  induction 1 as [|y l Hs IH Hall]; cbn; [discriminate |].
  destruct (P y) eqn:Ey.
  - intros [= <-] j [<-|Hj] _; [lia |].
    rewrite List.Forall_forall in Hall. now apply Hall.
  - intros Hf j [<-|Hj] Pj; [congruence | now apply IH].
Qed.

Lemma head_sorted_least {A : Type} (key : A -> Z) (l : list A) (i : A) :
  StronglySorted (fun a b => (key a <= key b)%Z) l ->
  List.head l = Some i ->
  forall j, In j l -> (key i <= key j)%Z.
Proof.
  destruct 1 as [|y l Hs Hall]; cbn; [discriminate |].
  intros [= <-] j [<-|Hj]; [lia |].
  rewrite List.Forall_forall in Hall. now apply Hall.
Qed.

Lemma find_first_split {A : Type} (P : A -> bool) (l : list A) (i : A) :
  List.find P l = Some i ->
  exists pre post, l = pre ++ i :: post /\ P i = true /\
                   forall j, In j pre -> P j = false.
Proof.
  induction l as [|y l IH]; cbn; [discriminate |].
  destruct (P y) eqn:Ey.
  - intros [= <-]. exists [], l. cbn. repeat split; auto. tauto.
  - intros Hf. destruct (IH Hf) as (pre & post & -> & Pi & Hpre).
    exists (y :: pre), post. repeat split; auto.
    intros j [<-|Hj]; auto.
Qed.

Lemma find_is_some {A : Type} (P : A -> bool) (l : list A) (j : A) :
  In j l -> P j = true -> exists i, List.find P l = Some i.
Proof.
  intros Hj Pj. destruct (List.find P l) as [i|] eqn:E; [eauto |].
  pose proof (List.find_none P l E j Hj). congruence.
Qed.

Lemma or_else_not_blank (a b : string) : b <> "" -> Js.or_else a b <> "".
Proof.
  unfold Js.or_else, Js.truthy. intros Hb.
  destruct (String.eqb a "") eqn:E; cbn; [exact Hb |].
  now apply String.eqb_neq.
Qed.

Lemma placeholder_not_blank (exp : Experience) : Detail.placeholder exp <> "".
Proof. unfold Detail.placeholder. cbn. discriminate. Qed.

(** The primary-image rule, page by page.  The detail page orders the
    images by display order, a missing order counting as 999, and takes a
    flagged image of least order, else an image of least order; the
    finder and experiences cards take the first flagged image in the order
    fetched, else the first image fetched, and do not look at the display
    order.  Either way a blank or missing url gives the page's
    placeholder, so the result is never blank. *)
Lemma primary_image_page_by_page (exp : Experience) :
  let hero_placeholder :=
    ("https://via.placeholder.com/1200x800?text=" ++
     Js.encodeURIComponent (if String.eqb (title exp) "" then "Experience"
                            else title exp))%string in
  let card_fallback := "https://via.placeholder.com/300x200" in
  (Detail.mainUrl exp <> "" /\
   Finder.card_imgUrl (Finder.renderMatchCard exp) <> "" /\
   Experiences.card_imgUrl (Experiences.renderCard exp)
     = Finder.card_imgUrl (Finder.renderMatchCard exp)) /\
  (forall j, In j (image exp) -> is_primary j = true ->
     (exists i, In i (image exp) /\ is_primary i = true /\
        (forall k, In k (image exp) -> is_primary k = true ->
           (shown_order i <= shown_order k)%Z) /\
        Detail.mainUrl exp = Js.or_else (image_url i) hero_placeholder) /\
     (exists pre i post, image exp = pre ++ i :: post /\ is_primary i = true /\
        (forall k, In k pre -> is_primary k = false) /\
        Finder.card_imgUrl (Finder.renderMatchCard exp)
          = Js.or_else (image_url i) card_fallback)) /\
  ((forall j, In j (image exp) -> is_primary j = false) ->
   forall first rest, image exp = first :: rest ->
     (exists i, In i (image exp) /\
        (forall k, In k (image exp) -> (shown_order i <= shown_order k)%Z) /\
        Detail.mainUrl exp = Js.or_else (image_url i) hero_placeholder) /\
     Finder.card_imgUrl (Finder.renderMatchCard exp)
       = Js.or_else (image_url first) card_fallback) /\
  (image exp = [] ->
     Detail.mainUrl exp = hero_placeholder /\
     Finder.card_imgUrl (Finder.renderMatchCard exp) = card_fallback).
Proof.
  intros hero_placeholder card_fallback.
  assert (Hph : hero_placeholder = Detail.placeholder exp).
  { subst hero_placeholder. unfold Detail.placeholder, Js.or_else, Js.truthy.
    now destruct (String.eqb (title exp) ""). }
  rewrite Hph. clear Hph hero_placeholder.
  change card_fallback with card_placeholder. clear card_fallback.
  change shown_order with Detail.order_key.
  split; [| split; [| split]].
  - split; [| split].
    + apply or_else_not_blank, placeholder_not_blank.
    + cbn. apply or_else_not_blank. discriminate.
    + reflexivity.
  - intros j Hj Pj. split.
    + destruct (find_is_some is_primary (sort_by Detail.order_key (image exp)) j)
        as [i Hi]; [now apply In_sort_by | exact Pj |].
      exists i. destruct (List.find_some _ _ Hi) as [Hin Pi].
      apply In_sort_by in Hin. repeat split; auto.
      * intros k Hk Pk.
        apply (find_sorted_least Detail.order_key is_primary _ i
                 (sort_by_sorted _ _) Hi k); [now apply In_sort_by | exact Pk].
      * unfold Detail.mainUrl, primary_or_first. now rewrite Hi.
    + destruct (find_is_some is_primary (image exp) j Hj Pj) as [i Hi].
      destruct (find_first_split _ _ _ Hi) as (pre & post & E & Pi & Hpre).
      exists pre, i, post. repeat split; auto.
      cbn. unfold getPrimaryImageUrl, primary_or_first. now rewrite Hi.
  - intros Hnone first rest E. split.
    + assert (Hf : List.find is_primary (sort_by Detail.order_key (image exp)) = None).
      { destruct (List.find _ _) as [i|] eqn:Hi; [| reflexivity].
        destruct (List.find_some _ _ Hi) as [Hin Pi].
        apply In_sort_by in Hin. rewrite (Hnone i Hin) in Pi. discriminate. }
      destruct (sort_by Detail.order_key (image exp)) as [|i srt] eqn:Es.
      * pose proof (Permutation_length (sort_by_perm Detail.order_key (image exp))) as Hl.
        rewrite Es, E in Hl. discriminate.
      * exists i. split; [apply (In_sort_by Detail.order_key); rewrite Es; now left |].
        split.
        -- intros k Hk.
           apply (head_sorted_least Detail.order_key (i :: srt) i);
             [rewrite <- Es; apply sort_by_sorted | reflexivity |].
           rewrite <- Es. now apply In_sort_by.
        -- unfold Detail.mainUrl, primary_or_first. rewrite Es in *.
           now rewrite Hf.
    + assert (Hf : List.find is_primary (image exp) = None).
      { destruct (List.find _ _) as [i|] eqn:Hi; [| reflexivity].
        destruct (List.find_some _ _ Hi) as [Hin Pi].
        rewrite (Hnone i Hin) in Pi. discriminate. }
      cbn. unfold getPrimaryImageUrl, primary_or_first. rewrite Hf, E. reflexivity.
  - intros E. unfold Detail.mainUrl. cbn.
    unfold getPrimaryImageUrl. rewrite E. cbn. split; reflexivity.
Qed.

(** C5 at a failing input.  An experience with two unflagged images,
    fetched with the one of display order 2 before the one of display
    order 1: the finder card shows the image of order 2, where the rule
    (and the detail page) picks the first by ascending display order, the
    one of order 1; and the helper itself answers a blank url when there
    is no image. *)
Lemma finder_card_ignores_display_order :
  image out_of_order = [img "b.jpg" false (Some 2%Z); img "a.jpg" false (Some 1%Z)] /\
  Finder.card_imgUrl (Finder.renderMatchCard out_of_order) = "b.jpg" /\
  Detail.mainUrl out_of_order = "a.jpg" /\
  getPrimaryImageUrl no_images = "".
Proof. repeat split; reflexivity. Qed.

(** ** Escaping *)

Lemma append_cons (x : ascii) (a b : string) :
  (String x a ++ b)%string = String x (a ++ b)%string.
Proof. reflexivity. Qed.

Lemma append_nil_left (s : string) : ("" ++ s)%string = s.
Proof. reflexivity. Qed.

Lemma append_assoc_s (a b c : string) :
  ((a ++ b) ++ c)%string = (a ++ (b ++ c))%string.
Proof.
  induction a as [|x a IH]; [reflexivity |].
  now rewrite !append_cons, IH.
Qed.

Lemma includes_app (c : ascii) (a b : string) :
  Js.includes c (a ++ b) = Js.includes c a || Js.includes c b.
Proof.
  induction a as [|x a IH]; [reflexivity |].
  rewrite append_cons. cbn [Js.includes].
  rewrite IH. now rewrite orb_assoc.
Qed.

Lemma replaceAll_removes (c : ascii) (by_ s : string) :
  Js.includes c by_ = false -> Js.includes c (Js.replaceAll c by_ s) = false.
Proof.
  intros Hby. induction s as [|a s IH]; cbn [Js.replaceAll Js.includes];
    [reflexivity |].
  destruct (Ascii.eqb a c) eqn:E.
  - rewrite includes_app, Hby, IH. reflexivity.
  - cbn [Js.includes]. rewrite E, IH. reflexivity.
Qed.

Lemma replaceAll_keeps_out (c d : ascii) (by_ s : string) :
  Js.includes d by_ = false -> Js.includes d s = false ->
  Js.includes d (Js.replaceAll c by_ s) = false.
Proof.
  intros Hby. induction s as [|a s IH]; cbn [Js.replaceAll Js.includes];
    [reflexivity |].
  intros H. apply orb_false_iff in H as [Ha Hs].
  destruct (Ascii.eqb a c).
  - rewrite includes_app, Hby, (IH Hs). reflexivity.
  - cbn [Js.includes]. rewrite Ha, (IH Hs). reflexivity.
Qed.

(** What [escapeHtml] returns holds no angle bracket and no quote of
    either kind. *)
Lemma escapeHtml_has_no_markup_character (s : string) :
  Js.includes "<" (escapeHtml s) = false /\
  Js.includes ">" (escapeHtml s) = false /\
  Js.includes Js.dquote (escapeHtml s) = false /\
  Js.includes "'" (escapeHtml s) = false.
Proof.
  unfold escapeHtml. repeat split.
  - do 3 (apply replaceAll_keeps_out; [reflexivity |]).
    now apply replaceAll_removes.
  - do 2 (apply replaceAll_keeps_out; [reflexivity |]).
    now apply replaceAll_removes.
  - apply replaceAll_keeps_out; [reflexivity |].
    now apply replaceAll_removes.
  - now apply replaceAll_removes.
Qed.

(** C4 at a failing input.  A title that carries markup is escaped on the
    finder and experiences cards, and reaches the markup of the business
    dashboard card as it is; the landing page does the same with a
    category name. *)
Theorem business_card_inserts_title_unescaped (show_number : Q -> string) :
  Finder.card_title (Finder.renderMatchCard hostile)
    = "&lt;img src=x onerror=alert(1)&gt;" /\
  Experiences.card_title (Experiences.renderCard hostile)
    = "&lt;img src=x onerror=alert(1)&gt;" /\
  contains "<h3><img src=x onerror=alert(1)></h3>"
    (Business.createExperienceCard show_number hostile) = true /\
  contains ("<h3 class=" ++ dq ++ "image-card-title" ++ dq ++
            "><script>alert(1)</script></h3>")
    (Landing.displayCategories [hostile_category]) = true.
Proof. repeat split; reflexivity. Qed.

(** ** Role-aware navigation *)

Lemma try_catch_modify_returns {S : Type} (body : M S unit) (f : S -> S) (s : S) :
  outcome_of (try_catch body (fun _ => modify f) s) = Returned tt.
Proof.
  unfold try_catch, outcome_of. destruct (body s) as [[[]|m] s']; reflexivity.
Qed.

Lemma refreshMatches_returns (p : Finder.Page) :
  outcome_of (Finder.refreshMatches p) = Returned tt.
Proof.
  unfold Finder.refreshMatches, bind, gets. cbn.
  destruct (Finder.matchesList p); [| reflexivity].
  unfold modify at 1. apply try_catch_modify_returns.
Qed.

Lemma loadExperiences_returns (p : Experiences.Page) :
  outcome_of (Experiences.loadExperiences p) = Returned tt.
Proof.
  unfold Experiences.loadExperiences, bind, gets. cbn.
  destruct (Experiences.resultsMeta p); [| reflexivity].
  destruct (Experiences.experiencesGrid p); [| reflexivity].
  cbn. unfold try_catch, outcome_of.
  match goal with |- context [match ?b with _ => _ end] =>
    destruct b as [[[]|m] s'] end; reflexivity.
Qed.

Lemma user_nav_alone (n : Nav) :
  complete n -> variants_shown (nav_for_role "user" (show_guest_nav n)) = [user_nav].
Proof.
  intros (Hg & Hu & Hb).
  destruct n as [[g|] [u|] [b|]]; cbn in *; congruence.
Qed.

Lemma guest_nav_alone (n : Nav) :
  complete n -> variants_shown (show_guest_nav (show_guest_nav n)) = [guest_nav].
Proof.
  intros (Hg & Hu & Hb).
  destruct n as [[g|] [u|] [b|]]; cbn in *; congruence.
Qed.

Lemma user_fallback_alone (n : Nav) :
  complete n -> variants_shown (show_user_nav (show_guest_nav n)) = [user_nav].
Proof.
  intros (Hg & Hu & Hb).
  destruct n as [[g|] [u|] [b|]]; cbn in *; congruence.
Qed.

(** What the three nav functions do when the role lookup of a signed-in
    visitor comes back with an error object: each returns and shows the
    user navigation alone. *)
Lemma role_lookup_error_shows_user_nav (uid : string) :
  (forall p : Finder.Page,
     signed_in (Finder.env p) (List.length (sent (Finder.env p))) uid ->
     role_lookup_fails answers_error (Finder.env p)
       (S (List.length (sent (Finder.env p)))) uid ->
     complete (Finder.nav p) ->
     outcome_of (Finder.updateNavForAuthState p) = Returned tt /\
     variants_shown (Finder.nav (state_after (Finder.updateNavForAuthState p)))
       = [user_nav]) /\
  (forall p : Experiences.Page,
     signed_in (Experiences.env p) (List.length (sent (Experiences.env p))) uid ->
     role_lookup_fails answers_error (Experiences.env p)
       (S (List.length (sent (Experiences.env p)))) uid ->
     complete (Experiences.nav p) ->
     outcome_of (Experiences.updateNavForAuthState p) = Returned tt /\
     variants_shown
       (Experiences.nav (state_after (Experiences.updateNavForAuthState p)))
       = [user_nav]) /\
  (forall p : Detail.Page,
     role_lookup_fails answers_error (Detail.env p)
       (List.length (sent (Detail.env p))) uid ->
     complete (Detail.nav (Detail.dom p)) ->
     outcome_of (Detail.setNavState (Some uid) p) = Returned tt /\
     variants_shown
       (Detail.nav (Detail.dom (state_after (Detail.setNavState (Some uid) p))))
       = [user_nav]).
Proof.
  split; [| split].
  - intros p [Hs Hf] Hfail Hc.
    unfold Finder.updateNavForAuthState, bind, modify, try_catch, auth_getUser,
      select_role, send, outcome_of, state_after, ret.
    cbn. rewrite Hf. cbn. rewrite Hs. cbn.
    rewrite length_app, Nat.add_comm. cbn.
    cbn in Hfail.
    destruct Hfail as [[m Hm] | [Hm Hd]]; rewrite Hm; cbn.
    + split; [reflexivity | now apply user_nav_alone].
    + unfold role_or_user.
      change (role_answer uid _) with (role_answer uid (Finder.env p)).
      rewrite Hd. split; [reflexivity | now apply user_nav_alone].
  - intros p [Hs Hf] Hfail Hc.
    unfold Experiences.updateNavForAuthState, bind, modify, auth_getUser,
      select_role, send, outcome_of, state_after, ret.
    cbn. rewrite Hf. cbn. rewrite Hs. cbn.
    rewrite length_app, Nat.add_comm. cbn.
    cbn in Hfail.
    destruct Hfail as [[m Hm] | [Hm Hd]]; rewrite Hm; cbn.
    + split; [reflexivity | now apply user_nav_alone].
    + unfold role_or_user.
      change (role_answer uid _) with (role_answer uid (Experiences.env p)).
      rewrite Hd. split; [reflexivity | now apply user_nav_alone].
  - intros p Hfail Hc.
    unfold Detail.setNavState, bind, modify, try_catch, select_role, send,
      outcome_of, state_after, ret.
    cbn. cbn in Hfail.
    destruct Hfail as [[m Hm] | [Hm Hd]]; rewrite Hm; cbn.
    + split; [reflexivity | now apply user_nav_alone].
    + unfold role_or_user.
      change (role_answer uid _) with (role_answer uid (Detail.env p)).
      rewrite Hd. split; [reflexivity | now apply user_nav_alone].
Qed.

(** What they do when the lookup rejects.  [setNavState] catches the
    exception and shows the user navigation, the baseline role.  The
    finder's [updateNavForAuthState] catches it too, but its handler puts
    the guest navigation back, although the visitor is signed in.  The
    copy on the experiences page has no [try]: the exception leaves the
    function, with the guest navigation it had set as default still
    showing, and reaches the start-up handler that awaits it. *)
Lemma role_lookup_rejection_by_page (uid m : string) :
  (forall p : Detail.Page,
     fault (Detail.env p) (List.length (sent (Detail.env p))) (SelectRole uid)
       = rejects m ->
     complete (Detail.nav (Detail.dom p)) ->
     outcome_of (Detail.setNavState (Some uid) p) = Returned tt /\
     variants_shown
       (Detail.nav (Detail.dom (state_after (Detail.setNavState (Some uid) p))))
       = [user_nav]) /\
  (forall p : Finder.Page,
     signed_in (Finder.env p) (List.length (sent (Finder.env p))) uid ->
     fault (Finder.env p) (S (List.length (sent (Finder.env p)))) (SelectRole uid)
       = rejects m ->
     complete (Finder.nav p) ->
     outcome_of (Finder.updateNavForAuthState p) = Returned tt /\
     variants_shown (Finder.nav (state_after (Finder.updateNavForAuthState p)))
       = [guest_nav]) /\
  (forall p : Experiences.Page,
     signed_in (Experiences.env p) (List.length (sent (Experiences.env p))) uid ->
     fault (Experiences.env p) (S (List.length (sent (Experiences.env p))))
       (SelectRole uid) = rejects m ->
     complete (Experiences.nav p) ->
     outcome_of (Experiences.updateNavForAuthState p) = Threw m /\
     variants_shown
       (Experiences.nav (state_after (Experiences.updateNavForAuthState p)))
       = [guest_nav] /\
     sent (Experiences.env (state_after (Experiences.updateNavForAuthState p)))
       = sent (Experiences.env p) ++ [AuthGetUser; SelectRole uid]).
Proof.
  split; [| split].
  - intros p Hm Hc.
    unfold Detail.setNavState, bind, modify, try_catch, select_role, send,
      outcome_of, state_after, ret.
    cbn. rewrite Hm. cbn.
    split; [reflexivity | now apply user_fallback_alone].
  - intros p [Hs Hf] Hm Hc.
    unfold Finder.updateNavForAuthState, bind, modify, try_catch, auth_getUser,
      select_role, send, outcome_of, state_after, ret.
    cbn. rewrite Hf. cbn. rewrite Hs. cbn.
    rewrite length_app, Nat.add_comm. cbn. rewrite Hm. cbn.
    split; [reflexivity | now apply guest_nav_alone].
  - intros p [Hs Hf] Hm Hc.
    unfold Experiences.updateNavForAuthState, bind, modify, auth_getUser,
      select_role, send, outcome_of, state_after, ret.
    cbn. rewrite Hf. cbn. rewrite Hs. cbn.
    rewrite length_app, Nat.add_comm. cbn. rewrite Hm. cbn.
    split; [reflexivity |]. split.
    + destruct Hc as (Hg & Hu & Hb).
      destruct (Experiences.nav p) as [[g|] [u|] [b|]]; cbn in *; congruence.
    + rewrite <- app_assoc. reflexivity.
Qed.

(** C8 at a failing input.  A signed-in visitor opens the finder and the
    role lookup rejects (the network drops): the finder shows the guest
    navigation, not the user navigation of the baseline role. *)
Lemma finder_shows_guest_nav_when_role_lookup_rejects :
  session (platform (Some "u1") role_lookup_rejects) = Some "u1" /\
  role_lookup_rejects 1 (SelectRole "u1") = rejects "network" /\
  variants_shown
    (Finder.nav (state_after (Finder.updateNavForAuthState
                   (finder_page "" (platform (Some "u1") role_lookup_rejects)))))
    = [guest_nav].
Proof. repeat split; reflexivity. Qed.

(** The same visitor on the experiences page: the nav function ends by
    exception after its two requests, so the start-up handler, which
    awaits it first and has no [try] either, ends there. *)
Lemma experiences_nav_throws_when_role_lookup_rejects :
  outcome_of (Experiences.updateNavForAuthState
                (experiences_page "" (platform (Some "u1") role_lookup_rejects)))
    = Threw "network" /\
  sent (Experiences.env
          (state_after (Experiences.updateNavForAuthState
             (experiences_page "" (platform (Some "u1") role_lookup_rejects)))))
    = [AuthGetUser; SelectRole "u1"].
Proof. split; reflexivity. Qed.

(** ** The detail page never learns who the visitor is *)

Lemma keeps_ret {A : Type} (a : A) : keeps (ret a).
Proof. intros p H. exact H. Qed.

Lemma keeps_throw {A : Type} (m : string) : keeps (@throw Detail.Page A m).
Proof. intros p H. exact H. Qed.

Lemma keeps_bind {A B : Type} (c : M Detail.Page A) (k : A -> M Detail.Page B) :
  keeps c -> (forall a, keeps (k a)) -> keeps (bind c k).
Proof.
  intros Hc Hk p H. unfold bind, state_after.
  specialize (Hc p H). unfold state_after in Hc.
  destruct (c p) as [[a|m] p']; cbn in *; [now apply Hk | exact Hc].
Qed.

(** After reading a page variable the rest may rely on its value. *)
Lemma keeps_bind_gets {A B : Type} (f : Detail.Page -> A)
    (k : A -> M Detail.Page B) :
  (forall p, anonymous p -> anonymous (state_after (k (f p) p))) ->
  keeps (bind (gets f) k).
Proof. intros Hk p H. unfold bind, gets. cbn. now apply Hk. Qed.

Lemma keeps_try_catch {A : Type} (body : M Detail.Page A)
    (handler : string -> M Detail.Page A) :
  keeps body -> (forall m, keeps (handler m)) -> keeps (try_catch body handler).
Proof.
  intros Hb Hh p H. unfold try_catch, state_after.
  specialize (Hb p H). unfold state_after in Hb.
  destruct (body p) as [[a|m] p']; cbn in *; [exact Hb | now apply Hh].
Qed.

Lemma keeps_modify (f : Detail.Page -> Detail.Page) :
  (forall p, Detail.authUser (Detail.vars (f p)) = Detail.authUser (Detail.vars p)) ->
  (forall p, Detail.isFavorited (Detail.vars (f p))
             = Detail.isFavorited (Detail.vars p)) ->
  (forall p, Detail.env (f p) = Detail.env p) ->
  keeps (modify f).
Proof.
  intros Hu Hv He p (Ha & Hf & Hs). unfold modify, state_after, anonymous. cbn.
  rewrite Hu, Hv, He. auto.
Qed.

Lemma keeps_send {A : Type} (r : Request) (answer : Env -> Resp A)
    (effect : Env -> Env) :
  Detail.is_favorite_request r = false ->
  (forall e, sent (effect e) = sent e) ->
  keeps (send r answer effect).
Proof.
  intros Hr He p (Ha & Hf & Hs). unfold send, state_after, anonymous.
  destruct (fault _ _ _); cbn; rewrite ?He; cbn;
    (split; [exact Ha | split; [exact Hf |]]);
    intros r' Hin; apply in_app_or in Hin as [Hin | [<- | []]]; auto.
Qed.

Ltac keeps_step :=
  first
    [ apply keeps_ret
    | apply keeps_throw
    | apply keeps_try_catch; [| intros ?]
    | apply keeps_modify; intros ?; reflexivity
    | apply keeps_send; [reflexivity | intros ?; reflexivity]
    | apply keeps_bind; [| intros ?] ].

Lemma keeps_getItem (key : string) : keeps (Detail.getItem key).
Proof. intros p H. exact H. Qed.

Lemma keeps_setItem (key value : string) : keeps (Detail.setItem key value).
Proof. unfold Detail.setItem. keeps_step. Qed.

Lemma keeps_showError (m : string) : keeps (Detail.showError m).
Proof. unfold Detail.showError. keeps_step. Qed.

Lemma keeps_updateSaveButtonUI : keeps Detail.updateSaveButtonUI.
Proof.
  unfold Detail.updateSaveButtonUI.
  apply keeps_modify; intros p;
    destruct (Detail.authUser (Detail.vars p)) eqn:E; cbn; congruence.
Qed.

Lemma keeps_renderDetail (exp : Experience) : keeps (Detail.renderDetail exp).
Proof.
  unfold Detail.renderDetail. apply keeps_bind; [| intros _; keeps_step].
  apply keeps_modify; intros p;
    destruct (Detail.btnBusinessSite (Detail.dom p)); reflexivity.
Qed.

Lemma keeps_setNavState_anonymous : keeps (Detail.setNavState None).
Proof. unfold Detail.setNavState. repeat keeps_step. Qed.

Lemma keeps_getOrCreateVisitorSessionId (uuid : string) :
  keeps (Detail.getOrCreateVisitorSessionId uuid).
Proof.
  unfold Detail.getOrCreateVisitorSessionId.
  apply keeps_bind; [apply keeps_getItem | intros stored].
  destruct (Js.truthy _); [keeps_step |].
  apply keeps_bind; [apply keeps_setItem | intros _].
  apply keeps_bind; [| intros _; keeps_step].
  unfold insert_visitor_session. repeat keeps_step.
Qed.

Lemma keeps_logEvent (uuid id : string) (ty : EventType) :
  keeps (Detail.logEvent uuid id ty).
Proof.
  unfold Detail.logEvent.
  apply keeps_bind; [apply keeps_getOrCreateVisitorSessionId | intros sid].
  apply keeps_bind; [unfold auth_getUser; keeps_step | intros u].
  apply keeps_bind; [intros p H; exact H | intros src].
  unfold insert_event_metric. repeat keeps_step.
Qed.

Lemma keeps_logViewOnce (now : Z) (uuid id : string) :
  keeps (Detail.logViewOnce now uuid id).
Proof.
  unfold Detail.logViewOnce.
  apply keeps_bind; [apply keeps_getItem | intros stored].
  destruct (Js.diff_lt _ _ _); [keeps_step |].
  apply keeps_bind; [apply keeps_setItem | intros _; apply keeps_logEvent].
Qed.

Lemma keeps_logBookingClickOnce (now : Z) (uuid id : string) (minutes : Z) :
  keeps (Detail.logBookingClickOnce now uuid id minutes).
Proof.
  unfold Detail.logBookingClickOnce.
  apply keeps_bind; [apply keeps_getItem | intros stored].
  destruct (Js.diff_lt _ _ _); [keeps_step |].
  apply keeps_bind; [apply keeps_setItem | intros _; apply keeps_logEvent].
Qed.

Lemma keeps_loadAndRenderExperience (id : string) :
  keeps (Detail.loadAndRenderExperience id).
Proof.
  unfold Detail.loadAndRenderExperience.
  apply keeps_try_catch; [| intros m; apply keeps_showError].
  apply keeps_bind; [unfold Detail.hideError; keeps_step | intros _].
  apply keeps_bind; [unfold select_experience_single; keeps_step | intros r].
  destruct (error r), (data r); try apply keeps_showError.
  apply keeps_bind_gets. intros p H.
  destruct H as (Ha & Hrest). rewrite Ha.
  assert (Hk : keeps (ret tt ;; Detail.updateSaveButtonUI ;; Detail.renderDetail e)).
  { apply keeps_bind; [keeps_step | intros _].
    apply keeps_bind; [apply keeps_updateSaveButtonUI | intros _].
    apply keeps_renderDetail. }
  apply Hk. split; assumption.
Qed.

Lemma keeps_handler (ev : Detail.Event) : keeps (Detail.handler ev).
Proof.
  destruct ev as [now uuid | | | | now uuid]; cbn [Detail.handler].
  - unfold Detail.onDOMContentLoaded.
    apply keeps_bind_gets. intros p H.
    destruct H as (Ha & Hrest). rewrite Ha.
    assert (Hk : keeps
      (Detail.setNavState None ;;
       experienceId <- gets Detail.url_id ;;
       (if Js.truthy experienceId
        then modify (Detail.set_currentExperienceId experienceId) ;;
             Detail.loadAndRenderExperience experienceId ;;
             Detail.logViewOnce now uuid experienceId
        else Detail.showError "Missing experience id in URL."))).
    { apply keeps_bind; [apply keeps_setNavState_anonymous | intros _].
      apply keeps_bind; [intros q H; exact H | intros id].
      destruct (Js.truthy id); [| apply keeps_showError].
      apply keeps_bind; [keeps_step | intros _].
      apply keeps_bind; [apply keeps_loadAndRenderExperience | intros _].
      apply keeps_logViewOnce. }
    apply Hk. split; assumption.
  - unfold Detail.onSaveClick.
    apply keeps_bind_gets. intros p H.
    destruct H as (Ha & Hrest). rewrite Ha.
    assert (Hk : keeps (modify (Detail.navigate "auth/login.html")))
      by keeps_step.
    apply Hk. split; assumption.
  - keeps_step.
  - unfold Detail.onSignOutClick, auth_signOut. repeat keeps_step.
  - unfold Detail.onBookingClick.
    apply keeps_bind; [intros p H; exact H | intros b].
    destruct b as [[h en [[id url]|]]|]; try keeps_step.
    destruct (Js.truthy url); [| keeps_step].
    apply keeps_bind; [apply keeps_logBookingClickOnce | intros _; keeps_step].
Qed.

Lemma reachable_anonymous (p : Detail.Page) : Detail.reachable p -> anonymous p.
Proof.
  induction 1 as [p [Hv Hs] | ev p Hr IH].
  - unfold anonymous. rewrite Hv, Hs. cbn. tauto.
  - apply keeps_handler, IH.
Qed.

(** C9.  In every state the detail page can reach from its load, whoever
    is signed in on the platform: the page-level user is still null, the
    favourite flag is still false, no request about the favourite table
    has been sent (so the stored favourite state was never fetched), and a
    click on Save sends nothing and leaves for the login page. *)
Theorem detail_page_save_always_redirects_to_login (p : Detail.Page) :
  Detail.reachable p ->
  Detail.authUser (Detail.vars p) = None /\
  Detail.isFavorited (Detail.vars p) = false /\
  (forall r, In r (sent (Detail.env p)) -> Detail.is_favorite_request r = false) /\
  Detail.location (Detail.browser (Detail.step Detail.SaveClick p))
    = Some "auth/login.html" /\
  sent (Detail.env (Detail.step Detail.SaveClick p)) = sent (Detail.env p).
Proof.
  intros Hr. destruct (reachable_anonymous p Hr) as (Ha & Hf & Hs).
  repeat split; auto.
  - unfold Detail.step, Detail.handler, Detail.onSaveClick, bind, gets,
      state_after. cbn. rewrite Ha. reflexivity.
  - unfold Detail.step, Detail.handler, Detail.onSaveClick, bind, gets,
      state_after. cbn. rewrite Ha. reflexivity.
Qed.

(** ** Metrics de-duplication *)

Lemma number_of_string (z : Z) : Js.Number_ (Js.String_ z) = Some z.
Proof.
  unfold Js.Number_, Js.String_. rewrite NilEmpty.isi.
  f_equal. apply DecimalZ.of_to.
Qed.

Lemma last_seen_stored (s : string) : Detail.last_seen (Some s) = Js.Number_ s.
Proof.
  unfold Detail.last_seen, Js.truthy.
  destruct (String.eqb s "") eqn:E; cbn; [| reflexivity].
  apply String.eqb_eq in E. subst. reflexivity.
Qed.

Lemma dedupe_key_not_session (kind : EventType) (id : string) :
  dedupe_key kind id <> "visitor_session_id".
Proof. destruct kind; cbn; discriminate. Qed.

Lemma attempt_unfold (kind : EventType) (id : string) (try : Z * string) :
  attempt kind id try =
  (stored <- Detail.getItem (dedupe_key kind id) ;;
   if Js.diff_lt (fst try) (Detail.last_seen stored) (Detail.cooldown 30)
   then ret tt
   else Detail.setItem (dedupe_key kind id) (Js.String_ (fst try)) ;;
        Detail.logEvent (snd try) id kind).
Proof. destruct kind; reflexivity. Qed.
Lemma recorded_append (kind : EventType) (id : string) (rows : list EventRow) (row : EventRow) :
  List.length (List.filter (fun row => String.eqb (ev_experience_id row) id &&
                   same_kind (ev_event_type row) kind) (rows ++ [row])) =
  (List.length (List.filter (fun row => String.eqb (ev_experience_id row) id &&
                   same_kind (ev_event_type row) kind) rows) +
   (if String.eqb (ev_experience_id row) id && same_kind (ev_event_type row) kind then 1 else 0))%nat.
Proof.
  rewrite List.filter_app, length_app. cbn.
  destruct (_ && _); reflexivity.
Qed.

Lemma logEvent_effect (uuid id : string) (kind : EventType) (p : Detail.Page) :
  (forall key, key <> "visitor_session_id" ->
     Detail.localStorage (Detail.browser (state_after (Detail.logEvent uuid id kind p))) !! key
     = Detail.localStorage (Detail.browser p) !! key) /\
  (recorded kind id (state_after (Detail.logEvent uuid id kind p))
     <= recorded kind id p + 1)%nat /\
  fault (Detail.env (state_after (Detail.logEvent uuid id kind p)))
    = fault (Detail.env p) /\
  (healthy (Detail.env p) ->
   recorded kind id (state_after (Detail.logEvent uuid id kind p))
     = (recorded kind id p + 1)%nat).
Proof.
  unfold Detail.logEvent, Detail.getOrCreateVisitorSessionId, Detail.getItem,
    Detail.setItem, insert_visitor_session, auth_getUser, insert_event_metric,
    send, bind, gets, modify, ret, try_catch, state_after, recorded, healthy.
  cbn.
  destruct (Js.truthy _); cbn.
  all: repeat match goal with
       | |- context [fault ?e ?n ?r] => destruct (fault e n r) eqn:?; cbn
       end.
  all: split; [| split; [| split; [reflexivity |]]].
  all: try (intros key Hk; rewrite ?lookup_insert_ne by congruence; reflexivity).
  all: try (rewrite ?recorded_append; try destruct (_ && _); lia).
  all: intros Hh;
       repeat match goal with
       | H : fault _ _ _ = _ |- _ => rewrite Hh in H; try discriminate H; clear H
       end.
  all: rewrite recorded_append; cbn; rewrite String.eqb_refl; destruct kind; reflexivity.
Qed.

Lemma attempt_skips (kind : EventType) (id : string) (try : Z * string)
    (p : Detail.Page) (c : Z) :
  Detail.localStorage (Detail.browser p) !! dedupe_key kind id
    = Some (Js.String_ c) ->
  (fst try - c < 1800000)%Z ->
  state_after (attempt kind id try p) = p.
Proof.
  intros Hc Hlt. rewrite attempt_unfold.
  unfold bind, Detail.getItem, gets, state_after. cbn.
  rewrite Hc, last_seen_stored, number_of_string.
  change (Detail.cooldown 30) with 1800000%Z. cbn [Js.diff_lt].
  apply Z.ltb_lt in Hlt. rewrite Hlt. reflexivity.
Qed.

Lemma attempt_records (kind : EventType) (id : string) (try : Z * string)
    (p : Detail.Page) :
  Js.diff_lt (fst try)
    (Detail.last_seen (Detail.localStorage (Detail.browser p) !! dedupe_key kind id))
    (Detail.cooldown 30) = false ->
  Detail.localStorage (Detail.browser (state_after (attempt kind id try p)))
    !! dedupe_key kind id = Some (Js.String_ (fst try)) /\
  (recorded kind id (state_after (attempt kind id try p))
     <= recorded kind id p + 1)%nat /\
  fault (Detail.env (state_after (attempt kind id try p))) = fault (Detail.env p) /\
  (healthy (Detail.env p) ->
   recorded kind id (state_after (attempt kind id try p))
     = (recorded kind id p + 1)%nat).
Proof.
  intros Hpass. rewrite attempt_unfold.
  unfold bind, Detail.getItem, gets, state_after. cbn. rewrite Hpass.
  unfold Detail.setItem, modify. cbn.
  match goal with |- context [Detail.logEvent ?u ?i ?k ?q] =>
    destruct (logEvent_effect u i k q) as (Hls & Hle & Hf & Hh);
    unfold state_after in Hls, Hle, Hf, Hh
  end.
  split; [| split; [| split]].
  - rewrite Hls by apply dedupe_key_not_session. cbn. apply lookup_insert_eq.
  - exact Hle.
  - exact Hf.
  - exact Hh.
Qed.

(** An attempt the cache lets through passes the test of the code. *)
Lemma lets_through_passes (kind : EventType) (id : string) (t : Z)
    (p : Detail.Page) :
  cache_lets_through p kind id t ->
  Js.diff_lt t
    (Detail.last_seen (Detail.localStorage (Detail.browser p) !! dedupe_key kind id))
    (Detail.cooldown 30) = false.
Proof.
  unfold cache_lets_through.
  destruct (Detail.localStorage (Detail.browser p) !! dedupe_key kind id)
    as [text|].
  - intros (c & -> & Hc). rewrite last_seen_stored, number_of_string.
    change (Detail.cooldown 30) with 1800000%Z. cbn [Js.diff_lt].
    apply Z.ltb_ge. exact Hc.
  - intros Ht. change (Detail.cooldown 30) with 1800000%Z.
    cbn [Detail.last_seen Js.diff_lt]. apply Z.ltb_ge. lia.
Qed.

Lemma run_all_skipped (kind : EventType) (id : string)
    (tries : list (Z * string)) (p : Detail.Page) (c : Z) :
  Detail.localStorage (Detail.browser p) !! dedupe_key kind id
    = Some (Js.String_ c) ->
  Forall (fun t => (t - c < 1800000)%Z) (List.map fst tries) ->
  run_attempts kind id tries p = p.
Proof.
  intros Hc. induction tries as [|try rest IH]; cbn; [reflexivity |].
  intros Hall. inversion Hall as [|t ts Ht Hts]; subst.
  rewrite (attempt_skips kind id try p c Hc Ht). now apply IH.
Qed.

Lemma run_within_window (kind : EventType) (id : string)
    (tries : list (Z * string)) (p : Detail.Page) :
  within_window (List.map fst tries) ->
  (recorded kind id (run_attempts kind id tries p) <= recorded kind id p + 1)%nat.
Proof.
  revert p. induction tries as [|try rest IH]; intros p Hw; cbn; [lia |].
  inversion Hw as [|t ts Hall Hrest]; subst.
  destruct (Js.diff_lt (fst try)
              (Detail.last_seen
                 (Detail.localStorage (Detail.browser p) !! dedupe_key kind id))
              (Detail.cooldown 30)) eqn:E.
  - assert (Hsame : state_after (attempt kind id try p) = p).
    { rewrite attempt_unfold. unfold bind, Detail.getItem, gets, state_after.
      cbn. now rewrite E. }
    rewrite Hsame. now apply IH.
  - destruct (attempt_records kind id try p E) as (Hc & Hle & _ & _).
    rewrite (run_all_skipped kind id rest _ (fst try) Hc Hall). exact Hle.
Qed.

Lemma dedupe_key_inj (k k' : EventType) (i i' : string) :
  dedupe_key k i = dedupe_key k' i' -> k = k' /\ i = i'.
Proof.
  destruct k, k'; cbn; intros H; inversion H; auto.
Qed.

Lemma attempt_leaves_other_keys (kind kind' : EventType) (id id' : string)
    (try : Z * string) (p : Detail.Page) :
  (kind', id') <> (kind, id) ->
  Detail.localStorage (Detail.browser (state_after (attempt kind' id' try p)))
    !! dedupe_key kind id
  = Detail.localStorage (Detail.browser p) !! dedupe_key kind id.
Proof.
  intros Hne. rewrite attempt_unfold.
  unfold bind, Detail.getItem, gets, state_after. cbn.
  destruct (Js.diff_lt _ _ _); [reflexivity |].
  unfold Detail.setItem, modify. cbn.
  match goal with |- context [Detail.logEvent ?u ?i ?k ?q] =>
    destruct (logEvent_effect u i k q) as (Hls & _);
    unfold state_after in Hls
  end.
  rewrite Hls by apply dedupe_key_not_session. cbn.
  apply lookup_insert_ne. intros H. apply dedupe_key_inj in H as [-> ->].
  now apply Hne.
Qed.

(** C7.  Attempts to log one kind of event (a view or a booking click)
    for one experience, made one after the other.  When their clock
    readings all fall in one window of 30 minutes (1 800 000 ms), at most
    one event is added to the metric table, whatever the cache held before
    and whichever requests fail.  On a platform without failures, from any
    cache that lets the first attempt through (no entry, or the reading of
    an attempt at least 30 minutes earlier): a second attempt less than 30
    minutes after the first adds nothing, so exactly one event is
    recorded, and a second attempt 30 minutes or more after the first is
    recorded too, two events.  The cache entry belongs to the experience
    and the kind: an attempt for another experience or of the other kind
    leaves it as it was. *)
Theorem cooldown_dedupes_events (kind : EventType) (id : string)
    (p : Detail.Page) :
  (forall tries : list (Z * string),
     within_window (List.map fst tries) ->
     (recorded kind id (run_attempts kind id tries p)
        <= recorded kind id p + 1)%nat) /\
  (forall (t1 t2 : Z) (u1 u2 : string),
     healthy (Detail.env p) ->
     cache_lets_through p kind id t1 ->
     recorded kind id (run_attempts kind id [(t1, u1); (t2, u2)] p)
       = if (t2 - t1 <? 1800000)%Z
         then (recorded kind id p + 1)%nat
         else (recorded kind id p + 2)%nat) /\
  (forall (kind' : EventType) (id' : string) (try : Z * string),
     (kind', id') <> (kind, id) ->
     Detail.localStorage (Detail.browser (state_after (attempt kind' id' try p)))
       !! dedupe_key kind id
     = Detail.localStorage (Detail.browser p) !! dedupe_key kind id).
Proof.
  split; [intros tries; apply run_within_window | split].
  2: { intros kind' id' try Hne. now apply attempt_leaves_other_keys. }
  intros t1 t2 u1 u2 Hh Hlets. cbn [run_attempts].
  pose proof (lets_through_passes kind id t1 p Hlets) as E1.
  destruct (attempt_records kind id (t1, u1) p E1) as (Hc & _ & Hf & Hrec).
  set (p1 := state_after (attempt kind id (t1, u1) p)) in *.
  cbn [fst] in Hc.
  destruct (Z.ltb_spec (t2 - t1) 1800000) as [Hin | Hout].
  - rewrite (attempt_skips kind id (t2, u2) p1 t1 Hc) by exact Hin.
    now apply Hrec.
  - assert (E2 : Js.diff_lt (fst (t2, u2))
                   (Detail.last_seen
                      (Detail.localStorage (Detail.browser p1) !! dedupe_key kind id))
                   (Detail.cooldown 30) = false).
    { rewrite Hc, last_seen_stored, number_of_string.
      change (Detail.cooldown 30) with 1800000%Z. cbn [Js.diff_lt fst].
      apply Z.ltb_ge. exact Hout. }
    destruct (attempt_records kind id (t2, u2) p1 E2) as (_ & _ & _ & Hrec2).
    rewrite Hrec2, (Hrec Hh); [lia |].
    intros n r. rewrite Hf. apply Hh.
Qed.

(** ** Metrics dashboard: failed counts read as zero *)

Lemma refreshDailyActivity_effect (p : BusinessMetrics.Page) :
  BusinessMetrics.dom (state_after (BusinessMetrics.refreshDailyActivity p))
    = BusinessMetrics.dom p /\
  BusinessMetrics.lastKpis
    (BusinessMetrics.vars (state_after (BusinessMetrics.refreshDailyActivity p)))
    = BusinessMetrics.lastKpis (BusinessMetrics.vars p) /\
  (nothing_rejects (BusinessMetrics.env p) ->
   outcome_of (BusinessMetrics.refreshDailyActivity p) = Returned tt) /\
  (forall businessId,
     BusinessMetrics.currentBusiness (BusinessMetrics.vars p) = Some businessId ->
     sent (BusinessMetrics.env (state_after (BusinessMetrics.refreshDailyActivity p)))
     = sent (BusinessMetrics.env p) ++
       [SelectEventsDaily businessId
          (String.substring 0 10
             (BusinessMetrics.sinceISO (BusinessMetrics.browser p)
                (BusinessMetrics.currentDays (BusinessMetrics.vars p))))
          (BusinessMetrics.currentExperienceId (BusinessMetrics.vars p));
        SelectSavesDaily businessId
          (String.substring 0 10
             (BusinessMetrics.sinceISO (BusinessMetrics.browser p)
                (BusinessMetrics.currentDays (BusinessMetrics.vars p))))
          (BusinessMetrics.currentExperienceId (BusinessMetrics.vars p))]).
Proof.
  unfold BusinessMetrics.refreshDailyActivity, promise_all2,
    BusinessMetrics.loadEventsDaily,
    BusinessMetrics.loadSavesDaily, select_events_daily, select_saves_daily,
    send, bind, gets, modify, ret, state_after, outcome_of, nothing_rejects.
  cbn.
  destruct (BusinessMetrics.currentBusiness (BusinessMetrics.vars p)); cbn;
    [| repeat split; auto; discriminate].
  repeat match goal with
         | |- context [fault ?e ?n ?r] => destruct (fault e n r) eqn:?; cbn
         end.
  all: (split; [reflexivity | split; [reflexivity | split]]).
  all: try (intros b' [= <-]; rewrite <- app_assoc; reflexivity).
  all: intros Hn; try reflexivity;
       repeat match goal with
       | H : fault _ _ _ = rejects _ |- _ => apply Hn in H; destruct H
       end.
Qed.

(** The three count requests of a refresh, in the order sent. *)
Lemma refreshKpis_counts (p : BusinessMetrics.Page) (businessId : string) :
  BusinessMetrics.currentBusiness (BusinessMetrics.vars p) = Some businessId ->
  count_queries_fail (BusinessMetrics.env p) ->
  exists q,
    BusinessMetrics.refreshKpis p = BusinessMetrics.refreshDailyActivity q /\
    BusinessMetrics.kpiViews (BusinessMetrics.dom q)
      = option_map
          (fun _ => BusinessMetrics.toLocaleString (BusinessMetrics.browser p) 0%Z)
          (BusinessMetrics.kpiViews (BusinessMetrics.dom p)) /\
    BusinessMetrics.kpiSaves (BusinessMetrics.dom q)
      = option_map
          (fun _ => BusinessMetrics.toLocaleString (BusinessMetrics.browser p) 0%Z)
          (BusinessMetrics.kpiSaves (BusinessMetrics.dom p)) /\
    BusinessMetrics.kpiClicks (BusinessMetrics.dom q)
      = option_map
          (fun _ => BusinessMetrics.toLocaleString (BusinessMetrics.browser p) 0%Z)
          (BusinessMetrics.kpiClicks (BusinessMetrics.dom p)) /\
    BusinessMetrics.lastKpis (BusinessMetrics.vars q)
      = {| BusinessMetrics.k_views := 0; BusinessMetrics.k_saves := 0;
           BusinessMetrics.k_clicks := 0 |} /\
    fault (BusinessMetrics.env q) = fault (BusinessMetrics.env p) /\
    BusinessMetrics.browser q = BusinessMetrics.browser p /\
    BusinessMetrics.currentBusiness (BusinessMetrics.vars q) = Some businessId /\
    BusinessMetrics.currentDays (BusinessMetrics.vars q)
      = BusinessMetrics.currentDays (BusinessMetrics.vars p) /\
    BusinessMetrics.currentExperienceId (BusinessMetrics.vars q)
      = BusinessMetrics.currentExperienceId (BusinessMetrics.vars p) /\
    sent (BusinessMetrics.env q)
      = sent (BusinessMetrics.env p) ++
        [CountEvents businessId
           (BusinessMetrics.sinceISO (BusinessMetrics.browser p)
              (BusinessMetrics.currentDays (BusinessMetrics.vars p)))
           view (BusinessMetrics.currentExperienceId (BusinessMetrics.vars p));
         CountSaves businessId
           (BusinessMetrics.sinceISO (BusinessMetrics.browser p)
              (BusinessMetrics.currentDays (BusinessMetrics.vars p)))
           (BusinessMetrics.currentExperienceId (BusinessMetrics.vars p));
         CountEvents businessId
           (BusinessMetrics.sinceISO (BusinessMetrics.browser p)
              (BusinessMetrics.currentDays (BusinessMetrics.vars p)))
           booking_click
           (BusinessMetrics.currentExperienceId (BusinessMetrics.vars p))].
Proof.
  intros Hb Hfail.
  unfold BusinessMetrics.refreshKpis, promise_all3, promise_all2,
    BusinessMetrics.countEvents,
    BusinessMetrics.countSaves, select_count, send, bind, gets, modify, ret.
  cbn -[BusinessMetrics.refreshDailyActivity]. rewrite Hb.
  cbn -[BusinessMetrics.refreshDailyActivity].
  repeat match goal with
         | |- context [fault (BusinessMetrics.env p) ?n ?r] =>
             let m := fresh "m" in let Hm := fresh "Hm" in
             destruct (Hfail n r eq_refl) as [m Hm]; rewrite Hm;
             cbn -[BusinessMetrics.refreshDailyActivity]
         end.
  eexists. split; [reflexivity |].
  cbn. rewrite <- !app_assoc. cbn.
  destruct (BusinessMetrics.kpiViews (BusinessMetrics.dom p)),
    (BusinessMetrics.kpiSaves (BusinessMetrics.dom p)),
    (BusinessMetrics.kpiClicks (BusinessMetrics.dom p)); cbn; auto 12.
Qed.

(** C10.  A count query that comes back with an error object makes
    [countEvents] and [countSaves] answer 0, never an exception.  So when
    every count query fails that way, a KPI refresh sends its three count
    queries and then writes into each of the three tiles that are in the
    document the text the browser prints for the number 0, and keeps the
    totals 0, 0, 0, even if a later request of the refresh should reject;
    and when no request rejects, the refresh runs to its end. *)
Theorem failed_counts_read_as_zero (p : BusinessMetrics.Page) :
  (forall (businessId start : string) (eventType : EventType)
          (experienceId m : string),
     fault (BusinessMetrics.env p) (List.length (sent (BusinessMetrics.env p)))
       (CountEvents businessId start eventType experienceId) = error_result m ->
     outcome_of (BusinessMetrics.countEvents businessId start eventType
                   experienceId p) = Returned 0%nat) /\
  (forall (businessId start experienceId m : string),
     fault (BusinessMetrics.env p) (List.length (sent (BusinessMetrics.env p)))
       (CountSaves businessId start experienceId) = error_result m ->
     outcome_of (BusinessMetrics.countSaves businessId start experienceId p)
       = Returned 0%nat) /\
  (forall businessId : string,
     BusinessMetrics.currentBusiness (BusinessMetrics.vars p) = Some businessId ->
     count_queries_fail (BusinessMetrics.env p) ->
     let zero := BusinessMetrics.toLocaleString (BusinessMetrics.browser p) 0%Z in
     let start :=
       BusinessMetrics.sinceISO (BusinessMetrics.browser p)
         (BusinessMetrics.currentDays (BusinessMetrics.vars p)) in
     let id := BusinessMetrics.currentExperienceId (BusinessMetrics.vars p) in
     let after := state_after (BusinessMetrics.refreshKpis p) in
     BusinessMetrics.kpiViews (BusinessMetrics.dom after)
       = option_map (fun _ => zero)
           (BusinessMetrics.kpiViews (BusinessMetrics.dom p)) /\
     BusinessMetrics.kpiSaves (BusinessMetrics.dom after)
       = option_map (fun _ => zero)
           (BusinessMetrics.kpiSaves (BusinessMetrics.dom p)) /\
     BusinessMetrics.kpiClicks (BusinessMetrics.dom after)
       = option_map (fun _ => zero)
           (BusinessMetrics.kpiClicks (BusinessMetrics.dom p)) /\
     BusinessMetrics.lastKpis (BusinessMetrics.vars after)
       = {| BusinessMetrics.k_views := 0; BusinessMetrics.k_saves := 0;
            BusinessMetrics.k_clicks := 0 |} /\
     sent (BusinessMetrics.env after)
       = sent (BusinessMetrics.env p) ++
         [CountEvents businessId start view id;
          CountSaves businessId start id;
          CountEvents businessId start booking_click id;
          SelectEventsDaily businessId (String.substring 0 10 start) id;
          SelectSavesDaily businessId (String.substring 0 10 start) id] /\
     (nothing_rejects (BusinessMetrics.env p) ->
      outcome_of (BusinessMetrics.refreshKpis p) = Returned tt)).
Proof.
  split; [| split].
  - intros businessId start eventType experienceId m Hm.
    unfold BusinessMetrics.countEvents, select_count, send, bind, outcome_of.
    cbn. rewrite Hm. reflexivity.
  - intros businessId start experienceId m Hm.
    unfold BusinessMetrics.countSaves, select_count, send, bind, outcome_of.
    cbn. rewrite Hm. reflexivity.
  - intros businessId Hb Hfail zero start id after. subst zero start id after.
    destruct (refreshKpis_counts p businessId Hb Hfail)
      as (q & -> & Hv & Hs & Hc & Hk & Hf & Hbr & Hcb & Hcd & Hce & Hsent).
    destruct (refreshDailyActivity_effect q) as (Hd & Hl & Ho & Hsd).
    rewrite Hd, Hl.
    split; [exact Hv |]. split; [exact Hs |]. split; [exact Hc |].
    split; [exact Hk |]. split.
    + rewrite (Hsd businessId Hcb), Hsent, Hbr, Hcd, Hce, <- app_assoc.
      reflexivity.
    + intros Hn. apply Ho. intros n r msg. rewrite Hf. apply Hn.
Qed.

(** ** Favourite toggle *)

Lemma loadFavorites_healthy (uid : string) (p : UserDashboard.Page) :
  UserDashboard.currentUser p = Some uid ->
  UserDashboard.favoritesList p <> None ->
  healthy (UserDashboard.env p) ->
  UserDashboard.favoriteExperienceIds (state_after (UserDashboard.loadFavorites p))
    = list_to_set (favourites_of uid (UserDashboard.env p)) /\
  UserDashboard.favoritesList (state_after (UserDashboard.loadFavorites p))
    = Some (view_from_store uid (UserDashboard.env p)) /\
  favourites_of uid (UserDashboard.env (state_after (UserDashboard.loadFavorites p)))
    = favourites_of uid (UserDashboard.env p) /\
  view_from_store uid
    (UserDashboard.env (state_after (UserDashboard.loadFavorites p)))
    = view_from_store uid (UserDashboard.env p) /\
  exists later,
    sent (UserDashboard.env (state_after (UserDashboard.loadFavorites p)))
    = sent (UserDashboard.env p) ++ SelectFavorites uid :: later.
Proof.
  intros Hu Hl Hh.
  unfold UserDashboard.loadFavorites, UserDashboard.currentUser_id,
    UserDashboard.renderFavoritesList, select_favorites, select_experiences,
    send, bind, gets, modify, ret, throw, try_catch, state_after,
    view_from_store, favourites_of, view_of.
  cbn -[run_select]. rewrite Hu. cbn -[run_select]. rewrite Hh. cbn -[run_select].
  destruct (UserDashboard.favoritesList p) as [shown|] eqn:El; [| congruence].
  destruct (List.map fav_experience_id _) as [|i ids] eqn:Eids;
    cbn -[run_select]; rewrite ?Hh; cbn -[run_select]; rewrite ?El.
  - (split; [| split; [| split; [| split]]]);
      try (rewrite ?Eids; reflexivity).
    exists (@nil Request). reflexivity.
  - destruct (List.filter UserDashboard.safe _) as [|e rows] eqn:Erows;
      cbn -[run_select]; rewrite ?El, ?Eids; cbn -[run_select]; rewrite ?Erows;
      (split; [| split; [| split; [| split]]]);
      try (rewrite ?Eids; cbn -[run_select]; rewrite ?Erows; reflexivity);
      eexists; rewrite <- app_assoc; reflexivity.
Qed.

Lemma loadFavorites_returns (p : UserDashboard.Page) :
  outcome_of (UserDashboard.loadFavorites p) = Returned tt.
Proof. unfold UserDashboard.loadFavorites. apply try_catch_modify_returns. Qed.

(** What a load of the favourites leaves behind, whatever the platform
    does to its requests: the table is read first; the list ends in the
    error state, or the list and the id set are what the table holds. *)
Lemma loadFavorites_reads_back (uid : string) (p : UserDashboard.Page) :
  UserDashboard.currentUser p = Some uid ->
  UserDashboard.favoritesList p <> None ->
  (exists later,
     sent (UserDashboard.env (state_after (UserDashboard.loadFavorites p)))
     = sent (UserDashboard.env p) ++ SelectFavorites uid :: later) /\
  (UserDashboard.favoritesList (state_after (UserDashboard.loadFavorites p))
     = Some UserDashboard.fav_error \/
   UserDashboard.favoritesList (state_after (UserDashboard.loadFavorites p))
     = Some (view_from_store uid
               (UserDashboard.env (state_after (UserDashboard.loadFavorites p)))) /\
   UserDashboard.favoriteExperienceIds (state_after (UserDashboard.loadFavorites p))
     = list_to_set
         (favourites_of uid
            (UserDashboard.env (state_after (UserDashboard.loadFavorites p))))).
Proof.
  intros Hu Hl.
  destruct (UserDashboard.favoritesList p) as [shown|] eqn:El; [| congruence].
  unfold UserDashboard.loadFavorites, UserDashboard.currentUser_id,
    UserDashboard.renderFavoritesList, select_favorites, select_experiences,
    send, bind, gets, modify, ret, throw, try_catch, state_after,
    view_from_store, favourites_of, view_of.
  cbn -[run_select]. rewrite Hu. cbn -[run_select].
  repeat (match goal with
          | |- context [fault ?e ?n ?r] => destruct (fault e n r) eqn:?
          | |- context [match List.map fav_experience_id ?l with _ => _ end] =>
              destruct (List.map fav_experience_id l) eqn:Eids
          | |- context [match List.filter UserDashboard.safe ?l with _ => _ end] =>
              destruct (List.filter UserDashboard.safe l) eqn:Erows
          end; cbn -[run_select]; rewrite ?El; cbn -[run_select]).
  all: split; [eexists; rewrite <- ?app_assoc; reflexivity |].
  all: first [ left; reflexivity
             | right; rewrite ?Eids; cbn -[run_select]; rewrite ?Erows; auto ].
Qed.

(** C6.  On the user dashboard every toggle whose insert or delete
    succeeds is followed at once by a fresh read of the favourite table;
    the list shown afterwards is the error state if a read failed, and
    otherwise both the list and the page's id set are the ones derived
    from the table as the mutation left it, whatever the page believed
    before.  On the detail page no favourite is ever inserted or deleted:
    in every state the page can reach no request about the favourite table
    has been sent, and a click on Save sends nothing and leaves the flag
    and the button text alone. *)
Theorem favourite_toggle_display (uid eid : string) :
  (forall p : UserDashboard.Page,
     UserDashboard.currentUser p = Some uid ->
     UserDashboard.favoritesList p <> None ->
     fault (UserDashboard.env p) (List.length (sent (UserDashboard.env p)))
       (toggle_request
          (bool_decide (eid ∈ UserDashboard.favoriteExperienceIds p)) uid eid)
       = no_fault ->
     let after := state_after (UserDashboard.toggleFavorite eid p) in
     (exists later,
        sent (UserDashboard.env after)
        = sent (UserDashboard.env p) ++
          toggle_request
            (bool_decide (eid ∈ UserDashboard.favoriteExperienceIds p)) uid eid
          :: SelectFavorites uid :: later) /\
     (UserDashboard.favoritesList after = Some UserDashboard.fav_error \/
      UserDashboard.favoritesList after
        = Some (view_from_store uid (UserDashboard.env after)) /\
      UserDashboard.favoriteExperienceIds after
        = list_to_set (favourites_of uid (UserDashboard.env after))) /\
     (healthy (UserDashboard.env p) ->
      UserDashboard.favoritesList after
        = Some (view_from_store uid (UserDashboard.env after)) /\
      UserDashboard.favoriteExperienceIds after
        = list_to_set (favourites_of uid (UserDashboard.env after)))) /\
  (forall p : Detail.Page,
     Detail.reachable p ->
     (forall r, In r (sent (Detail.env p)) ->
                Detail.is_favorite_request r = false) /\
     sent (Detail.env (Detail.step Detail.SaveClick p)) = sent (Detail.env p) /\
     Detail.isFavorited (Detail.vars (Detail.step Detail.SaveClick p)) = false /\
     Detail.btnSave (Detail.dom (Detail.step Detail.SaveClick p))
       = Detail.btnSave (Detail.dom p)).
Proof.
  split.
  - intros p Hu Hl Hok after. subst after.
    unfold UserDashboard.toggleFavorite, UserDashboard.currentUser_id,
      delete_favorite, insert_favorite, send, bind, gets, modify, ret, throw,
      try_catch, state_after, toggle_request in *.
    cbn -[UserDashboard.loadFavorites].
    destruct (bool_decide (eid ∈ UserDashboard.favoriteExperienceIds p));
      cbn -[UserDashboard.loadFavorites]; rewrite Hu;
      cbn -[UserDashboard.loadFavorites]; rewrite Hok;
      cbn -[UserDashboard.loadFavorites].
    all: match goal with |- context [UserDashboard.loadFavorites ?q] =>
           pose proof (loadFavorites_returns q) as Hret;
           destruct (loadFavorites_reads_back uid q Hu Hl) as ((later & Hsent) & Hread);
           pose proof (fun Hh => loadFavorites_healthy uid q Hu Hl Hh) as Hgood;
           unfold state_after, outcome_of in Hret, Hsent, Hread, Hgood;
           destruct (UserDashboard.loadFavorites q) as [[[]|m] p3]
         end; cbn in Hret; try discriminate Hret;
         cbn [fst snd] in *.
    all: split; [exists later; rewrite Hsent; cbn; rewrite <- app_assoc;
                 reflexivity |].
    all: split; [exact Hread |].
    all: intros Hh;
         destruct Hgood as (Hids & Hview & Hfav & Hvs & _);
         [intros n r; apply Hh |];
         split; [rewrite Hview, Hvs | rewrite Hids, Hfav]; reflexivity.
  - intros p Hr. destruct (reachable_anonymous p Hr) as (Ha & Hf & Hs).
    split; [exact Hs |].
    unfold Detail.step, Detail.handler, Detail.onSaveClick, bind, gets,
      state_after. cbn. rewrite Ha. cbn. auto.
Qed.

(** ** Worked instances *)

(** The finder with "Wellness" chosen, a category no experience is linked
    to: no match, and the lookup is the only request. *)
Lemma wellness_has_no_match :
  outcome_of
    (Finder.fetchMatches
       (Finder.buildFiltersFromState
          (Finder.state (finder_page "Wellness" (platform None no_faults))))
       (finder_page "Wellness" (platform None no_faults)))
    = Returned [] /\
  sent (Finder.env
          (state_after
             (Finder.fetchMatches
                (Finder.buildFiltersFromState
                   (Finder.state (finder_page "Wellness" (platform None no_faults))))
                (finder_page "Wellness" (platform None no_faults)))))
    = sent (Finder.env (finder_page "Wellness" (platform None no_faults))) ++
      [SelectCategoryLinks
         (Finder.categoryId
            (Finder.buildFiltersFromState
               (Finder.state (finder_page "Wellness" (platform None no_faults)))))].
Proof.
  apply (proj1 empty_category_short_circuits
           (Finder.buildFiltersFromState
              (Finder.state (finder_page "Wellness" (platform None no_faults))))
           (finder_page "Wellness" (platform None no_faults)));
    reflexivity.
Defined.

(** A user whose store holds "e1" while the dashboard, out of date,
    believes in "e3", saves "e2": the insert is followed by a read of the
    table, and the id set and the cards shown afterwards are those of "e1"
    and "e2", the table's. *)
Lemma stale_favourite_is_dropped :
  sent (UserDashboard.env
          (state_after (UserDashboard.toggleFavorite "e2" dashboard_out_of_date)))
  = [InsertFavorite "u1" "e2"; SelectFavorites "u1";
     SelectExperiences (UserDashboard.favorites_query ["e1"; "e2"])] /\
  UserDashboard.favoritesList
    (state_after (UserDashboard.toggleFavorite "e2" dashboard_out_of_date))
  = Some (UserDashboard.fav_cards
            [{| UserDashboard.fc_title := "Kayak tour";
                UserDashboard.fc_meta := "Dublin";
                UserDashboard.fc_min_price := Some 60;
                UserDashboard.fc_max_price := None;
                UserDashboard.fc_experience_id := "e1" |};
             {| UserDashboard.fc_title := "Pottery";
                UserDashboard.fc_meta := "Dublin";
                UserDashboard.fc_min_price := Some 40;
                UserDashboard.fc_max_price := None;
                UserDashboard.fc_experience_id := "e2" |}]) /\
  UserDashboard.favoriteExperienceIds
    (state_after (UserDashboard.toggleFavorite "e2" dashboard_out_of_date))
  = list_to_set ["e1"; "e2"].
Proof.
  destruct (proj1 (favourite_toggle_display "u1" "e2") dashboard_out_of_date
              eq_refl ltac:(discriminate) eq_refl)
    as ((later & Hsent) & _ & Hgood).
  destruct (Hgood ltac:(intros n r; reflexivity)) as [Hlist Hids].
  split; [reflexivity |]. split; [rewrite Hlist | rewrite Hids]; reflexivity.
Defined.

(** A browser whose cache says that a view of "e1" was logged at clock
    reading 1 000 000.  A view 1 800 000 ms later is logged, and so is one
    a further 1 800 000 ms later: two events.  Had the second come one
    millisecond sooner, it would have been dropped. *)
Lemma two_views_half_an_hour_apart :
  recorded view "e1"
    (run_attempts view "e1" [(2800000%Z, "s1"); (4600000%Z, "s2")]
       (Detail.set_localStorage {[ "viewed_e1" := "1000000" ]}
          (detail_page None false "e1" (platform None no_faults))))
  = 2%nat /\
  recorded view "e1"
    (run_attempts view "e1" [(2800000%Z, "s1"); (4599999%Z, "s2")]
       (Detail.set_localStorage {[ "viewed_e1" := "1000000" ]}
          (detail_page None false "e1" (platform None no_faults))))
  = 1%nat.
Proof.
  split.
  - apply (proj1 (proj2 (cooldown_dedupes_events view "e1"
                           (Detail.set_localStorage {[ "viewed_e1" := "1000000" ]}
                              (detail_page None false "e1"
                                 (platform None no_faults)))))
             2800000%Z 4600000%Z "s1" "s2").
    + intros n r. reflexivity.
    + exists 1000000%Z. split; [reflexivity | lia].
  - apply (proj1 (proj2 (cooldown_dedupes_events view "e1"
                           (Detail.set_localStorage {[ "viewed_e1" := "1000000" ]}
                              (detail_page None false "e1"
                                 (platform None no_faults)))))
             2800000%Z 4599999%Z "s1" "s2").
    + intros n r. reflexivity.
    + exists 1000000%Z. split; [reflexivity | lia].
Defined.

(** A signed-in visitor of the finder whose role lookup times out with an
    error object sees the user navigation. *)
Lemma finder_role_error_shows_user_nav :
  variants_shown
    (Finder.nav
       (state_after
          (Finder.updateNavForAuthState
             (finder_page "" (platform (Some "u1") role_lookup_errors)))))
  = [user_nav].
Proof.
  apply (proj1 (role_lookup_error_shows_user_nav "u1")
           (finder_page "" (platform (Some "u1") role_lookup_errors))).
  - split; reflexivity.
  - left. exists "timeout". reflexivity.
  - repeat split; discriminate.
Defined.

(** A signed-in visitor loads the detail page of "e1" and clicks Save:
    the browser leaves for the login page. *)
Lemma signed_in_visitor_is_sent_to_login :
  Detail.location
    (Detail.browser
       (Detail.step Detail.SaveClick
          (Detail.step (Detail.DOMContentLoaded 1800000%Z "s1")
             (detail_page None false "e1" (platform (Some "u1") no_faults)))))
  = Some "auth/login.html".
Proof.
  apply (detail_page_save_always_redirects_to_login
           (Detail.step (Detail.DOMContentLoaded 1800000%Z "s1")
              (detail_page None false "e1" (platform (Some "u1") no_faults)))).
  apply Detail.reach_step, Detail.reach_loaded. split; reflexivity.
Defined.

(** With every count query refused, the refresh ends with the text 0 in
    each of the three tiles, where 5, 2 and 1 stood before, and with zero
    totals. *)
Lemma refused_counts_leave_zero_totals :
  BusinessMetrics.kpiViews
    (BusinessMetrics.dom
       (state_after
          (BusinessMetrics.refreshKpis
             (metrics_page (platform (Some "u1") counts_refused)))))
  = Some "0" /\
  BusinessMetrics.kpiSaves
    (BusinessMetrics.dom
       (state_after
          (BusinessMetrics.refreshKpis
             (metrics_page (platform (Some "u1") counts_refused)))))
  = Some "0" /\
  BusinessMetrics.kpiClicks
    (BusinessMetrics.dom
       (state_after
          (BusinessMetrics.refreshKpis
             (metrics_page (platform (Some "u1") counts_refused)))))
  = Some "0" /\
  BusinessMetrics.lastKpis
    (BusinessMetrics.vars
       (state_after
          (BusinessMetrics.refreshKpis
             (metrics_page (platform (Some "u1") counts_refused)))))
  = {| BusinessMetrics.k_views := 0; BusinessMetrics.k_saves := 0;
       BusinessMetrics.k_clicks := 0 |} /\
  sent
    (BusinessMetrics.env
       (state_after
          (BusinessMetrics.refreshKpis
             (metrics_page (platform (Some "u1") counts_refused)))))
  = [CountEvents "b1" "2026-10-03T00:00:00.000Z" view "";
     CountSaves "b1" "2026-10-03T00:00:00.000Z" "";
     CountEvents "b1" "2026-10-03T00:00:00.000Z" booking_click "";
     SelectEventsDaily "b1" "2026-10-03" "";
     SelectSavesDaily "b1" "2026-10-03" ""] /\
  outcome_of
    (BusinessMetrics.refreshKpis
       (metrics_page (platform (Some "u1") counts_refused)))
  = Returned tt.
Proof.
  destruct (proj2 (proj2 (failed_counts_read_as_zero
                            (metrics_page (platform (Some "u1") counts_refused))))
              "b1" eq_refl) as (Hv & Hs & Hc & Hk & Hsent & Hret).
  - intros n r Hr. exists "permission denied". cbn. unfold counts_refused.
    rewrite Hr. reflexivity.
  - split; [exact Hv |]. split; [exact Hs |]. split; [exact Hc |].
    split; [exact Hk |]. split; [exact Hsent |].
    apply Hret. intros n r m. cbn. unfold counts_refused.
    destruct (BusinessMetrics.is_count_request r); discriminate.
Defined.

(* ===================================================================== *)
(** * Further properties of the scripts *)
(* ===================================================================== *)

(** ** What the filter composer asks for *)

Lemma budget_part (sem : string -> Experience -> bool) (budget : string)
    (e : Experience) :
  forallb (fun f => holds sem f e) (filters (budget_filters budget base_query))
  = price_fits budget e.
Proof.
  unfold price_fits, bucket_of, budget_filters.
  destruct (String.eqb_spec budget "under_50") as [->|H1];
    [cbn; destruct (min_price e); cbn; now rewrite ?andb_true_r |].
  destruct (String.eqb_spec budget "50_100") as [->|H2];
    [cbn; destruct (min_price e); cbn; now rewrite ?andb_true_r |].
  destruct (String.eqb_spec budget "100_200") as [->|H3];
    [cbn; destruct (min_price e); cbn; now rewrite ?andb_true_r |].
  destruct (String.eqb_spec budget "200_plus") as [->|H4];
    [cbn; destruct (min_price e); cbn; now rewrite ?andb_true_r |].
  reflexivity.
Qed.

Lemma base_part (sem : string -> Experience -> bool) (e : Experience) :
  forallb (fun f => holds sem f e) (filters approved_published) = listed e.
Proof.
  unfold listed. cbn [approved_published filters and_filter base_query app forallb holds].
  rewrite andb_true_r. f_equal. now destruct (is_published e).
Qed.

Lemma finder_query_meaning (sem : string -> Experience -> bool)
    (ids : option (list string)) (f : Finder.Filters) (e : Experience) :
  satisfies sem (Finder.matches_query ids f) e =
  listed e && in_county (Finder.f_county f) e &&
  price_fits (Finder.f_budget f) e &&
  match ids with
  | Some l => mem_string (experience_id e) l
  | None => true
  end.
Proof.
  unfold satisfies, Finder.matches_query. cbn [filters with_limit].
  destruct ids as [l|]; cbn [filters and_filter];
    rewrite ?forallb_app, filters_budget_filters, filters_apply_if,
      !forallb_app, budget_part, base_part; unfold in_county;
    destruct (Js.truthy (Finder.f_county f)); cbn;
    rewrite ?andb_true_r; reflexivity.
Qed.

Lemma experiences_query_meaning (sem : string -> Experience -> bool)
    (ids : option (list string)) (f : Experiences.Filters) (e : Experience) :
  satisfies sem (Experiences.experiences_query ids f) e =
  listed e &&
  (if Js.truthy (Experiences.searchText f)
   then sem (Experiences.or_text (Experiences.searchText f)) e else true) &&
  in_county (Experiences.f_county f) e &&
  price_fits (Experiences.f_budget f) e &&
  match ids with
  | Some l => mem_string (experience_id e) l
  | None => true
  end.
Proof.
  assert (Hb : forall q,
    forallb (fun g => holds sem g e)
      (filters (if Js.truthy (Experiences.f_budget f)
                then budget_filters (Experiences.f_budget f) q else q))
    = forallb (fun g => holds sem g e) (filters q) &&
      price_fits (Experiences.f_budget f) e).
  { intros q. destruct (Js.truthy (Experiences.f_budget f)) eqn:Eb.
    - now rewrite filters_budget_filters, forallb_app, budget_part.
    - unfold Js.truthy in Eb. apply negb_false_iff, String.eqb_eq in Eb.
      rewrite Eb. now rewrite andb_true_r. }
  unfold satisfies, Experiences.experiences_query.
  destruct ids as [l|]; cbn [filters and_filter];
    rewrite ?forallb_app, Hb, !filters_apply_if, !forallb_app, base_part;
    unfold in_county;
    destruct (Js.truthy (Experiences.f_county f));
    destruct (Js.truthy (Experiences.searchText f)); cbn;
    rewrite ?andb_true_r; reflexivity.
Qed.

(** ** The category lookup *)

Lemma mem_string_In (s : string) (l : list string) :
  mem_string s l = true <-> In s l.
Proof.
  unfold mem_string. rewrite existsb_exists. split.
  - intros (x & Hx & Heq). apply String.eqb_eq in Heq. now subst.
  - intros H. exists s. split; [exact H | apply String.eqb_refl].
Qed.

Lemma uniq_from_In (seen xs : list string) (x : string) :
  In x (uniq_from seen xs) <-> In x xs /\ ~ In x seen.
Proof.
  revert seen. induction xs as [|y xs IH]; intros seen; cbn; [tauto |].
  destruct (mem_string y seen) eqn:E.
  - apply mem_string_In in E. rewrite IH. split.
    + intros [H1 H2]. auto.
    + intros [[->|H1] H2]; [contradiction | auto].
  - assert (Hy : ~ In y seen)
      by (intros H; apply mem_string_In in H; congruence).
    cbn. rewrite IH. cbn. split.
    + intros [->|[H1 H2]]; [auto | split; [auto | tauto]].
    + intros [[->|H1] H2]; [now left |].
      destruct (String.eqb_spec y x) as [->|Hne]; [now left | right].
      split; [exact H1 | intros [?|?]; [congruence | contradiction]].
Qed.

Lemma uniq_from_NoDup (seen xs : list string) : List.NoDup (uniq_from seen xs).
Proof.
  revert seen. induction xs as [|y xs IH]; intros seen; cbn; [constructor |].
  destruct (mem_string y seen); [apply IH |].
  constructor; [| apply IH].
  rewrite uniq_from_In. cbn. tauto.
Qed.

Lemma uniq_In (xs : list string) (x : string) : In x (uniq xs) <-> In x xs.
Proof. unfold uniq. rewrite uniq_from_In. cbn. tauto. Qed.

Lemma mem_string_uniq (x : string) (xs : list string) :
  mem_string x (uniq xs) = mem_string x xs.
Proof.
  apply Bool.eq_iff_eq_true. now rewrite !mem_string_In, uniq_In.
Qed.

(** The ids the link table holds for a category, as the lookup query
    answers them. *)
Lemma linked_ids (env : Env) (cid : string) (e : Experience) :
  mem_string (experience_id e)
    (List.map link_experience_id
       (List.filter (fun r => String.eqb (link_category_id r) cid)
          (tbl_experience_category env)))
  = linked env cid e.
Proof.
  unfold linked, mem_string.
  induction (tbl_experience_category env) as [|r rows IH]; cbn; [reflexivity |].
  destruct (String.eqb (link_category_id r) cid); cbn; rewrite IH;
    [| reflexivity].
  now rewrite (String.eqb_sym (experience_id e)).
Qed.

Lemma mem_string_truthy (x : string) (xs : list string) :
  mem_string x (List.filter Js.truthy xs) = Js.truthy x && mem_string x xs.
Proof.
  unfold mem_string. induction xs as [|y xs IH]; cbn;
    [now rewrite andb_false_r |].
  destruct (Js.truthy y) eqn:Ey; cbn; rewrite IH.
  - destruct (String.eqb_spec x y) as [->|Hne]; cbn; [now rewrite Ey |].
    reflexivity.
  - destruct (String.eqb_spec x y) as [->|Hne]; cbn; [now rewrite Ey |].
    reflexivity.
Qed.

Lemma shape_apply_if (c : bool) (fs : list Filter) (q : Query) :
  order_created_desc (apply_if c fs q) = order_created_desc q /\
  limit (apply_if c fs q) = limit q.
Proof.
  unfold apply_if. destruct c; [| auto].
  revert q. induction fs as [|g fs IH]; intros q; cbn; [auto |].
  destruct (IH (and_filter q g)) as [-> ->]. auto.
Qed.

Lemma shape_budget_filters (budget : string) (q : Query) :
  order_created_desc (budget_filters budget q) = order_created_desc q /\
  limit (budget_filters budget q) = limit q.
Proof.
  unfold budget_filters.
  repeat match goal with
         | |- context [apply_if ?c ?fs ?q'] =>
             destruct (shape_apply_if c fs q') as [-> ->]
         end.
  auto.
Qed.

Lemma filter_none {A : Type} (f : A -> bool) (l : list A) :
  (forall x, f x = false) -> List.filter f l = [].
Proof.
  intros H. induction l as [|x l IH]; cbn; [reflexivity |]. now rewrite H.
Qed.

(** What [fetchMatches] does on a platform that answers its requests. *)
Lemma fetchMatches_healthy (f : Finder.Filters) (p : Finder.Page) :
  healthy (Finder.env p) ->
  outcome_of (Finder.fetchMatches f p) =
  Returned
    (firstn 3
       (List.filter
          (wanted (Finder.env p) (Finder.categoryId f) (Finder.f_county f)
             (Finder.f_budget f))
          (tbl_experiences (Finder.env p)))).
Proof.
  intros Hh.
  assert (Hext : forall ids,
    (forall e, match ids with
               | Some l => mem_string (experience_id e) l
               | None => true
               end = in_category (Finder.env p) (Finder.categoryId f) e) ->
    run_select (or_sem (Finder.env p)) (tbl_experiences (Finder.env p))
      (Finder.matches_query ids f)
    = firstn 3
       (List.filter
          (wanted (Finder.env p) (Finder.categoryId f) (Finder.f_county f)
             (Finder.f_budget f))
          (tbl_experiences (Finder.env p)))).
  { intros ids Hids. unfold run_select.
    replace (order_created_desc (Finder.matches_query ids f)) with false
      by (unfold Finder.matches_query; destruct ids;
          cbn [order_created_desc with_limit and_filter];
          destruct (shape_budget_filters (Finder.f_budget f)
                      (apply_if (Js.truthy (Finder.f_county f))
                         [EqCounty (Finder.f_county f)] approved_published))
            as [-> _];
          destruct (shape_apply_if (Js.truthy (Finder.f_county f))
                      [EqCounty (Finder.f_county f)] approved_published)
            as [-> _]; reflexivity).
    replace (limit (Finder.matches_query ids f)) with (Some 3%nat)
      by (unfold Finder.matches_query; destruct ids; reflexivity).
    cbn [take_limit]. f_equal. apply List.filter_ext. intros e.
    rewrite finder_query_meaning, Hids. reflexivity. }
  unfold Finder.fetchMatches, Finder.getExperienceIdsForCategory,
    Finder.run_matches_query, select_category_links, select_experiences, send,
    bind, ret, throw, outcome_of.
  destruct (Js.truthy (Finder.categoryId f)) eqn:Ec;
    cbn -[run_select Finder.matches_query uniq wanted firstn];
    rewrite ?Hh; cbn -[run_select Finder.matches_query uniq wanted firstn].
  - destruct (uniq _) as [|i ids] eqn:Eu;
      cbn -[run_select Finder.matches_query uniq wanted firstn].
    + f_equal. symmetry.
      replace (List.filter _ (tbl_experiences (Finder.env p))) with (@nil Experience);
        [reflexivity |].
      symmetry. apply filter_none. intros e.
      unfold wanted, in_category. rewrite Ec, <- linked_ids, <- mem_string_uniq, Eu.
      cbn. now rewrite andb_false_r.
    + rewrite <- Eu, Hh.
      cbn -[run_select Finder.matches_query uniq wanted firstn].
      f_equal. apply (Hext (Some _)). intros e.
      unfold in_category. now rewrite Ec, mem_string_uniq, linked_ids.
  - f_equal. apply (Hext None). intros e. unfold in_category. now rewrite Ec.
Qed.

Lemma fetchMatches_sound (f : Finder.Filters) (p : Finder.Page) (e : Experience) :
  In e (rows_of (Finder.fetchMatches f p)) ->
  In e (tbl_experiences (Finder.env p)) /\
  wanted (Finder.env p) (Finder.categoryId f) (Finder.f_county f)
    (Finder.f_budget f) e = true.
Proof.
  assert (Hsel : forall ids,
    (forall x, match ids with
               | Some l => mem_string (experience_id x) l
               | None => true
               end = in_category (Finder.env p) (Finder.categoryId f) x) ->
    In e (run_select (or_sem (Finder.env p)) (tbl_experiences (Finder.env p))
            (Finder.matches_query ids f)) ->
    In e (tbl_experiences (Finder.env p)) /\
    wanted (Finder.env p) (Finder.categoryId f) (Finder.f_county f)
      (Finder.f_budget f) e = true).
  { intros ids Hids Hin. apply run_select_sound in Hin as [Hin Hsat].
    split; [exact Hin |].
    rewrite finder_query_meaning, Hids in Hsat. exact Hsat. }
  unfold rows_of, outcome_of, Finder.fetchMatches,
    Finder.getExperienceIdsForCategory, Finder.run_matches_query,
    select_category_links, select_experiences, send, bind, ret, throw.
  destruct (Js.truthy (Finder.categoryId f)) eqn:Ec;
    cbn -[run_select Finder.matches_query uniq wanted].
  - destruct (fault _ _ _); cbn -[run_select Finder.matches_query uniq wanted];
      try contradiction.
    destruct (uniq _) as [|i ids] eqn:Eu;
      cbn -[run_select Finder.matches_query uniq wanted]; [contradiction |].
    destruct (fault _ _ _); cbn -[run_select Finder.matches_query uniq wanted];
      try contradiction.
    rewrite <- Eu. apply Hsel. intros x.
    unfold in_category. now rewrite Ec, mem_string_uniq, linked_ids.
  - destruct (fault _ _ _); cbn -[run_select Finder.matches_query uniq wanted];
      try contradiction.
    apply Hsel. intros x. unfold in_category. now rewrite Ec.
Qed.

Lemma fetchMatches_at_most_three (f : Finder.Filters) (p : Finder.Page) :
  (List.length (rows_of (Finder.fetchMatches f p)) <= 3)%nat.
Proof.
  assert (Hsel : forall ids s,
    (List.length (run_select s (tbl_experiences (Finder.env p))
                    (Finder.matches_query ids f)) <= 3)%nat).
  { intros ids s. unfold run_select.
    replace (limit (Finder.matches_query ids f)) with (Some 3%nat)
      by (unfold Finder.matches_query; destruct ids; reflexivity).
    cbn [take_limit]. rewrite List.length_firstn. lia. }
  unfold rows_of, outcome_of, Finder.fetchMatches,
    Finder.getExperienceIdsForCategory, Finder.run_matches_query,
    select_category_links, select_experiences, send, bind, ret, throw.
  destruct (Js.truthy (Finder.categoryId f));
    cbn -[run_select Finder.matches_query uniq].
  - destruct (fault _ _ _); cbn -[run_select Finder.matches_query uniq];
      try lia.
    destruct (uniq _) as [|i ids];
      cbn -[run_select Finder.matches_query uniq]; [lia |].
    destruct (fault _ _ _); cbn -[run_select Finder.matches_query uniq];
      try lia.
    apply Hsel.
  - destruct (fault _ _ _); cbn -[run_select Finder.matches_query uniq];
      try lia.
    apply Hsel.
Qed.

(** X1.  Whatever the tables hold and whichever requests fail, the finder
    hands its panel at most three rows, each a row of the experiences
    table that is listed, lies in the chosen county, is priced inside the
    chosen bucket and is linked to the chosen category. *)
Theorem finder_matches_meet_every_chosen_filter (f : Finder.Filters)
    (p : Finder.Page) :
  (List.length (rows_of (Finder.fetchMatches f p)) <= 3)%nat /\
  Forall (fun e =>
            In e (tbl_experiences (Finder.env p)) /\
            listed e = true /\
            in_county (Finder.f_county f) e = true /\
            price_fits (Finder.f_budget f) e = true /\
            in_category (Finder.env p) (Finder.categoryId f) e = true)
    (rows_of (Finder.fetchMatches f p)).
Proof.
  split; [apply fetchMatches_at_most_three |].
  apply List.Forall_forall. intros e He.
  apply fetchMatches_sound in He as [Hin Hw].
  unfold wanted in Hw. rewrite !andb_true_iff in Hw. tauto.
Qed.

Lemma refreshMatches_view (p : Finder.Page) (v : Finder.MatchesView) :
  Finder.matchesList p = Some v ->
  Finder.matchesList (state_after (Finder.refreshMatches p)) =
  Some (match outcome_of (Finder.fetchMatches
                            (Finder.buildFiltersFromState (Finder.state p))
                            (Finder.set_matches Finder.loading p)) with
        | Returned rows => matches_view rows
        | Threw _ => Finder.went_wrong
        end).
Proof.
  intros El.
  unfold Finder.refreshMatches, bind, gets, modify, try_catch, state_after,
    outcome_of.
  cbn -[Finder.fetchMatches Finder.buildFiltersFromState]. rewrite El.
  cbn -[Finder.fetchMatches Finder.buildFiltersFromState].
  match goal with |- context [Finder.fetchMatches ?f ?q] =>
    pose proof (fetchMatches_keeps_list f q) as Hk;
    unfold state_after in Hk;
    destruct (Finder.fetchMatches f q) as [[rows|m] p2]
  end; cbn in Hk.
  - destruct rows as [|e rows]; cbn; rewrite Hk; cbn; now rewrite El.
  - cbn. rewrite Hk. cbn. now rewrite El.
Qed.

Lemma finder_view_healthy (p : Finder.Page) (v : Finder.MatchesView) :
  healthy (Finder.env p) ->
  Finder.matchesList p = Some v ->
  Finder.matchesList (state_after (Finder.refreshMatches p)) =
  Some (matches_view
          (firstn 3
             (List.filter
                (wanted (Finder.env p)
                   (Finder.categoryId
                      (Finder.buildFiltersFromState (Finder.state p)))
                   (Finder.sel_county (Finder.state p))
                   (Finder.sel_budget (Finder.state p)))
                (tbl_experiences (Finder.env p))))).
Proof.
  intros Hh El. rewrite (refreshMatches_view p v El).
  rewrite fetchMatches_healthy by (cbn; destruct (Finder.matchesList p); exact Hh).
  reflexivity.
Qed.

(** X2.  On a platform that answers every request, a refresh of the finder
    panel shows exactly the first three rows of the experiences table that
    meet the visitor's choices, in table order, and the no-matches state
    when no row does. *)
Theorem finder_panel_shows_the_first_three_wanted (p : Finder.Page)
    (v : Finder.MatchesView) :
  healthy (Finder.env p) ->
  Finder.matchesList p = Some v ->
  Finder.matchesList (state_after (Finder.refreshMatches p)) =
  Some (matches_view
          (firstn 3
             (List.filter
                (wanted (Finder.env p)
                   (Finder.categoryId
                      (Finder.buildFiltersFromState (Finder.state p)))
                   (Finder.sel_county (Finder.state p))
                   (Finder.sel_budget (Finder.state p)))
                (tbl_experiences (Finder.env p))))).
Proof. apply finder_view_healthy. Qed.

(** ** The experiences page lists every wanted row *)

Lemma experiences_run_select (env : Env) (ids : option (list string))
    (f : Experiences.Filters) (cid : string) :
  (forall e, In e (tbl_experiences env) ->
     match ids with
     | Some l => mem_string (experience_id e) l
     | None => true
     end = in_category env cid e) ->
  run_select (or_sem env) (tbl_experiences env)
    (Experiences.experiences_query ids f)
  = List.filter
      (fun e => wanted env cid (Experiences.f_county f) (Experiences.f_budget f) e
                && searched env (Experiences.searchText f) e)
      (tbl_experiences env).
Proof.
  intros Hids. unfold run_select.
  assert (Hshape : order_created_desc (Experiences.experiences_query ids f) = false
                   /\ limit (Experiences.experiences_query ids f) = None).
  { unfold Experiences.experiences_query.
    assert (H : forall q,
      order_created_desc (if Js.truthy (Experiences.f_budget f)
                          then budget_filters (Experiences.f_budget f) q else q)
        = order_created_desc q /\
      limit (if Js.truthy (Experiences.f_budget f)
             then budget_filters (Experiences.f_budget f) q else q) = limit q).
    { intros q. destruct (Js.truthy _); [apply shape_budget_filters | auto]. }
    destruct ids; cbn [order_created_desc limit and_filter];
      rewrite (proj1 (H _)), (proj2 (H _));
      rewrite !(proj1 (shape_apply_if _ _ _)), !(proj2 (shape_apply_if _ _ _));
      auto. }
  destruct Hshape as [-> ->]. cbn [take_limit].
  induction (tbl_experiences env) as [|e rows IH]; cbn [List.filter];
    [reflexivity |].
  rewrite IH by (intros x Hx; apply Hids; now right).
  rewrite experiences_query_meaning, (Hids e) by now left.
  unfold wanted, searched.
  destruct (listed e), (in_county _ e), (price_fits _ e), (in_category _ _ e),
    (if Js.truthy (Experiences.searchText f) then _ else true); reflexivity.
Qed.

Lemma filter_none_in {A : Type} (f : A -> bool) (l : list A) :
  (forall x, In x l -> f x = false) -> List.filter f l = [].
Proof.
  intros H. induction l as [|x l IH]; cbn; [reflexivity |].
  rewrite H by now left. apply IH. intros y Hy. apply H. now right.
Qed.

Lemma found_nothing : Experiences.found_text 0 = "0 experiences found".
Proof. reflexivity. Qed.

(** What [loadExperiences] does on a platform that answers its requests. *)
Lemma loadExperiences_healthy (p : Experiences.Page) (m : string)
    (g : Experiences.GridView) :
  healthy (Experiences.env p) ->
  (Js.truthy (Experiences.categorySelect p) = true ->
   ids_present (Experiences.env p)) ->
  Experiences.resultsMeta p = Some m ->
  Experiences.experiencesGrid p = Some g ->
  let rows :=
    List.filter
      (fun e => wanted (Experiences.env p) (Experiences.categorySelect p)
                  (Experiences.countySelect p) (Experiences.budgetSelect p) e
                && searched (Experiences.env p) (Js.trim (Experiences.heroSearch p)) e)
      (tbl_experiences (Experiences.env p)) in
  Experiences.experiencesGrid (state_after (Experiences.loadExperiences p))
    = Some (grid_view rows) /\
  Experiences.resultsMeta (state_after (Experiences.loadExperiences p))
    = Some (Experiences.found_text (List.length rows)).
Proof.
  intros Hh Hids Em Eg rows.
  pose (f := Experiences.getFilters p).
  assert (Hcat : Js.truthy (Experiences.categorySelect p) = true ->
    forall e, In e (tbl_experiences (Experiences.env p)) ->
      mem_string (experience_id e)
        (List.filter Js.truthy
           (List.map link_experience_id
              (List.filter
                 (fun r => String.eqb (link_category_id r)
                             (Experiences.categorySelect p))
                 (tbl_experience_category (Experiences.env p)))))
      = in_category (Experiences.env p) (Experiences.categorySelect p) e).
  { intros Ec e He. unfold in_category. rewrite Ec, mem_string_truthy, linked_ids.
    specialize (Hids Ec). unfold ids_present in Hids.
    rewrite List.Forall_forall in Hids.
    specialize (Hids e He). unfold Js.truthy.
    destruct (String.eqb_spec (experience_id e) ""); [contradiction | reflexivity]. }
  unfold Experiences.loadExperiences, Experiences.getExperienceIdsForCategory,
    Experiences.query_and_render, Experiences.renderExperiences,
    select_category_links, select_experiences, send, bind, gets, modify, ret,
    throw, try_catch, state_after.
  cbn -[run_select Experiences.experiences_query Experiences.found_text].
  rewrite Em, Eg.
  cbn -[run_select Experiences.experiences_query Experiences.found_text].
  destruct (Js.truthy (Experiences.categorySelect p)) eqn:Ec;
    cbn -[run_select Experiences.experiences_query Experiences.found_text];
    rewrite ?Hh;
    cbn -[run_select Experiences.experiences_query Experiences.found_text].
  - destruct (List.filter Js.truthy _) as [|i ids] eqn:Ei;
      cbn -[run_select Experiences.experiences_query Experiences.found_text].
    + rewrite Em, Eg. cbn.
      assert (Hnone : rows = []).
      { subst rows. apply filter_none_in. intros e He.
        unfold wanted. rewrite <- (Hcat eq_refl e He). cbn.
        now rewrite andb_false_r. }
      now rewrite Hnone.
    + rewrite <- Ei in Hcat |- *. rewrite Hh.
      cbn -[run_select Experiences.experiences_query Experiences.found_text].
      change (Experiences.getFilters
                (Experiences.set_grid Experiences.grid_loading
                   (Experiences.set_meta "Loading experiences..." p))) with f.
      rewrite (experiences_run_select (Experiences.env p) (Some _) f
                 (Experiences.categorySelect p) (Hcat eq_refl)).
      unfold f.
      cbn [Experiences.getFilters Experiences.f_county Experiences.f_budget
           Experiences.searchText].
      fold rows. clearbody rows. destruct rows as [|e rows'];
        cbn -[Experiences.found_text]; rewrite Em, Eg; cbn -[Experiences.found_text];
        auto.
  - change (Experiences.getFilters
              (Experiences.set_grid Experiences.grid_loading
                 (Experiences.set_meta "Loading experiences..." p))) with f.
    rewrite (experiences_run_select (Experiences.env p) None f
               (Experiences.categorySelect p))
      by (intros e _; unfold in_category; now rewrite Ec).
    unfold f.
      cbn [Experiences.getFilters Experiences.f_county Experiences.f_budget
           Experiences.searchText].
      fold rows. clearbody rows. destruct rows as [|e rows'];
      cbn -[Experiences.found_text]; rewrite Em, Eg; cbn -[Experiences.found_text];
      auto.
Qed.

(** [trim] takes the blanks around a text away. *)
Lemma is_space_white (c : ascii) : Js.is_space c = white c.
Proof. destruct c as [[] [] [] [] [] [] [] []]; reflexivity. Qed.

Lemma trim_start_blank (lead s : string) :
  blank lead = true -> Js.trim_start (lead ++ s) = Js.trim_start s.
Proof.
  induction lead as [|c lead IH]; [reflexivity |].
  unfold blank. cbn [list_ascii_of_string forallb].
  intros H. apply andb_true_iff in H as [Hc Hl].
  rewrite append_cons. cbn [Js.trim_start].
  rewrite is_space_white, Hc. now apply IH.
Qed.

Lemma trim_start_all_blank (s : string) :
  blank s = true -> Js.trim_start s = "".
Proof.
  induction s as [|c s IH]; [reflexivity |].
  unfold blank. cbn [list_ascii_of_string forallb].
  intros H. apply andb_true_iff in H as [Hc Hs].
  cbn [Js.trim_start]. rewrite is_space_white, Hc. now apply IH.
Qed.

Lemma trim_start_solid (c : ascii) (s : string) :
  solid c = true -> Js.trim_start (String c s) = String c s.
Proof.
  unfold solid. intros H. apply andb_true_iff in H as [_ H].
  apply negb_true_iff in H. cbn [Js.trim_start].
  now rewrite is_space_white, H.
Qed.

Lemma rev_string_app (acc a b : string) :
  Js.rev_string acc (a ++ b) = Js.rev_string (Js.rev_string acc a) b.
Proof.
  revert acc. induction a as [|c a IH]; intros acc; [reflexivity |].
  rewrite append_cons. cbn [Js.rev_string]. apply IH.
Qed.

Lemma rev_string_acc (acc s : string) :
  Js.rev_string acc s = (Js.rev_string "" s ++ acc)%string.
Proof.
  revert acc. induction s as [|c s IH]; intros acc; [reflexivity |].
  cbn [Js.rev_string]. rewrite (IH (String c acc)), (IH (String c "")).
  now rewrite append_assoc_s.
Qed.

Lemma rev_string_involutive (s : string) :
  Js.rev_string "" (Js.rev_string "" s) = s.
Proof.
  induction s as [|c s IH]; [reflexivity |].
  cbn [Js.rev_string].
  rewrite (rev_string_acc (String c "") s), rev_string_app, IH.
  reflexivity.
Qed.

Lemma blank_rev_string (acc s : string) :
  blank acc = true -> blank s = true -> blank (Js.rev_string acc s) = true.
Proof.
  revert acc. induction s as [|c s IH]; intros acc Ha Hs; [exact Ha |].
  unfold blank in Hs. cbn [list_ascii_of_string forallb] in Hs.
  apply andb_true_iff in Hs as [Hc Hs].
  cbn [Js.rev_string]. apply IH; [| exact Hs].
  unfold blank. cbn [list_ascii_of_string forallb]. now rewrite Hc.
Qed.

Lemma trim_takes_the_blanks_away (lead q trail : string) :
  blank lead = true -> blank trail = true -> trimmed q ->
  Js.trim (lead ++ q ++ trail) = q.
Proof.
  intros Hlead Htrail Hq. unfold Js.trim.
  rewrite trim_start_blank by exact Hlead.
  destruct Hq as [-> | [(c & rest & -> & Hc) (front & c' & Hend & Hc')]].
  - rewrite append_nil_left, (trim_start_all_blank trail Htrail).
    reflexivity.
  - rewrite append_cons, trim_start_solid by exact Hc.
    rewrite <- append_cons, rev_string_app.
    rewrite (rev_string_acc (Js.rev_string "" (String c rest)) trail).
    rewrite trim_start_blank by now apply blank_rev_string.
    replace (Js.trim_start (Js.rev_string "" (String c rest)))
      with (Js.rev_string "" (String c rest)).
    + apply rev_string_involutive.
    + rewrite Hend, rev_string_app. cbn [Js.rev_string].
      now rewrite trim_start_solid.
Qed.

(** X3.  On a platform that answers every request, the experiences page
    lists the rows of the experiences table that meet the chosen category,
    county and budget and, when the search box holds a text between
    blanks, the search for that text: each such row once and in table
    order, the empty state when there is none; and the results line gives
    their number.  The search text begins and ends with an ASCII character
    that is not white space, and the blanks around it are ASCII white
    space. *)
Theorem experiences_page_lists_every_wanted_row (p : Experiences.Page)
    (m : string) (g : Experiences.GridView) (lead q trail : string) :
  healthy (Experiences.env p) ->
  ids_present (Experiences.env p) ->
  Experiences.resultsMeta p = Some m ->
  Experiences.experiencesGrid p = Some g ->
  Experiences.heroSearch p = (lead ++ q ++ trail)%string ->
  blank lead = true -> blank trail = true -> trimmed q ->
  let rows :=
    List.filter
      (fun e => wanted (Experiences.env p) (Experiences.categorySelect p)
                  (Experiences.countySelect p) (Experiences.budgetSelect p) e
                && searched (Experiences.env p) q e)
      (tbl_experiences (Experiences.env p)) in
  let after := state_after (Experiences.loadExperiences p) in
  experiences_shown after = List.map experience_id rows /\
  (rows = [] ->
   Experiences.experiencesGrid after = Some Experiences.grid_no_results) /\
  Experiences.resultsMeta after
    = Some (Js.String_ (Z.of_nat (List.length rows)) ++ " experiences found")%string.
Proof.
  intros Hh Hids Em Eg Hsearch Hlead Htrail Hq rows after.
  destruct (loadExperiences_healthy p m g Hh (fun _ => Hids) Em Eg) as [Hgrid Hmeta].
  rewrite Hsearch, (trim_takes_the_blanks_away lead q trail Hlead Htrail Hq)
    in Hgrid, Hmeta.
  fold rows in Hgrid, Hmeta. fold after in Hgrid, Hmeta.
  clearbody rows after.
  split; [| split].
  - unfold experiences_shown. rewrite Hgrid.
    destruct rows as [|e rows]; [reflexivity |].
    cbn [grid_view]. rewrite List.map_map. reflexivity.
  - intros ->. exact Hgrid.
  - exact Hmeta.
Qed.

Lemma wanted_same_links (e1 e2 : Env) (cid c b : string) (x : Experience) :
  tbl_experience_category e1 = tbl_experience_category e2 ->
  wanted e1 cid c b x = wanted e2 cid c b x.
Proof. intros H. unfold wanted, in_category, linked. now rewrite H. Qed.

(** X4.  On a platform that answers every request, the finder panel and
    the experiences page opened with the same category, county and budget
    and no search text agree: the panel shows cards of the page's list,
    three of them when the list has three or more and all of them
    otherwise. *)
Theorem finder_panel_agrees_with_the_experiences_page (pf : Finder.Page)
    (pe : Experiences.Page) (v : Finder.MatchesView) (m : string)
    (g : Experiences.GridView) :
  healthy (Finder.env pf) ->
  healthy (Experiences.env pe) ->
  ids_present (Experiences.env pe) ->
  tbl_experiences (Finder.env pf) = tbl_experiences (Experiences.env pe) ->
  tbl_experience_category (Finder.env pf)
    = tbl_experience_category (Experiences.env pe) ->
  Finder.matchesList pf = Some v ->
  Experiences.resultsMeta pe = Some m ->
  Experiences.experiencesGrid pe = Some g ->
  Experiences.categorySelect pe
    = Finder.categoryId (Finder.buildFiltersFromState (Finder.state pf)) ->
  Experiences.countySelect pe = Finder.sel_county (Finder.state pf) ->
  Experiences.budgetSelect pe = Finder.sel_budget (Finder.state pf) ->
  Js.trim (Experiences.heroSearch pe) = "" ->
  incl (finder_shown (state_after (Finder.refreshMatches pf)))
       (experiences_shown (state_after (Experiences.loadExperiences pe))) /\
  List.length (finder_shown (state_after (Finder.refreshMatches pf)))
  = Nat.min 3
      (List.length (experiences_shown (state_after (Experiences.loadExperiences pe)))).
Proof.
  intros Hf He Hids Ht Hl Ev Em Eg Ecat Ecounty Ebudget Esearch.
  destruct (loadExperiences_healthy pe m g He (fun _ => Hids) Em Eg) as [Hgrid _].
  pose proof (refreshMatches_view pf v Ev) as Hpanel.
  rewrite fetchMatches_healthy in Hpanel
    by (cbn; destruct (Finder.matchesList pf); exact Hf).
  cbn [Finder.env Finder.set_matches Finder.buildFiltersFromState
       Finder.f_county Finder.f_budget] in Hpanel.
  rewrite Esearch, Ecat, Ecounty, Ebudget in Hgrid.
  rewrite <- Ht in Hgrid.
  rewrite (List.filter_ext _
             (wanted (Finder.env pf)
                (Finder.categoryId (Finder.buildFiltersFromState (Finder.state pf)))
                (Finder.sel_county (Finder.state pf))
                (Finder.sel_budget (Finder.state pf)))) in Hgrid
    by (intros x; unfold searched; cbn;
        rewrite andb_true_r; symmetry; now apply wanted_same_links).
  unfold finder_shown, experiences_shown. rewrite Hpanel, Hgrid.
  set (rows := List.filter _ _). clearbody rows.
  assert (Hfs : match matches_view (firstn 3 rows) with
                | Finder.match_cards cs => List.map Finder.card_view_id cs
                | _ => []
                end = firstn 3 (List.map experience_id rows)).
  { rewrite List.firstn_map. destruct rows as [|a rows]; [reflexivity |].
    cbn [firstn matches_view]. rewrite List.map_map. reflexivity. }
  assert (Hes : match grid_view rows with
                | Experiences.grid_cards cs => List.map Experiences.card_data_id cs
                | _ => []
                end = List.map experience_id rows).
  { destruct rows as [|a rows]; [reflexivity |].
    cbn [grid_view]. rewrite List.map_map. reflexivity. }
  rewrite Hfs, Hes. split.
  - intros x Hx. eapply In_take_limit with (lim := Some 3%nat). exact Hx.
  - apply List.length_firstn.
Qed.

(** ** A failed request shows the error state *)

Lemma sent_after_one (l : list Request) (r : Request) :
  nth_error (l ++ [r]) (List.length l + 0) = Some r.
Proof. rewrite nth_error_app2 by lia. now replace (List.length l + 0 - List.length l)%nat with 0%nat by lia. Qed.

Lemma sent_after_two (l : list Request) (r1 r2 : Request) :
  nth_error ((l ++ [r1]) ++ [r2]) (List.length l + 1) = Some r2.
Proof.
  rewrite <- app_assoc. rewrite nth_error_app2 by lia.
  now replace (List.length l + 1 - List.length l)%nat with 1%nat by lia.
Qed.

Lemma sent_tail (l rs : list Request) (n : nat) (r : Request) :
  (List.length l <= n)%nat -> nth_error (l ++ rs) n = Some r ->
  exists k, n = (List.length l + k)%nat /\ nth_error rs k = Some r.
Proof.
  intros Hn H. rewrite nth_error_app2 in H by exact Hn.
  exists (n - List.length l)%nat. split; [lia | exact H].
Qed.

(** Settles [shown = error state <-> failed_since ...] once the run is
    unfolded to a concrete outcome and the faults met are named. *)
Ltac settle_failure :=
  repeat match goal with
         | H : context [List.length (_ ++ [_])] |- _ =>
             rewrite List.length_app in H; cbn [List.length] in H
         | H : fault _ (List.length ?l) _ = _ |- _ =>
             rewrite <- (Nat.add_0_r (List.length l)) in H
         end;
  first
    [ split;
      [ intros _;
        first
          [ eexists _, _; split; [| split; [apply sent_after_one |]];
            [lia | congruence]
          | eexists _, _; split; [| split; [apply sent_after_two |]];
            [lia | congruence] ]
      | intros _; reflexivity ]
    | split;
      [ discriminate
      | intros (n & r & Hn & Hnth & Hf); exfalso; apply Hf;
        rewrite <- ?app_assoc in Hnth;
        apply sent_tail in Hnth as (k & -> & Hk); [| exact Hn];
        destruct k as [|[|k]]; cbn in Hk; inversion Hk; subst;
        try assumption; destruct k; discriminate ] ].

Lemma refreshMatches_failure (p : Finder.Page) (v : Finder.MatchesView) :
  Finder.matchesList p = Some v ->
  Finder.matchesList (state_after (Finder.refreshMatches p))
    = Some Finder.went_wrong
  <-> failed_since (Finder.env p)
        (Finder.env (state_after (Finder.refreshMatches p))).
Proof.
  intros El.
  unfold failed_since, Finder.refreshMatches, Finder.fetchMatches,
    Finder.getExperienceIdsForCategory, Finder.run_matches_query,
    select_category_links, select_experiences, send, bind, gets, modify, ret,
    throw, try_catch, state_after.
  cbn -[run_select Finder.matches_query uniq Finder.buildFiltersFromState].
  rewrite El.
  cbn -[run_select Finder.matches_query uniq Finder.buildFiltersFromState].
  destruct (Js.truthy _);
    cbn -[run_select Finder.matches_query uniq Finder.buildFiltersFromState];
    repeat (match goal with
            | |- context [fault ?e ?n ?r] => destruct (fault e n r) eqn:?
            | |- context [match uniq ?l with _ => _ end] => destruct (uniq l)
            | |- context [match run_select ?a ?b ?c with _ => _ end] =>
                destruct (run_select a b c)
            end;
            cbn -[run_select Finder.matches_query uniq
                  Finder.buildFiltersFromState];
            rewrite ?El;
            cbn -[run_select Finder.matches_query uniq
                  Finder.buildFiltersFromState]);
    settle_failure.
Qed.

Lemma loadExperiences_failure (p : Experiences.Page) (m : string)
    (g : Experiences.GridView) :
  Experiences.resultsMeta p = Some m ->
  Experiences.experiencesGrid p = Some g ->
  (Experiences.experiencesGrid (state_after (Experiences.loadExperiences p))
     = Some Experiences.grid_went_wrong
   <-> failed_since (Experiences.env p)
         (Experiences.env (state_after (Experiences.loadExperiences p)))) /\
  (Experiences.experiencesGrid (state_after (Experiences.loadExperiences p))
     = Some Experiences.grid_went_wrong ->
   Experiences.resultsMeta (state_after (Experiences.loadExperiences p))
     = Some "Error loading experiences").
Proof.
  intros Em Eg.
  unfold failed_since, Experiences.loadExperiences,
    Experiences.getExperienceIdsForCategory, Experiences.query_and_render,
    Experiences.renderExperiences, select_category_links, select_experiences,
    send, bind, gets, modify, ret, throw, try_catch, state_after.
  cbn -[run_select Experiences.experiences_query Experiences.found_text
        Experiences.getFilters].
  rewrite Em, Eg.
  cbn -[run_select Experiences.experiences_query Experiences.found_text
        Experiences.getFilters].
  destruct (Js.truthy _);
    cbn -[run_select Experiences.experiences_query Experiences.found_text
          Experiences.getFilters];
    repeat (match goal with
            | |- context [fault ?e ?n ?r] => destruct (fault e n r) eqn:?
            | |- context [match List.filter Js.truthy ?l with _ => _ end] =>
                destruct (List.filter Js.truthy l)
            | |- context [match run_select ?a ?b ?c with _ => _ end] =>
                destruct (run_select a b c)
            end;
            cbn -[run_select Experiences.experiences_query
                  Experiences.found_text Experiences.getFilters];
            rewrite ?Em, ?Eg;
            cbn -[run_select Experiences.experiences_query
                  Experiences.found_text Experiences.getFilters]);
    (split; [settle_failure | first [reflexivity | discriminate]]).
Qed.

(** X5.  A refresh of the finder panel, and a load of the experiences
    page, end in the error state exactly when the platform failed one of
    the requests they sent (it rejected, or answered with an error
    object); neither ever raises, and the experiences page then reads
    "Error loading experiences". *)
Theorem a_failed_request_shows_the_error_state :
  (forall (p : Finder.Page) (v : Finder.MatchesView),
     Finder.matchesList p = Some v ->
     outcome_of (Finder.refreshMatches p) = Returned tt /\
     (Finder.matchesList (state_after (Finder.refreshMatches p))
        = Some Finder.went_wrong
      <-> failed_since (Finder.env p)
            (Finder.env (state_after (Finder.refreshMatches p))))) /\
  (forall (p : Experiences.Page) (m : string) (g : Experiences.GridView),
     Experiences.resultsMeta p = Some m ->
     Experiences.experiencesGrid p = Some g ->
     outcome_of (Experiences.loadExperiences p) = Returned tt /\
     (Experiences.experiencesGrid (state_after (Experiences.loadExperiences p))
        = Some Experiences.grid_went_wrong
      <-> failed_since (Experiences.env p)
            (Experiences.env (state_after (Experiences.loadExperiences p)))) /\
     (Experiences.experiencesGrid (state_after (Experiences.loadExperiences p))
        = Some Experiences.grid_went_wrong ->
      Experiences.resultsMeta (state_after (Experiences.loadExperiences p))
        = Some "Error loading experiences")).
Proof.
  split.
  - intros p v El. split; [apply refreshMatches_returns |].
    now apply (refreshMatches_failure p v).
  - intros p m g Em Eg. split; [apply loadExperiences_returns |].
    now apply (loadExperiences_failure p m g).
Qed.

(** ** Escaping is a faithful encoding *)

Lemma replaceAll_app (c : ascii) (by_ a b : string) :
  Js.replaceAll c by_ (a ++ b)
  = (Js.replaceAll c by_ a ++ Js.replaceAll c by_ b)%string.
Proof.
  induction a as [|x a IH]; [reflexivity |].
  rewrite append_cons. cbn [Js.replaceAll].
  destruct (Ascii.eqb x c); rewrite IH.
  - now rewrite append_assoc_s.
  - now rewrite append_cons.
Qed.

Lemma escapeHtml_app (a b : string) :
  escapeHtml (a ++ b) = (escapeHtml a ++ escapeHtml b)%string.
Proof. unfold escapeHtml. now rewrite !replaceAll_app. Qed.

Lemma escapeHtml_cons (c : ascii) (s : string) :
  escapeHtml (String c s) = (escapeHtml (String c "") ++ escapeHtml s)%string.
Proof. now rewrite <- escapeHtml_app. Qed.

(** What one character becomes. *)
Lemma escapeHtml_char (c : ascii) :
  (c = "&"%char /\ escapeHtml (String c "") = "&amp;") \/
  (c = "<"%char /\ escapeHtml (String c "") = "&lt;") \/
  (c = ">"%char /\ escapeHtml (String c "") = "&gt;") \/
  (c = Js.dquote /\ escapeHtml (String c "") = "&quot;") \/
  (c = "'"%char /\ escapeHtml (String c "") = "&#039;") \/
  (special c = false /\ escapeHtml (String c "") = String c "").
Proof.
  destruct (Ascii.eqb_spec c "&") as [->|H1]; [left; split; reflexivity |].
  destruct (Ascii.eqb_spec c "<") as [->|H2]; [right; left; split; reflexivity |].
  destruct (Ascii.eqb_spec c ">") as [->|H3];
    [right; right; left; split; reflexivity |].
  destruct (Ascii.eqb_spec c Js.dquote) as [->|H4];
    [right; right; right; left; split; reflexivity |].
  destruct (Ascii.eqb_spec c "'") as [->|H5];
    [right; right; right; right; left; split; reflexivity |].
  right; right; right; right; right.
  apply Ascii.eqb_neq in H1, H2, H3, H4, H5.
  split.
  - unfold special. now rewrite H1, H2, H3, H4, H5.
  - unfold escapeHtml. cbn. rewrite H1. cbn. rewrite H2. cbn. rewrite H3. cbn.
    rewrite H4. cbn. now rewrite H5.
Qed.

Lemma length_app_s (a b : string) :
  String.length (a ++ b) = (String.length a + String.length b)%nat.
Proof.
  induction a as [|x a IH]; [reflexivity |].
  rewrite append_cons. cbn. now rewrite IH.
Qed.

Lemma escapeHtml_grows (s : string) :
  (String.length s <= String.length (escapeHtml s))%nat.
Proof.
  induction s as [|c s IH]; [cbn; lia |].
  rewrite escapeHtml_cons, length_app_s.
  destruct (escapeHtml_char c)
    as [[_ E]|[[_ E]|[[_ E]|[[_ E]|[[_ E]|[_ E]]]]]]; rewrite E; cbn; lia.
Qed.

Lemma clean_cons (c : ascii) (s : string) :
  clean (String c s) = negb (special c) && clean s.
Proof.
  unfold clean, special. cbn [Js.includes].
  destruct (Ascii.eqb c "&"), (Ascii.eqb c "<"), (Ascii.eqb c ">"),
    (Ascii.eqb c Js.dquote), (Ascii.eqb c "'"),
    (Js.includes "&" s), (Js.includes "<" s), (Js.includes ">" s),
    (Js.includes Js.dquote s), (Js.includes "'" s); reflexivity.
Qed.

Lemma escapeHtml_fixes_clean (s : string) :
  escapeHtml s = s <-> clean s = true.
Proof.
  induction s as [|c s IH]; [split; reflexivity |].
  rewrite escapeHtml_cons, clean_cons.
  pose proof (escapeHtml_grows s) as Hlen.
  destruct (escapeHtml_char c)
    as [[-> E]|[[-> E]|[[-> E]|[[-> E]|[[-> E]|[Hs E]]]]]]; rewrite E;
    rewrite ?append_cons, ?append_nil_left.
  1-5: split; [| discriminate]; intros H; exfalso;
       apply (f_equal String.length) in H; cbn in H;
       rewrite ?length_app_s in H; cbn in H; lia.
  rewrite Hs. cbn. rewrite <- IH. split; [now intros [= ->] | now intros ->].
Qed.

Lemma escapeHtml_inj (s t : string) : escapeHtml s = escapeHtml t -> s = t.
Proof.
  revert t. induction s as [|a s IH]; intros [|b t] H.
  - reflexivity.
  - exfalso. rewrite escapeHtml_cons in H.
    destruct (escapeHtml_char b)
      as [[_ E]|[[_ E]|[[_ E]|[[_ E]|[[_ E]|[_ E]]]]]]; rewrite E in H;
      rewrite ?append_cons in H; discriminate.
  - exfalso. rewrite escapeHtml_cons in H.
    destruct (escapeHtml_char a)
      as [[_ E]|[[_ E]|[[_ E]|[[_ E]|[[_ E]|[_ E]]]]]]; rewrite E in H;
      rewrite ?append_cons in H; discriminate.
  - rewrite (escapeHtml_cons a), (escapeHtml_cons b) in H.
    destruct (escapeHtml_char a)
      as [[-> Ea]|[[-> Ea]|[[-> Ea]|[[-> Ea]|[[-> Ea]|[Ha Ea]]]]]];
    destruct (escapeHtml_char b)
      as [[-> Eb]|[[-> Eb]|[[-> Eb]|[[-> Eb]|[[-> Eb]|[Hb Eb]]]]]];
    rewrite ?Ea, ?Eb in H; rewrite ?append_cons, ?append_nil_left in H;
    try discriminate H;
    try (injection H as H; f_equal; now apply IH);
    try (injection H as Hc H; subst; first [discriminate Ha | discriminate Hb]).
    injection H as -> H. f_equal. now apply IH.
Qed.

(** X6.  [escapeHtml] is a faithful, character-by-character encoding: its
    result holds none of the four markup characters, text with none of
    the five rewritten characters comes back unchanged and no other text
    does, escaping a concatenation is concatenating the escapes, and two
    different texts never escape to the same text. *)
Theorem escapeHtml_is_a_faithful_encoding :
  (forall s,
     Js.includes "<" (escapeHtml s) = false /\
     Js.includes ">" (escapeHtml s) = false /\
     Js.includes Js.dquote (escapeHtml s) = false /\
     Js.includes "'" (escapeHtml s) = false) /\
  (forall s, escapeHtml s = s <-> clean s = true) /\
  (forall a b, escapeHtml (a ++ b) = (escapeHtml a ++ escapeHtml b)%string) /\
  (forall s t, escapeHtml s = escapeHtml t -> s = t).
Proof.
  split; [apply escapeHtml_has_no_markup_character |].
  split; [apply escapeHtml_fixes_clean |].
  split; [apply escapeHtml_app | apply escapeHtml_inj].
Qed.

(** X7.  The text fields of a finder card and of an experiences card
    (title, county, business name, description) hold no markup character,
    whatever the row holds. *)
Theorem card_text_holds_no_markup (exp : Experience) (c : ascii) :
  In c ["<"; ">"; Js.dquote; "'"]%char ->
  Js.includes c (Finder.card_title (Finder.renderMatchCard exp)) = false /\
  Js.includes c (Finder.card_county (Finder.renderMatchCard exp)) = false /\
  Js.includes c (Finder.card_businessName (Finder.renderMatchCard exp)) = false /\
  Js.includes c (Experiences.card_title (Experiences.renderCard exp)) = false /\
  Js.includes c (Experiences.card_county (Experiences.renderCard exp)) = false /\
  Js.includes c (Experiences.card_desc (Experiences.renderCard exp)) = false /\
  Js.includes c (Experiences.card_businessName (Experiences.renderCard exp)) = false.
Proof.
  intros Hc.
  assert (H : forall s, Js.includes c (escapeHtml s) = false).
  { intros s. destruct (escapeHtml_has_no_markup_character s) as (H1 & H2 & H3 & H4).
    cbn in Hc. destruct Hc as [<-|[<-|[<-|[<-|[]]]]]; assumption. }
  cbn [Finder.renderMatchCard Experiences.renderCard Finder.card_title
       Finder.card_county Finder.card_businessName Experiences.card_title
       Experiences.card_county Experiences.card_desc Experiences.card_businessName].
  repeat split; apply H.
Qed.

(** ** One navigation variant at a time *)

Lemma nav_shown_cases (n : Nav) :
  complete n ->
  variants_shown (show_guest_nav n) = [guest_nav] /\
  variants_shown (show_guest_nav (show_guest_nav n)) = [guest_nav] /\
  variants_shown (show_user_nav (show_guest_nav n)) = [user_nav] /\
  forall r, variants_shown (nav_for_role r (show_guest_nav n))
            = [if String.eqb r "business" then business_nav else user_nav].
Proof.
  intros (Hg & Hu & Hb).
  destruct n as [[g|] [u|] [b|]]; cbn in Hg, Hu, Hb; try congruence.
  split; [reflexivity | split; [reflexivity | split; [reflexivity |]]].
  intros r. unfold nav_for_role.
  destruct (String.eqb r "business"); reflexivity.
Qed.

Lemma role_business (uid : string) (e e' : Env) (r : Resp UserRow) :
  tbl_users e' = tbl_users e ->
  data r = data (role_answer uid e') ->
  String.eqb (role_or_user r) "business" = true ->
  business_user e uid.
Proof.
  unfold role_or_user, role_answer. intros -> ->.
  destruct (List.filter _ (tbl_users e)) as [|row [|row' rest]] eqn:Ef; cbn;
    try discriminate.
  intros H.
  assert (Hin : In row (List.filter (fun r => String.eqb (user_id r) uid)
                          (tbl_users e))) by (rewrite Ef; now left).
  apply List.filter_In in Hin as [Hin Huid]. apply String.eqb_eq in Huid.
  exists row. split; [exact Hin | split; [exact Huid |]].
  unfold Js.or_else in H. destruct (Js.truthy (role row)); [| discriminate].
  now apply String.eqb_eq.
Qed.

(** X8.  When the three nav containers are in the document, the finder
    and the detail page always end with exactly one variant shown, and so
    does the experiences page unless its session request rejects; the
    business variant is shown only to a signed-in user whose row in the
    users table gives the business role. *)
Theorem exactly_one_nav_variant_is_shown :
  (forall p : Finder.Page,
     complete (Finder.nav p) ->
     exists v,
       variants_shown (Finder.nav (state_after (Finder.updateNavForAuthState p)))
         = [v] /\
       (v = business_nav ->
        exists uid, session (Finder.env p) = Some uid /\
                    business_user (Finder.env p) uid)) /\
  (forall p : Experiences.Page,
     complete (Experiences.nav p) ->
     (forall m, fault (Experiences.env p)
                  (List.length (sent (Experiences.env p))) AuthGetUser
                <> rejects m) ->
     exists v,
       variants_shown
         (Experiences.nav (state_after (Experiences.updateNavForAuthState p)))
         = [v] /\
       (v = business_nav ->
        exists uid, session (Experiences.env p) = Some uid /\
                    business_user (Experiences.env p) uid)) /\
  (forall (p : Detail.Page) (user : option string),
     complete (Detail.nav (Detail.dom p)) ->
     exists v,
       variants_shown
         (Detail.nav (Detail.dom (state_after (Detail.setNavState user p))))
         = [v] /\
       (v = business_nav ->
        exists uid, user = Some uid /\ business_user (Detail.env p) uid)).
Proof.
  split; [| split].
  - intros p Hc. destruct (nav_shown_cases (Finder.nav p) Hc) as (Hg & Hgg & Hu & Hr).
    unfold Finder.updateNavForAuthState, auth_getUser, select_role, send, bind,
      modify, ret, try_catch, state_after.
    cbn -[variants_shown show_guest_nav nav_for_role role_or_user role_answer].
    destruct (fault (Finder.env p) _ AuthGetUser);
      cbn -[variants_shown show_guest_nav nav_for_role role_or_user role_answer];
      try (exists guest_nav; split; [assumption | discriminate]).
    destruct (session (Finder.env p)) as [uid|] eqn:Es;
      cbn -[variants_shown show_guest_nav nav_for_role role_or_user role_answer];
      try (exists guest_nav; split; [assumption | discriminate]).
    destruct (fault (Finder.env p) _ (SelectRole uid));
      cbn -[variants_shown show_guest_nav nav_for_role role_or_user role_answer];
      try (exists guest_nav; split; [assumption | discriminate]).
    + rewrite Hr. eexists. split; [reflexivity |].
      destruct (String.eqb _ "business") eqn:Eb; [| discriminate].
      intros _. exists uid. split; [reflexivity |].
      eapply (role_business uid (Finder.env p)); [| reflexivity | exact Eb].
      reflexivity.
    + rewrite Hr. cbn. exists user_nav. split; [reflexivity | discriminate].
  - intros p Hc Hnr.
    destruct (nav_shown_cases (Experiences.nav p) Hc) as (Hg & Hgg & Hu & Hr).
    unfold Experiences.updateNavForAuthState, auth_getUser, select_role, send,
      bind, modify, ret, state_after.
    cbn -[variants_shown show_guest_nav nav_for_role role_or_user role_answer].
    destruct (fault (Experiences.env p) _ AuthGetUser) eqn:Ef;
      cbn -[variants_shown show_guest_nav nav_for_role role_or_user role_answer];
      try (exists guest_nav; split; [assumption | discriminate]);
      [| exfalso; eapply Hnr; reflexivity].
    destruct (session (Experiences.env p)) as [uid|] eqn:Es;
      cbn -[variants_shown show_guest_nav nav_for_role role_or_user role_answer];
      try (exists guest_nav; split; [assumption | discriminate]).
    destruct (fault (Experiences.env p) _ (SelectRole uid));
      cbn -[variants_shown show_guest_nav nav_for_role role_or_user role_answer];
      try (exists guest_nav; split; [assumption | discriminate]).
    + rewrite Hr. eexists. split; [reflexivity |].
      destruct (String.eqb _ "business") eqn:Eb; [| discriminate].
      intros _. exists uid. split; [reflexivity |].
      eapply (role_business uid (Experiences.env p)); [| reflexivity | exact Eb].
      reflexivity.
    + rewrite Hr. cbn. exists user_nav. split; [reflexivity | discriminate].
  - intros p user Hc.
    destruct (nav_shown_cases (Detail.nav (Detail.dom p)) Hc) as (Hg & Hgg & Hu & Hr).
    unfold Detail.setNavState, select_role, send, bind, modify, ret, try_catch,
      state_after.
    destruct user as [uid|];
      cbn -[variants_shown show_guest_nav show_user_nav nav_for_role
            role_or_user role_answer];
      try (exists guest_nav; split; [assumption | discriminate]).
    destruct (fault (Detail.env p) _ (SelectRole uid));
      cbn -[variants_shown show_guest_nav show_user_nav nav_for_role
            role_or_user role_answer];
      try (exists user_nav; split; [assumption | discriminate]).
    + rewrite Hr. eexists. split; [reflexivity |].
      destruct (String.eqb _ "business") eqn:Eb; [| discriminate].
      intros _. exists uid. split; [reflexivity |].
      eapply (role_business uid (Detail.env p)); [| reflexivity | exact Eb].
      reflexivity.
    + rewrite Hr. cbn. exists user_nav. split; [reflexivity | discriminate].
Qed.

(** ** The detail page *)

Lemma detail_query_meaning (sem : string -> Experience -> bool) (id : string)
    (e : Experience) :
  satisfies sem (Detail.detail_query id) e = loadable id e.
Proof.
  unfold satisfies, loadable. cbn. rewrite andb_true_r, andb_assoc.
  now destruct (is_published e).
Qed.

Lemma detail_run_select (sem : string -> Experience -> bool)
    (table : list Experience) (id : string) :
  run_select sem table (Detail.detail_query id) = List.filter (loadable id) table.
Proof.
  unfold run_select. cbn [order_created_desc limit Detail.detail_query and_filter
                          base_query take_limit].
  apply List.filter_ext. intros e. apply detail_query_meaning.
Qed.

Lemma loadFavoriteState_dom (id : string) (p : Detail.Page) :
  outcome_of (Detail.loadFavoriteState id p) = Returned tt /\
  Detail.dom (state_after (Detail.loadFavoriteState id p)) = Detail.dom p /\
  Detail.authUser (Detail.vars (state_after (Detail.loadFavoriteState id p)))
    = Detail.authUser (Detail.vars p).
Proof.
  unfold Detail.loadFavoriteState, select_favorite_one, send, bind, gets, modify,
    throw, try_catch, outcome_of, state_after.
  cbn. destruct (Detail.authUser (Detail.vars p)) as [uid|] eqn:Eu; cbn;
    [| now rewrite Eu].
  destruct (fault _ _ _); cbn; rewrite ?Eu; auto.
  destruct (maybeSingle _) as [d [m|]]; cbn; rewrite ?Eu; auto.
Qed.

Lemma load_outcome (id : string) (p : Detail.Page) (b : option string) :
  Detail.detailError (Detail.dom p) = Some b ->
  outcome_of (Detail.loadAndRenderExperience id p) = Returned tt /\
  match fault (Detail.env p) (List.length (sent (Detail.env p)))
          (SelectExperienceSingle (Detail.detail_query id)) with
  | rejects _ =>
      Detail.detailError
        (Detail.dom (state_after (Detail.loadAndRenderExperience id p)))
        = Some (Some "Something went wrong.") /\
      Detail.mainImage
        (Detail.dom (state_after (Detail.loadAndRenderExperience id p)))
        = Detail.mainImage (Detail.dom p)
  | error_result _ =>
      Detail.detailError
        (Detail.dom (state_after (Detail.loadAndRenderExperience id p)))
        = Some (Some "Could not load this experience.") /\
      Detail.mainImage
        (Detail.dom (state_after (Detail.loadAndRenderExperience id p)))
        = Detail.mainImage (Detail.dom p)
  | no_fault =>
      match List.filter (loadable id) (tbl_experiences (Detail.env p)) with
      | [exp] =>
          Detail.detailError
            (Detail.dom (state_after (Detail.loadAndRenderExperience id p)))
            = Some None /\
          Detail.mainImage
            (Detail.dom (state_after (Detail.loadAndRenderExperience id p)))
            = match Detail.mainImage (Detail.dom p) with
              | Some _ => Some (Detail.mainUrl exp)
              | None => None
              end
      | _ =>
          Detail.detailError
            (Detail.dom (state_after (Detail.loadAndRenderExperience id p)))
            = Some (Some "Could not load this experience.") /\
          Detail.mainImage
            (Detail.dom (state_after (Detail.loadAndRenderExperience id p)))
            = Detail.mainImage (Detail.dom p)
      end
  end.
Proof.
  intros Eb.
  unfold Detail.loadAndRenderExperience, Detail.hideError, Detail.showError,
    select_experience_single, send, bind, gets, modify, ret, try_catch,
    outcome_of, state_after.
  cbn -[run_select Detail.detail_query Detail.loadFavoriteState
        Detail.updateSaveButtonUI Detail.renderDetail].
  rewrite Eb.
  cbn -[run_select Detail.detail_query Detail.loadFavoriteState
        Detail.updateSaveButtonUI Detail.renderDetail].
  destruct (fault _ _ _);
    cbn -[run_select Detail.detail_query Detail.loadFavoriteState
          Detail.updateSaveButtonUI Detail.renderDetail];
    rewrite ?Eb; [| cbn; auto | cbn; auto].
  rewrite detail_run_select.
  destruct (List.filter (loadable id) _) as [|exp [|exp' rest]];
    cbn -[Detail.loadFavoriteState Detail.updateSaveButtonUI Detail.renderDetail];
    rewrite ?Eb; [cbn; auto | | cbn; auto].
  match goal with
  | |- context [match Detail.authUser (Detail.vars p) with
                | Some _ => _
                | None => _
                end ?q] =>
      set (qq := q);
      assert (H : exists q',
                match Detail.authUser (Detail.vars p) with
                | Some _ => Detail.loadFavoriteState id
                | None => fun s : Detail.Page => (Returned tt, s)
                end qq = (Returned tt, q') /\ Detail.dom q' = Detail.dom qq)
  end.
  { destruct (Detail.authUser (Detail.vars p)); [| now exists qq].
    destruct (loadFavoriteState_dom id qq) as (Ho & Hd & _).
    unfold outcome_of, state_after in Ho, Hd.
    destruct (Detail.loadFavoriteState id qq) as [o q']. cbn in Ho, Hd.
    subst o. now exists q'. }
  destruct H as (q' & -> & Hd).
  unfold Detail.updateSaveButtonUI, Detail.renderDetail, bind, modify.
  cbn -[Detail.mainUrl Detail.wireBookingClickTracking].
  destruct (Detail.authUser (Detail.vars q'));
    cbn -[Detail.mainUrl Detail.wireBookingClickTracking]; rewrite ?Hd;
    cbn -[Detail.mainUrl Detail.wireBookingClickTracking];
    destruct (Detail.btnBusinessSite (Detail.dom p));
    cbn -[Detail.mainUrl Detail.wireBookingClickTracking]; rewrite ?Hd;
    cbn -[Detail.mainUrl Detail.wireBookingClickTracking]; auto.
Qed.

(** X9.  Loading an experience never raises.  When the platform answers
    and exactly one row has the id, status "approved" and is published,
    the error banner is hidden and the hero image is that row's main
    image; in every other case (the request rejected, an error answer, no
    such row, several rows) the banner shows its message and the hero
    image is left as it was. *)
Theorem detail_page_renders_only_a_loadable_experience (id : string)
    (p : Detail.Page) (b : option string) :
  Detail.detailError (Detail.dom p) = Some b ->
  outcome_of (Detail.loadAndRenderExperience id p) = Returned tt /\
  match fault (Detail.env p) (List.length (sent (Detail.env p)))
          (SelectExperienceSingle (Detail.detail_query id)),
        List.filter (loadable id) (tbl_experiences (Detail.env p)) with
  | no_fault, [exp] =>
      Detail.detailError
        (Detail.dom (state_after (Detail.loadAndRenderExperience id p)))
        = Some None /\
      Detail.mainImage
        (Detail.dom (state_after (Detail.loadAndRenderExperience id p)))
        = match Detail.mainImage (Detail.dom p) with
          | Some _ => Some (Detail.mainUrl exp)
          | None => None
          end
  | rejects _, _ =>
      Detail.detailError
        (Detail.dom (state_after (Detail.loadAndRenderExperience id p)))
        = Some (Some "Something went wrong.") /\
      Detail.mainImage
        (Detail.dom (state_after (Detail.loadAndRenderExperience id p)))
        = Detail.mainImage (Detail.dom p)
  | _, _ =>
      Detail.detailError
        (Detail.dom (state_after (Detail.loadAndRenderExperience id p)))
        = Some (Some "Could not load this experience.") /\
      Detail.mainImage
        (Detail.dom (state_after (Detail.loadAndRenderExperience id p)))
        = Detail.mainImage (Detail.dom p)
  end.
Proof.
  intros Eb. destruct (load_outcome id p b Eb) as [Ho H].
  split; [exact Ho |].
  destruct (fault _ _ _); [| exact H | exact H].
  destruct (List.filter _ _) as [|exp [|exp' rest]]; exact H.
Qed.

(** X10.  The list pages accept the status in two spellings, the detail
    page in one: a published row whose status is spelled "Approved" is
    listed, yet loading its detail page ends with the error banner and
    without its image, whatever the platform does. *)
Theorem capitalised_status_is_listed_but_not_loadable (exp : Experience)
    (p : Detail.Page) (b : option string) :
  In exp (tbl_experiences (Detail.env p)) ->
  status exp = "Approved" ->
  is_published exp = true ->
  (forall e, In e (tbl_experiences (Detail.env p)) ->
             experience_id e = experience_id exp -> status e = "Approved") ->
  Detail.detailError (Detail.dom p) = Some b ->
  listed exp = true /\
  (exists msg,
     Detail.detailError
       (Detail.dom (state_after
                      (Detail.loadAndRenderExperience (experience_id exp) p)))
     = Some (Some msg)) /\
  Detail.mainImage
    (Detail.dom (state_after
                   (Detail.loadAndRenderExperience (experience_id exp) p)))
  = Detail.mainImage (Detail.dom p).
Proof.
  intros Hin Hst Hpub Hothers Eb.
  split; [unfold listed; now rewrite Hst, Hpub |].
  destruct (load_outcome (experience_id exp) p b Eb) as [_ H].
  assert (Hnone : List.filter (loadable (experience_id exp))
                    (tbl_experiences (Detail.env p)) = []).
  { apply filter_none_in. intros e He. unfold loadable.
    destruct (String.eqb_spec (experience_id e) (experience_id exp)) as [Hid|];
      [| reflexivity].
    rewrite (Hothers e He Hid). reflexivity. }
  rewrite Hnone in H.
  destruct (fault _ _ _); destruct H as [H1 H2]; split; eauto.
Qed.

Lemma setNavState_anonymous (p : Detail.Page) :
  Detail.setNavState None p
  = (Returned tt, Detail.set_nav (show_guest_nav (Detail.nav (Detail.dom p))) p).
Proof. reflexivity. Qed.

(** X11.  Opened without an id in the address, the detail page shows
    "Missing experience id in URL." and stops: it sends no request, logs
    no view and writes nothing to local storage. *)
Theorem missing_id_stops_the_page_load (p : Detail.Page) (b : option string)
    (now : Z) (uuid : string) :
  Detail.reachable p ->
  Detail.url_id p = "" ->
  Detail.detailError (Detail.dom p) = Some b ->
  Detail.detailError
    (Detail.dom (Detail.step (Detail.DOMContentLoaded now uuid) p))
    = Some (Some "Missing experience id in URL.") /\
  Detail.env (Detail.step (Detail.DOMContentLoaded now uuid) p) = Detail.env p /\
  Detail.browser (Detail.step (Detail.DOMContentLoaded now uuid) p)
    = Detail.browser p /\
  Detail.mainImage (Detail.dom (Detail.step (Detail.DOMContentLoaded now uuid) p))
    = Detail.mainImage (Detail.dom p) /\
  outcome_of (Detail.handler (Detail.DOMContentLoaded now uuid) p) = Returned tt.
Proof.
  intros Hr Hid Eb. apply reachable_anonymous in Hr as (Hu & _ & _).
  unfold Detail.step, Detail.handler, Detail.onDOMContentLoaded, bind, gets,
    state_after, outcome_of.
  rewrite Hu, setNavState_anonymous. cbn. rewrite Hid. cbn. rewrite Eb. auto.
Qed.

(** ** The visitor session id *)




Lemma visitor_session_id_exists (uuid : string) (p : Detail.Page) :
  Js.truthy uuid = true ->
  exists sid q,
    Detail.getOrCreateVisitorSessionId uuid p = (Returned sid, q) /\
    Detail.localStorage (Detail.browser q) !! "visitor_session_id" = Some sid /\
    Js.truthy sid = true /\
    Detail.url_src q = Detail.url_src p /\
    tbl_event_metric (Detail.env q) = tbl_event_metric (Detail.env p) /\
    session (Detail.env q) = session (Detail.env p) /\
    fault (Detail.env q) = fault (Detail.env p).
Proof.
  intros Hu.
  unfold Detail.getOrCreateVisitorSessionId, Detail.getItem, Detail.setItem,
    insert_visitor_session, send, bind, gets, modify, ret, try_catch.
  cbn.
  destruct (Detail.localStorage (Detail.browser p) !! "visitor_session_id")
    as [s|] eqn:Es; cbn.
  - destruct (Js.truthy s) eqn:Et; cbn.
    + exists s, p. auto 10.
    + destruct (fault _ _ _); cbn; eexists uuid, _;
        (split; [reflexivity |]); cbn; rewrite lookup_insert_eq; auto 10.
  - destruct (fault _ _ _); cbn; eexists uuid, _;
      (split; [reflexivity |]); cbn; rewrite lookup_insert_eq; auto 10.
Qed.

Lemma lower_ascii_small_letter (c : ascii) : Js.lower_ascii c = small_letter c.
Proof. destruct c as [[] [] [] [] [] [] [] []]; reflexivity. Qed.

Lemma toLowerCase_small_letters (s : string) :
  Js.toLowerCase s = in_small_letters s.
Proof.
  unfold in_small_letters. induction s as [|c s IH]; [reflexivity |].
  cbn [Js.toLowerCase list_ascii_of_string List.map string_of_list_ascii].
  now rewrite IH, lower_ascii_small_letter.
Qed.

(** X13.  On a platform that answers, logging an event adds exactly one
    row to the metric table: it names the experience and the kind, the
    session id kept in local storage, the signed-in user if there is one,
    and the source named by the address with its capital letters made
    small, "direct" when the address names none.  The source is ASCII
    text. *)
Theorem logged_event_row (uuid id : string) (kind : EventType) (p : Detail.Page) :
  healthy (Detail.env p) ->
  Js.truthy uuid = true ->
  plain (Detail.url_src p) = true ->
  exists sid,
    Detail.localStorage
      (Detail.browser (state_after (Detail.logEvent uuid id kind p)))
      !! "visitor_session_id" = Some sid /\
    Js.truthy sid = true /\
    tbl_event_metric (Detail.env (state_after (Detail.logEvent uuid id kind p)))
    = tbl_event_metric (Detail.env p) ++
      [{| ev_experience_id := id;
          ev_event_type := kind;
          ev_source := if String.eqb (Detail.url_src p) "" then "direct"
                       else in_small_letters (Detail.url_src p);
          ev_session_id := sid;
          ev_user_id := session (Detail.env p) |}].
Proof.
  intros Hh Hu _.
  destruct (visitor_session_id_exists uuid p Hu) as (sid & q & Hg & Hs & Ht & Hq).
  exists sid. unfold Detail.logEvent, bind. rewrite Hg.
  destruct Hq as (Hsrc & Htbl & Hsess & Hf).
  unfold auth_getUser, insert_event_metric, send, gets, ret, state_after.
  cbn. rewrite !Hf, !Hh. cbn. rewrite Hf, Hh. cbn.
  assert (Hsource :
    (if String.eqb (Detail.url_src p) "" then "direct"
     else in_small_letters (Detail.url_src p))
    = Js.toLowerCase (Js.or_else (Detail.url_src p) "direct")).
  { rewrite toLowerCase_small_letters. unfold Js.or_else, Js.truthy.
    destruct (String.eqb (Detail.url_src p) ""); reflexivity. }
  rewrite Hsource.
  unfold Detail.getSourceFromUrl. rewrite Hsrc, Htbl, Hsess. auto.
Qed.

(** ** The booking link *)



(** ** Thumbnails *)

Lemma sorted_app_cross {A : Type} (R : A -> A -> Prop) (a b : list A) :
  StronglySorted R (a ++ b) ->
  StronglySorted R a /\ forall i j, In i a -> In j b -> R i j.
Proof.
  induction a as [|x a IH]; cbn; intros H.
  - split; [constructor | contradiction].
  - inversion H as [|? ? Hs Hall]; subst. destruct (IH Hs) as [Ha Hc].
    rewrite List.Forall_app in Hall. destruct Hall as [Hxa Hxb].
    split; [now constructor |].
    intros i j [<-|Hi] Hj.
    + rewrite List.Forall_forall in Hxb. now apply Hxb.
    + now apply Hc.
Qed.

(** X15.  The thumbnail row of the detail page shows at most four
    images: those of lowest display order, lowest first, where an image
    without display order counts as 999 (so it comes after every order
    below 999 and before every order above).  When no image is flagged
    primary the hero image is the first thumbnail, or the placeholder when
    there is none or its address is blank. *)
Theorem thumbnails_are_the_lowest_display_orders (exp : Experience) :
  (exists shown rest,
     Permutation (image exp) (shown ++ rest) /\
     Detail.thumbnails exp = List.map image_url shown /\
     List.length shown = Nat.min 4 (List.length (image exp)) /\
     StronglySorted (fun a b => (shown_order a <= shown_order b)%Z) shown /\
     forall i j, In i shown -> In j rest ->
                 (shown_order i <= shown_order j)%Z) /\
  ((forall i, In i (image exp) -> is_primary i = false) ->
   Detail.mainUrl exp
   = Js.or_else (List.hd "" (Detail.thumbnails exp))
       ("https://via.placeholder.com/1200x800?text=" ++
        Js.encodeURIComponent (if String.eqb (title exp) "" then "Experience"
                               else title exp))%string).
Proof.
  replace (if String.eqb (title exp) "" then "Experience" else title exp)
    with (Js.or_else (title exp) "Experience")
    by (unfold Js.or_else, Js.truthy; now destruct (String.eqb (title exp) "")).
  fold (Detail.placeholder exp).
  change shown_order with Detail.order_key.
  unfold Detail.thumbnails, Detail.renderThumbnails, Detail.mainUrl.
  pose proof (sort_by_sorted Detail.order_key (image exp)) as Hs.
  pose proof (sort_by_perm Detail.order_key (image exp)) as Hp.
  set (sorted := sort_by Detail.order_key (image exp)) in *. clearbody sorted.
  split.
  - exists (firstn 4 sorted), (skipn 4 sorted).
    rewrite List.firstn_skipn. split; [exact Hp |]. split; [reflexivity |].
    split; [rewrite List.length_firstn, (Permutation_length Hp); reflexivity |].
    rewrite <- (List.firstn_skipn 4 sorted) in Hs.
    apply sorted_app_cross in Hs. exact Hs.
  - intros Hnone.
    assert (Hfind : List.find is_primary sorted = None).
    { destruct (List.find is_primary sorted) as [i|] eqn:Ef; [| reflexivity].
      apply List.find_some in Ef as [Hin Hprim].
      rewrite (Hnone i) in Hprim; [discriminate |].
      eapply Permutation_in; [symmetry; exact Hp | exact Hin]. }
    unfold primary_or_first. rewrite Hfind.
    destruct sorted as [|i rest]; reflexivity.
Qed.

(** ** The favourites list of the user dashboard *)

Lemma loadFavorites_frame (p : UserDashboard.Page) :
  tbl_favorite (UserDashboard.env (state_after (UserDashboard.loadFavorites p)))
    = tbl_favorite (UserDashboard.env p) /\
  tbl_experiences (UserDashboard.env (state_after (UserDashboard.loadFavorites p)))
    = tbl_experiences (UserDashboard.env p) /\
  fault (UserDashboard.env (state_after (UserDashboard.loadFavorites p)))
    = fault (UserDashboard.env p) /\
  UserDashboard.currentUser (state_after (UserDashboard.loadFavorites p))
    = UserDashboard.currentUser p /\
  UserDashboard.toasts (state_after (UserDashboard.loadFavorites p))
    = UserDashboard.toasts p /\
  (UserDashboard.favoritesList (state_after (UserDashboard.loadFavorites p)) = None
   <-> UserDashboard.favoritesList p = None).
Proof.
  unfold UserDashboard.loadFavorites, UserDashboard.currentUser_id,
    UserDashboard.renderFavoritesList, select_favorites, select_experiences,
    send, bind, gets, modify, ret, throw, try_catch, state_after.
  cbn -[run_select].
  destruct (UserDashboard.currentUser p) as [uid|] eqn:Eu; cbn -[run_select];
    repeat (match goal with
            | |- context [fault ?e ?n ?r] => destruct (fault e n r)
            | |- context [match List.map fav_experience_id ?l with _ => _ end] =>
                destruct (List.map fav_experience_id l)
            | |- context [match List.filter UserDashboard.safe ?l with _ => _ end] =>
                destruct (List.filter UserDashboard.safe l)
            end; cbn -[run_select]);
    destruct (UserDashboard.favoritesList p); cbn;
    rewrite ?Eu; repeat split; try reflexivity; try discriminate; auto.
Qed.

Lemma sorted_filter {A : Type} (R : A -> A -> Prop) (f : A -> bool) (l : list A) :
  StronglySorted R l -> StronglySorted R (List.filter f l).
Proof.
  induction 1 as [|x l Hs IH Hall]; cbn; [constructor |].
  destruct (f x); [| exact IH].
  constructor; [exact IH |].
  rewrite List.Forall_forall in *. intros y Hy.
  apply List.filter_In in Hy as [Hy _]. now apply Hall.
Qed.

Lemma StronglySorted_impl_key {A : Type} (key : A -> Z) (l : list A) :
  StronglySorted (fun a b => (- key a <= - key b)%Z) l ->
  StronglySorted (fun a b => (key b <= key a)%Z) l.
Proof.
  induction 1 as [|x l Hs IH Hall]; constructor; [exact IH |].
  eapply List.Forall_impl; [| exact Hall]. cbn. intros y Hy. lia.
Qed.

Lemma favourite_rows (env : Env) (uid : string) :
  let rows :=
    List.filter UserDashboard.safe
      (run_select (or_sem env) (tbl_experiences env)
         (UserDashboard.favorites_query (favourites_of uid env))) in
  StronglySorted (fun a b => (created_at b <= created_at a)%Z) rows /\
  Forall (fun e => In e (tbl_experiences env) /\ UserDashboard.safe e = true /\
                   In (experience_id e) (favourites_of uid env)) rows.
Proof.
  cbv zeta. split.
  - apply sorted_filter. unfold run_select.
    cbn [order_created_desc limit UserDashboard.favorites_query with_order
         and_filter base_query take_limit].
    apply (StronglySorted_impl_key created_at).
    apply (sort_by_sorted (fun e => (- created_at e)%Z)).
  - apply List.Forall_forall. intros e He.
    apply List.filter_In in He as [He Hsafe].
    apply run_select_sound in He as [Hin Hsat].
    split; [exact Hin | split; [exact Hsafe |]].
    unfold satisfies in Hsat. cbn in Hsat. rewrite andb_true_r in Hsat.
    now apply mem_string_In.
Qed.

Lemma loadFavorites_shown (uid : string) (p : UserDashboard.Page)
    (v : UserDashboard.FavView) :
  UserDashboard.currentUser p = Some uid ->
  UserDashboard.favoritesList p = Some v ->
  (UserDashboard.favoritesList (state_after (UserDashboard.loadFavorites p))
     = Some UserDashboard.fav_error
   <-> failed_since (UserDashboard.env p)
         (UserDashboard.env (state_after (UserDashboard.loadFavorites p)))) /\
  (forall cs,
     UserDashboard.favoritesList (state_after (UserDashboard.loadFavorites p))
       = Some (UserDashboard.fav_cards cs) ->
     cs = List.map UserDashboard.renderCard
            (List.filter UserDashboard.safe
               (run_select (or_sem (UserDashboard.env p))
                  (tbl_experiences (UserDashboard.env p))
                  (UserDashboard.favorites_query
                     (favourites_of uid (UserDashboard.env p)))))).
Proof.
  intros Hu El.
  unfold failed_since, UserDashboard.loadFavorites, UserDashboard.currentUser_id,
    UserDashboard.renderFavoritesList, select_favorites, select_experiences,
    send, bind, gets, modify, ret, throw, try_catch, state_after, favourites_of.
  cbn -[run_select]. rewrite Hu. cbn -[run_select].
  repeat (match goal with
          | |- context [fault ?e ?n ?r] => destruct (fault e n r) eqn:?
          | |- context [match List.map fav_experience_id ?l with _ => _ end] =>
              destruct (List.map fav_experience_id l) eqn:Eids
          | |- context [match List.filter UserDashboard.safe ?l with _ => _ end] =>
              destruct (List.filter UserDashboard.safe l) eqn:Erows
          end; cbn -[run_select]; rewrite ?El; cbn -[run_select]);
    (split; [settle_failure |]); intros cs Hcs; try discriminate Hcs.
  injection Hcs as <-. reflexivity.
Qed.

(** X16.  With a signed-in user, the favourites list of the dashboard
    ends in its error state exactly when the platform failed one of the
    two requests; otherwise its cards are cards of rows of the experiences
    table that the user has saved, that have status "approved" and are
    published, newest first. *)
Theorem favourites_list_shows_saved_listed_rows (uid : string)
    (p : UserDashboard.Page) (v : UserDashboard.FavView) :
  UserDashboard.currentUser p = Some uid ->
  UserDashboard.favoritesList p = Some v ->
  outcome_of (UserDashboard.loadFavorites p) = Returned tt /\
  (UserDashboard.favoritesList (state_after (UserDashboard.loadFavorites p))
     = Some UserDashboard.fav_error
   <-> failed_since (UserDashboard.env p)
         (UserDashboard.env (state_after (UserDashboard.loadFavorites p)))) /\
  (forall cs,
     UserDashboard.favoritesList (state_after (UserDashboard.loadFavorites p))
       = Some (UserDashboard.fav_cards cs) ->
     exists rows,
       cs = List.map UserDashboard.renderCard rows /\
       StronglySorted (fun a b => (created_at b <= created_at a)%Z) rows /\
       Forall (fun e => In e (tbl_experiences (UserDashboard.env p)) /\
                        status e = "approved" /\ is_published e = true /\
                        In (experience_id e)
                          (favourites_of uid (UserDashboard.env p)))
         rows).
Proof.
  intros Hu El. split; [apply loadFavorites_returns |].
  destruct (loadFavorites_shown uid p v Hu El) as [Hfail Hcards].
  split; [exact Hfail |].
  intros cs Hcs. eexists. split; [apply (Hcards cs Hcs) |].
  destruct (favourite_rows (UserDashboard.env p) uid) as [Hs Hall].
  split; [exact Hs |].
  eapply List.Forall_impl; [| exact Hall]. cbn.
  intros e (Hin & Hsafe & Hfav). unfold UserDashboard.safe in Hsafe.
  apply andb_true_iff in Hsafe as [Hst Hpub]. apply String.eqb_eq in Hst. auto.
Qed.

(** X17.  When the platform fails the insert or delete of a favourite
    toggle on the dashboard, the toggle changes nothing: the favourite
    table, the page's set of favourite ids and the list stay as they were,
    no reload is sent, and the only trace is the error toast. *)
Theorem failed_toggle_changes_nothing (uid eid : string)
    (p : UserDashboard.Page) :
  UserDashboard.currentUser p = Some uid ->
  fault (UserDashboard.env p) (List.length (sent (UserDashboard.env p)))
    (toggle_request
       (bool_decide (eid ∈ UserDashboard.favoriteExperienceIds p)) uid eid)
    <> no_fault ->
  outcome_of (UserDashboard.toggleFavorite eid p) = Returned tt /\
  tbl_favorite (UserDashboard.env (state_after (UserDashboard.toggleFavorite eid p)))
    = tbl_favorite (UserDashboard.env p) /\
  UserDashboard.favoriteExperienceIds
    (state_after (UserDashboard.toggleFavorite eid p))
    = UserDashboard.favoriteExperienceIds p /\
  UserDashboard.favoritesList (state_after (UserDashboard.toggleFavorite eid p))
    = UserDashboard.favoritesList p /\
  UserDashboard.toasts (state_after (UserDashboard.toggleFavorite eid p))
    = UserDashboard.toasts p ++ [("Error updating favorites", "error")] /\
  sent (UserDashboard.env (state_after (UserDashboard.toggleFavorite eid p)))
    = sent (UserDashboard.env p) ++
      [toggle_request
         (bool_decide (eid ∈ UserDashboard.favoriteExperienceIds p)) uid eid].
Proof.
  intros Hu Hf.
  unfold UserDashboard.toggleFavorite, UserDashboard.currentUser_id,
    delete_favorite, insert_favorite, send, bind, gets, modify, ret, throw,
    try_catch, outcome_of, state_after, toggle_request in *.
  cbn -[UserDashboard.loadFavorites].
  destruct (bool_decide (eid ∈ UserDashboard.favoriteExperienceIds p));
    cbn -[UserDashboard.loadFavorites]; rewrite Hu;
    cbn -[UserDashboard.loadFavorites];
    destruct (fault _ _ _); cbn; try congruence; auto 10.
Qed.

Lemma toggleFavorite_healthy (uid eid : string) (p : UserDashboard.Page) :
  UserDashboard.currentUser p = Some uid ->
  UserDashboard.favoritesList p <> None ->
  healthy (UserDashboard.env p) ->
  tbl_favorite (UserDashboard.env (state_after (UserDashboard.toggleFavorite eid p)))
    = (if bool_decide (eid ∈ UserDashboard.favoriteExperienceIds p)
       then List.filter (fun r => negb (is_favorite_of uid eid r))
              (tbl_favorite (UserDashboard.env p))
       else tbl_favorite (UserDashboard.env p) ++
            [{| fav_user_id := uid; fav_experience_id := eid |}]) /\
  UserDashboard.favoriteExperienceIds
    (state_after (UserDashboard.toggleFavorite eid p))
    = list_to_set
        (favourites_of uid
           (UserDashboard.env (state_after (UserDashboard.toggleFavorite eid p)))) /\
  UserDashboard.currentUser (state_after (UserDashboard.toggleFavorite eid p))
    = Some uid /\
  UserDashboard.favoritesList (state_after (UserDashboard.toggleFavorite eid p))
    <> None /\
  healthy (UserDashboard.env (state_after (UserDashboard.toggleFavorite eid p))).
Proof.
  intros Hu Hl Hh.
  unfold UserDashboard.toggleFavorite, UserDashboard.currentUser_id,
    delete_favorite, insert_favorite, send, bind, gets, modify, ret, throw,
    try_catch, state_after.
  cbn -[UserDashboard.loadFavorites].
  destruct (bool_decide (eid ∈ UserDashboard.favoriteExperienceIds p));
    cbn -[UserDashboard.loadFavorites]; rewrite Hu;
    cbn -[UserDashboard.loadFavorites]; rewrite Hh;
    cbn -[UserDashboard.loadFavorites].
  all: match goal with |- context [UserDashboard.loadFavorites ?q] =>
         pose proof (loadFavorites_returns q) as Hret;
         destruct (loadFavorites_healthy uid q) as (Hids & _ & Hfav & _ & _);
         [exact Hu | exact Hl | intros n r; apply Hh |];
         destruct (loadFavorites_frame q) as (Htbl & _ & Hfl & Hcu & _ & Hpres);
         unfold state_after, outcome_of in Hret, Hids, Hfav, Htbl, Hfl, Hcu, Hpres;
         destruct (UserDashboard.loadFavorites q) as [[[]|m] p3]
       end; cbn in Hret; try discriminate Hret; cbn [fst snd] in *.
  all: split; [exact Htbl |].
  all: split; [rewrite Hids, Hfav; reflexivity |].
  all: split; [rewrite Hcu; exact Hu |].
  all: split; [intros Hn; apply Hpres in Hn; contradiction |].
  all: intros n r; rewrite Hfl; apply Hh.
Qed.

Lemma favourites_after_delete (tbl : list FavoriteRow) (uid uid' eid x : string) :
  In x (List.map fav_experience_id
          (List.filter (fun r => String.eqb (fav_user_id r) uid')
             (List.filter (fun r => negb (is_favorite_of uid eid r)) tbl)))
  <-> In x (List.map fav_experience_id
              (List.filter (fun r => String.eqb (fav_user_id r) uid') tbl))
      /\ ~ (uid' = uid /\ x = eid).
Proof.
  rewrite !List.in_map_iff. split.
  - intros (r & <- & Hr). apply List.filter_In in Hr as [Hr Hu].
    apply List.filter_In in Hr as [Hr Hn]. split.
    + exists r. split; [reflexivity |]. apply List.filter_In. auto.
    + intros [-> Hx]. unfold is_favorite_of in Hn.
      rewrite Hu, Hx, String.eqb_refl in Hn. discriminate.
  - intros [(r & <- & Hr) Hne]. apply List.filter_In in Hr as [Hr Hu].
    exists r. split; [reflexivity |].
    apply List.filter_In. split; [| exact Hu].
    apply List.filter_In. split; [exact Hr |].
    unfold is_favorite_of. apply String.eqb_eq in Hu.
    destruct (String.eqb_spec (fav_user_id r) uid) as [Hu'|]; [| reflexivity].
    destruct (String.eqb_spec (fav_experience_id r) eid) as [He|]; [| reflexivity].
    exfalso. apply Hne. split; congruence.
Qed.

Lemma favourites_after_insert (tbl : list FavoriteRow) (uid uid' eid : string) :
  List.map fav_experience_id
    (List.filter (fun r => String.eqb (fav_user_id r) uid')
       (tbl ++ [{| fav_user_id := uid; fav_experience_id := eid |}]))
  = List.map fav_experience_id
      (List.filter (fun r => String.eqb (fav_user_id r) uid') tbl)
    ++ (if String.eqb uid uid' then [eid] else []).
Proof.
  rewrite List.filter_app, List.map_app. cbn.
  now destruct (String.eqb uid uid').
Qed.

Lemma others_after_delete (tbl : list FavoriteRow) (uid uid' eid : string) :
  uid' <> uid ->
  List.filter (fun r => String.eqb (fav_user_id r) uid')
    (List.filter (fun r => negb (is_favorite_of uid eid r)) tbl)
  = List.filter (fun r => String.eqb (fav_user_id r) uid') tbl.
Proof.
  intros Hne. induction tbl as [|r tbl IH]; cbn; [reflexivity |].
  unfold is_favorite_of at 1.
  destruct (String.eqb_spec (fav_user_id r) uid) as [Hu|Hu]; cbn.
  - destruct (String.eqb (fav_experience_id r) eid); cbn; rewrite IH;
      destruct (String.eqb_spec (fav_user_id r) uid'); congruence.
  - now rewrite IH.
Qed.

Lemma in_ids (x : string) (l : list string) :
  x ∈ (list_to_set l : gset string) <-> In x l.
Proof. now rewrite elem_of_list_to_set, list_elem_of_In. Qed.

(** X18.  On a platform that answers, toggling the same favourite twice
    on the dashboard brings the user's favourites back: the page's set of
    ids is the one the store held before, the store holds the same
    favourites for the user, and the favourites of every other user were
    never touched. *)
Theorem toggling_twice_restores_the_favourites (uid eid : string)
    (p : UserDashboard.Page) :
  UserDashboard.currentUser p = Some uid ->
  UserDashboard.favoritesList p <> None ->
  healthy (UserDashboard.env p) ->
  (eid ∈ UserDashboard.favoriteExperienceIds p
   <-> In eid (favourites_of uid (UserDashboard.env p))) ->
  let twice :=
    state_after
      (UserDashboard.toggleFavorite eid
         (state_after (UserDashboard.toggleFavorite eid p))) in
  UserDashboard.favoriteExperienceIds twice
    = list_to_set (favourites_of uid (UserDashboard.env p)) /\
  (forall x, In x (favourites_of uid (UserDashboard.env twice))
             <-> In x (favourites_of uid (UserDashboard.env p))) /\
  (forall other, other <> uid ->
     favourites_of other (UserDashboard.env twice)
     = favourites_of other (UserDashboard.env p)).
Proof.
  intros Hu Hl Hh Hknown twice.
  destruct (toggleFavorite_healthy uid eid p Hu Hl Hh)
    as (Ht1 & Hi1 & Hu1 & Hl1 & Hh1).
  set (once := state_after (UserDashboard.toggleFavorite eid p)) in *.
  destruct (toggleFavorite_healthy uid eid once Hu1 Hl1 Hh1)
    as (Ht2 & Hi2 & _ & _ & _).
  fold twice in Ht2, Hi2. clearbody twice once.
  assert (Hmem : forall x,
            In x (favourites_of uid (UserDashboard.env twice))
            <-> In x (favourites_of uid (UserDashboard.env p))).
  { intros x. unfold favourites_of in *. rewrite Ht2, Hi1.
    destruct (bool_decide (eid ∈ UserDashboard.favoriteExperienceIds p)) eqn:Em.
    - apply bool_decide_eq_true in Em. apply Hknown in Em.
      rewrite Ht1.
      rewrite bool_decide_eq_false_2
        by (rewrite in_ids, favourites_after_delete; tauto).
      rewrite favourites_after_insert, String.eqb_refl, List.in_app_iff,
        favourites_after_delete. cbn.
      destruct (String.eqb_spec x eid) as [->|Hne]; [tauto |].
      split; [intros [[H _]|[H|[]]]; [exact H | congruence] |].
      intros H. left. split; [exact H | tauto].
    - apply bool_decide_eq_false in Em.
      assert (Hnot : ~ In eid (List.map fav_experience_id
                                 (List.filter (fun r => String.eqb (fav_user_id r) uid)
                                    (tbl_favorite (UserDashboard.env p)))))
        by tauto.
      rewrite Ht1.
      rewrite bool_decide_eq_true_2
        by (rewrite in_ids, favourites_after_insert, String.eqb_refl,
              List.in_app_iff; cbn; auto).
      rewrite favourites_after_delete, favourites_after_insert, String.eqb_refl,
        List.in_app_iff. cbn.
      split; [intros [[H|[H|[]]] Hn]; [exact H | exfalso; apply Hn; auto] |].
      intros H. split; [now left |]. intros [_ ->]. contradiction. }
  split; [| split; [exact Hmem |]].
  - rewrite Hi2. apply set_eq. intros x. rewrite !in_ids. apply Hmem.
  - intros other Hne. unfold favourites_of. rewrite Ht2, Hi1, Ht1.
    repeat match goal with
           | |- context [bool_decide ?P] => destruct (bool_decide P)
           end;
      rewrite ?others_after_delete, ?favourites_after_insert by exact Hne;
      rewrite ?others_after_delete, ?favourites_after_insert by exact Hne;
      destruct (String.eqb_spec uid other) as [->|_]; try congruence;
      now rewrite ?app_nil_r.
Qed.

(** ** The image gallery of the business dashboard *)

Lemma primaries_app (a b : list Business.GalleryImage) :
  primaries (a ++ b) = (primaries a + primaries b)%nat.
Proof. unfold primaries. now rewrite List.filter_app, List.length_app. Qed.

Lemma primaries_none (g : list Business.GalleryImage) :
  existsb Business.isPrimary g = false <-> primaries g = 0%nat.
Proof.
  unfold primaries. induction g as [|x g IH]; cbn; [tauto |].
  destruct (Business.isPrimary x); cbn; [split; [discriminate | lia] | exact IH].
Qed.

Lemma ensurePrimary_one (g : list Business.GalleryImage) :
  (primaries g <= 1)%nat ->
  Business.ensurePrimary g = [] \/ primaries (Business.ensurePrimary g) = 1%nat.
Proof.
  intros Hle. unfold Business.ensurePrimary.
  destruct (existsb Business.isPrimary g) eqn:E.
  - right. destruct (primaries g) as [|[|n]] eqn:En; try lia.
    apply primaries_none in En. congruence.
  - apply primaries_none in E. destruct g as [|x g]; [now left | right].
    unfold primaries in *. cbn in *.
    destruct (Business.isPrimary x); cbn in *; [lia |]. now rewrite E.
Qed.

Lemma ensurePrimary_length (g : list Business.GalleryImage) :
  List.length (Business.ensurePrimary g) = List.length g.
Proof.
  unfold Business.ensurePrimary.
  destruct (existsb _ g); [reflexivity |]. now destruct g.
Qed.

Lemma add_files_effect (createObjectURL : Business.File -> string)
    (files : list Business.File) (acc : list Business.GalleryImage * list string) :
  primaries (fst (fold_left (Business.add_file createObjectURL) files acc))
    = primaries (fst acc) /\
  (List.length (fst (fold_left (Business.add_file createObjectURL) files acc))
     <= List.length (fst acc) + List.length files)%nat /\
  exists added,
    fst (fold_left (Business.add_file createObjectURL) files acc) = fst acc ++ added.
Proof.
  revert acc. induction files as [|f files IH]; intros acc; cbn [fold_left].
  - repeat split; try lia. exists []. now rewrite app_nil_r.
  - destruct (IH (Business.add_file createObjectURL acc f)) as (Hp & Hl & added & Ha).
    unfold Business.add_file in *.
    destruct (negb _); [| destruct (_ <? _)%Z]; cbn [fst snd] in *.
    + split; [exact Hp | split; [cbn; lia | eauto]].
    + split; [exact Hp | split; [cbn; lia | eauto]].
    + rewrite primaries_app in Hp. rewrite List.length_app in Hl.
      split; [rewrite Hp; unfold primaries; cbn; lia |].
      split; [cbn in *; lia |].
      eexists (_ :: added). rewrite Ha, <- app_assoc. reflexivity.
Qed.

Lemma primaries_cons (x : Business.GalleryImage) (g : list Business.GalleryImage) :
  primaries (x :: g)
  = ((if Business.isPrimary x then 1 else 0) + primaries g)%nat.
Proof. unfold primaries. cbn. now destruct (Business.isPrimary x). Qed.

Lemma setPrimary_from_primaries (i index : nat) (g : list Business.GalleryImage) :
  primaries (Business.setPrimary_from i index g)
  = if (i <=? index)%nat && (index <? i + List.length g)%nat then 1%nat else 0%nat.
Proof.
  revert i. induction g as [|x g IH]; intros i.
  - change (primaries (Business.setPrimary_from i index [])) with 0%nat.
    change (List.length (@nil Business.GalleryImage)) with 0%nat.
    destruct (Nat.leb_spec i index), (Nat.ltb_spec index (i + 0));
      cbn [andb]; try reflexivity; lia.
  - cbn [Business.setPrimary_from]. rewrite primaries_cons, IH.
    cbn [Business.set_isPrimary Business.isPrimary].
    change (List.length (x :: g)) with (S (List.length g)).
    destruct (Nat.eqb_spec i index) as [->|Hne];
      repeat match goal with
             | |- context [(?a <=? ?b)%nat] => destruct (Nat.leb_spec a b)
             | |- context [(?a <? ?b)%nat] => destruct (Nat.ltb_spec a b)
             end; cbn [andb]; try reflexivity; lia.
Qed.

Lemma setPrimary_from_length (i index : nat) (g : list Business.GalleryImage) :
  List.length (Business.setPrimary_from i index g) = List.length g.
Proof. revert i. induction g; intros i; cbn; [reflexivity | now rewrite IHg]. Qed.

Lemma splice1_primaries (index : nat) (g : list Business.GalleryImage) :
  (primaries (Business.splice1 index g) <= primaries g)%nat.
Proof.
  revert index. induction g as [|x g IH]; intros [|i]; cbn; try lia.
  - unfold primaries. cbn. destruct (Business.isPrimary x); cbn; lia.
  - specialize (IH i). unfold primaries in *. cbn.
    destruct (Business.isPrimary x); cbn; lia.
Qed.

Lemma perm_filter_length {A : Type} (f : A -> bool) (l l' : list A) :
  Permutation l l' ->
  List.length (List.filter f l) = List.length (List.filter f l').
Proof.
  induction 1 as [|x l l' _ IH|x y l|l l' l'' _ IH1 _ IH2]; cbn.
  - reflexivity.
  - destruct (f x); cbn; now rewrite IH.
  - destruct (f x), (f y); reflexivity.
  - now rewrite IH1.
Qed.

Lemma editImages_primaries (images : list Image) :
  primaries
    (List.map
       (fun img => {| Business.file := None; Business.preview := image_url img;
                      Business.uploaded := true; Business.url := image_url img;
                      Business.isPrimary := is_primary img |})
       (sort_by Business.edit_order_key images))
  = List.length (List.filter is_primary images).
Proof.
  rewrite (perm_filter_length is_primary _ _
             (sort_by_perm Business.edit_order_key images)).
  unfold primaries.
  induction (sort_by Business.edit_order_key images) as [|x l IH]; cbn;
    [reflexivity |].
  destruct (is_primary x); cbn; now rewrite IH.
Qed.

Lemma handleFiles_primaries (createObjectURL : Business.File -> string)
    (files : list Business.File) (g : list Business.GalleryImage) :
  g = [] \/ primaries g = 1%nat ->
  fst (Business.handleFiles createObjectURL files g) = [] \/
  primaries (fst (Business.handleFiles createObjectURL files g)) = 1%nat.
Proof.
  intros Hg.
  assert (Hle : (primaries g <= 1)%nat)
    by (destruct Hg as [-> | ->]; [cbn; lia | lia]).
  unfold Business.handleFiles.
  destruct (_ <? _)%nat; cbn [fst]; [exact Hg |].
  apply ensurePrimary_one.
  now rewrite (proj1 (add_files_effect createObjectURL files (g, []))).
Qed.

(** X19.  A gallery of the create and edit form that starts empty or with
    exactly one primary entry holds exactly one primary entry whenever it
    is not empty, whatever files are added and whichever entries are made
    primary or removed.  The create form starts empty.  The edit form
    starts with as many primary entries as the stored images have flagged
    rows, and with one when none is flagged; so stored rows that flag two
    images show two primary entries, until an entry is made primary,
    which leaves exactly one in any gallery.  A batch of files never takes
    a gallery past five entries (or past what it already had), and a batch
    that would is refused whole. *)
Theorem gallery_holds_exactly_one_primary
    (createObjectURL : Business.File -> string) :
  (forall start g : list Business.GalleryImage,
     start = [] \/ primaries start = 1%nat ->
     gallery_from createObjectURL start g ->
     g = [] \/ primaries g = 1%nat) /\
  (forall images : list Image,
     images <> [] ->
     primaries (Business.editImages images) = Nat.max 1 (flagged images)) /\
  (forall (g : list Business.GalleryImage) (index : nat),
     (index < List.length g)%nat ->
     primaries (Business.setPrimaryImage index g) = 1%nat) /\
  (forall (g : list Business.GalleryImage) (files : list Business.File),
     (List.length (fst (Business.handleFiles createObjectURL files g))
        <= Nat.max 5 (List.length g))%nat /\
     ((5 < List.length g + List.length files)%nat ->
      Business.handleFiles createObjectURL files g
      = (g, ["Maximum 5 images allowed"]))).
Proof.
  split; [| split; [| split]].
  - intros start g Hstart Hr.
    induction Hr as [|a g Hr IH Ho]; [exact Hstart |].
    assert (Hle : (primaries g <= 1)%nat)
      by (destruct IH as [-> | ->]; [cbn; lia | lia]).
    destruct a as [files|index|index]; cbn [gallery_step offered] in *.
    + now apply handleFiles_primaries.
    + right. unfold Business.setPrimaryImage.
      rewrite setPrimary_from_primaries. cbn [Nat.leb andb Nat.add].
      apply Nat.ltb_lt in Ho. now rewrite Ho.
    + apply ensurePrimary_one.
      pose proof (splice1_primaries index g). lia.
  - intros images Hne. unfold Business.editImages, Business.ensurePrimary, flagged.
    pose proof (editImages_primaries images) as Hp.
    set (g := List.map _ (sort_by Business.edit_order_key images)) in *.
    assert (Hlen : List.length g = List.length images).
    { subst g. rewrite List.length_map.
      symmetry. apply Permutation_length, sort_by_perm. }
    set (k := List.length (List.filter is_primary images)) in *.
    destruct (existsb Business.isPrimary g) eqn:E.
    + rewrite Hp. destruct k; [apply primaries_none in Hp; congruence | lia].
    + apply primaries_none in E. assert (Hk : k = 0%nat) by lia.
      rewrite Hk. clear Hp Hk.
      destruct g as [|x g'].
      * destruct images; [congruence | discriminate Hlen].
      * rewrite primaries_cons in *. cbn [Business.set_isPrimary Business.isPrimary].
        destruct (Business.isPrimary x); cbn in *; lia.
  - intros g index Ho. unfold Business.setPrimaryImage.
    rewrite setPrimary_from_primaries. cbn [Nat.leb andb Nat.add].
    apply Nat.ltb_lt in Ho. now rewrite Ho.
  - intros g files. unfold Business.handleFiles.
    change Business.maxFiles with 5%nat.
    destruct (Nat.ltb_spec 5 (List.length g + List.length files)); cbn [fst].
    + split; [lia | reflexivity].
    + split; [| lia].
      rewrite ensurePrimary_length.
      destruct (add_files_effect createObjectURL files (g, [])) as (_ & Hl & _).
      cbn [fst] in Hl. lia.
Qed.

(** ** The image rows a saved experience gets *)

Lemma sorted_perm_unique {A : Type} (key : A -> Z) (l m : list A) :
  StronglySorted (fun a b => (key a < key b)%Z) l ->
  StronglySorted (fun a b => (key a <= key b)%Z) m ->
  Permutation l m -> m = l.
Proof.
  intros Hl. revert m. induction Hl as [|x l Hl IH Hx]; intros m Hm Hp.
  - apply Permutation_nil in Hp. now subst.
  - destruct m as [|y m]; [apply Permutation_sym, Permutation_nil in Hp; discriminate |].
    inversion Hm as [|? ? Hm' Hy]; subst.
    rewrite List.Forall_forall in Hx, Hy.
    assert (Hxy : x = y).
    { assert (Hxin : In x (y :: m))
        by (eapply Permutation_in; [exact Hp | now left]).
      assert (Hyin : In y (x :: l))
        by (eapply Permutation_in; [symmetry; exact Hp | now left]).
      destruct Hxin as [Heq|Hxin]; [now symmetry |].
      destruct Hyin as [Heq|Hyin]; [exact Heq |].
      specialize (Hy x Hxin). specialize (Hx y Hyin). lia. }
    subst y. f_equal. apply IH; [exact Hm' |].
    eapply Permutation_cons_inv. exact Hp.
Qed.

Lemma sort_by_unique {A : Type} (key : A -> Z) (l l' : list A) :
  StronglySorted (fun a b => (key a < key b)%Z) l ->
  Permutation l' l -> sort_by key l' = l.
Proof.
  intros Hl Hp. apply (sorted_perm_unique key); [exact Hl | apply sort_by_sorted |].
  etransitivity; [symmetry; exact Hp | apply sort_by_perm].
Qed.

Lemma records_from (index : nat) (urls : list string) :
  Forall (fun r => exists n, (index <= n)%nat /\
                             display_order r = Some (Z.of_nat n) /\
                             is_primary r = Nat.eqb n 0)
    (Business.imageRecords_from index urls) /\
  List.map image_url (Business.imageRecords_from index urls) = urls /\
  StronglySorted
    (fun a b => exists i j, display_order a = Some i /\ display_order b = Some j /\
                            (i < j)%Z)
    (Business.imageRecords_from index urls).
Proof.
  revert index. induction urls as [|u urls IH]; intros index; cbn.
  - repeat split; constructor.
  - destruct (IH (S index)) as (Hall & Hmap & Hs).
    split; [| split].
    + constructor; [exists index; auto |].
      eapply List.Forall_impl; [| exact Hall].
      intros r (n & Hn & Hd & Hp). exists n. split; [lia | auto].
    + now rewrite Hmap.
    + constructor; [exact Hs |].
      eapply List.Forall_impl; [| exact Hall].
      intros r (n & Hn & Hd & _). exists (Z.of_nat index), (Z.of_nat n).
      cbn. split; [reflexivity | split; [exact Hd | lia]].
Qed.

Lemma records_sorted_by (key : Image -> Z) (urls : list string) :
  (forall r n, display_order r = Some n -> key r = n) ->
  StronglySorted (fun a b => (key a < key b)%Z) (Business.imageRecords urls).
Proof.
  intros Hkey. destruct (records_from 0 urls) as (_ & _ & Hs).
  unfold Business.imageRecords.
  induction Hs as [|x l Hs IH Hx]; constructor; [exact IH |].
  eapply List.Forall_impl; [| exact Hx].
  intros b (i & j & Hi & Hj & Hlt). now rewrite (Hkey _ _ Hi), (Hkey _ _ Hj).
Qed.

Lemma records_cons (u : string) (urls : list string) :
  Business.imageRecords (u :: urls)
  = {| image_url := u; is_primary := true; display_order := Some 0%Z |}
    :: Business.imageRecords_from 1 urls /\
  Forall (fun r => is_primary r = false) (Business.imageRecords_from 1 urls).
Proof.
  split; [reflexivity |].
  destruct (records_from 1 urls) as (Hall & _ & _).
  eapply List.Forall_impl; [| exact Hall].
  intros r (n & Hn & _ & Hp). rewrite Hp. destruct n; [lia | reflexivity].
Qed.

Lemma find_the_only_primary (images rest : list Image) (first : Image) :
  Permutation images (first :: rest) ->
  is_primary first = true ->
  Forall (fun r => is_primary r = false) rest ->
  List.find is_primary images = Some first.
Proof.
  intros Hp Hf Hrest.
  destruct (find_is_some is_primary images first) as [i Hi];
    [eapply Permutation_in; [symmetry; exact Hp | now left] | exact Hf |].
  rewrite Hi. f_equal.
  apply List.find_some in Hi as [Hin Hprim].
  apply (Permutation_in _ Hp) in Hin. destruct Hin as [->|Hin]; [reflexivity |].
  rewrite List.Forall_forall in Hrest. rewrite (Hrest i Hin) in Hprim.
  discriminate.
Qed.

Lemma stored_images_shown (urls : list string)
    (exp : Experience) :
  Permutation (image exp) (Business.imageRecords urls) ->
  getPrimaryImageUrl exp = List.hd "" urls /\
  Finder.card_imgUrl (Finder.renderMatchCard exp)
    = Js.or_else (List.hd "" urls) card_placeholder /\
  Experiences.card_imgUrl (Experiences.renderCard exp)
    = Js.or_else (List.hd "" urls) card_placeholder /\
  Detail.mainUrl exp = Js.or_else (List.hd "" urls) (Detail.placeholder exp) /\
  Detail.thumbnails exp = firstn 4 urls.
Proof.
  intros Hp.
  assert (Hsorted : sort_by Detail.order_key (image exp) = Business.imageRecords urls).
  { apply sort_by_unique; [| exact Hp].
    apply records_sorted_by. intros r n Hr. unfold Detail.order_key. now rewrite Hr. }
  assert (Hcard : getPrimaryImageUrl exp = List.hd "" urls).
  { unfold getPrimaryImageUrl, primary_or_first.
    destruct urls as [|u urls].
    - apply Permutation_sym, Permutation_nil in Hp. now rewrite Hp.
    - destruct (records_cons u urls) as [Hc Hrest]. rewrite Hc in Hp.
      now rewrite (find_the_only_primary _ _ _ Hp eq_refl Hrest). }
  split; [exact Hcard |].
  cbn [Finder.renderMatchCard Finder.card_imgUrl Experiences.renderCard
       Experiences.card_imgUrl].
  rewrite Hcard. split; [reflexivity | split; [reflexivity |]].
  unfold Detail.mainUrl, Detail.thumbnails, Detail.renderThumbnails.
  rewrite Hsorted. split.
  - destruct urls as [|u urls]; reflexivity.
  - rewrite <- List.firstn_map. unfold Business.imageRecords.
    now rewrite (proj1 (proj2 (records_from 0 urls))).
Qed.

(** X20.  For an experience whose image rows are the ones the business
    dashboard wrote for a list of addresses, fetched in any order, every
    page shows the same main image, the first address of the list: the
    finder and experiences cards and the hero of the detail page; and the
    thumbnails of the detail page are the first four addresses in the
    order of the list. *)
Theorem stored_images_show_alike_on_every_page (urls : list string)
    (exp : Experience) :
  Permutation (image exp) (Business.imageRecords urls) ->
  getPrimaryImageUrl exp = List.hd "" urls /\
  Finder.card_imgUrl (Finder.renderMatchCard exp)
    = Js.or_else (List.hd "" urls) card_placeholder /\
  Experiences.card_imgUrl (Experiences.renderCard exp)
    = Js.or_else (List.hd "" urls) card_placeholder /\
  Detail.mainUrl exp = Js.or_else (List.hd "" urls) (Detail.placeholder exp) /\
  Detail.thumbnails exp = firstn 4 urls.
Proof. apply stored_images_shown. Qed.

Lemma upload_kept (upload : nat -> Business.File -> Outcome string) (i : nat)
    (g : list Business.GalleryImage) :
  Forall (fun img => Business.uploaded img && Js.truthy (Business.url img) = true) g ->
  Business.upload_from upload i g = Returned (List.map Business.url g).
Proof.
  intros H. revert i. induction H as [|img g Himg _ IH]; intros i; cbn;
    [reflexivity |].
  now rewrite Himg, IH.
Qed.

Lemma no_primary_filters (rest : list Business.GalleryImage) :
  Forall (fun img => Business.isPrimary img = false) rest ->
  List.filter Business.isPrimary rest = [] /\
  List.filter (fun i => negb (Business.isPrimary i)) rest = rest.
Proof.
  induction 1 as [|x l Hx _ [IH1 IH2]]; cbn; [auto |].
  rewrite Hx. cbn. now rewrite IH1, IH2.
Qed.

Lemma ordered_primary_first (p : Business.GalleryImage)
    (rest : list Business.GalleryImage) :
  Business.isPrimary p = true ->
  Forall (fun img => Business.isPrimary img = false) rest ->
  Business.ordered (p :: rest) = p :: rest /\
  Business.ensurePrimary (p :: rest) = p :: rest.
Proof.
  intros Hp Hrest. destruct (no_primary_filters rest Hrest) as [H1 H2].
  unfold Business.ordered, Business.ensurePrimary. cbn.
  rewrite Hp. cbn. now rewrite H1, H2.
Qed.

(** X21.  Opening a saved experience for editing and saving it again
    without touching the images uploads nothing and writes the same image
    rows in the same order, in whatever order the stored rows were
    fetched. *)
Theorem editing_keeps_the_stored_images
    (upload : nat -> Business.File -> Outcome string) (urls : list string)
    (images : list Image) :
  urls <> [] ->
  Forall (fun u => Js.truthy u = true) urls ->
  Permutation images (Business.imageRecords urls) ->
  Business.uploadImagesToStorage upload (Business.editImages images)
    = Returned urls /\
  List.map Business.url (Business.editImages images) = urls /\
  primaries (Business.editImages images) = 1%nat.
Proof.
  intros Hne Htruthy Hp.
  assert (Hsorted : sort_by Business.edit_order_key images
                    = Business.imageRecords urls).
  { apply sort_by_unique; [| exact Hp].
    apply records_sorted_by. intros r n Hr.
    unfold Business.edit_order_key. now rewrite Hr. }
  unfold Business.editImages. rewrite Hsorted.
  destruct urls as [|u urls]; [congruence |].
  destruct (records_cons u urls) as [Hc Hrest]. rewrite Hc.
  set (mk := fun img : Image =>
               {| Business.file := None; Business.preview := image_url img;
                  Business.uploaded := true; Business.url := image_url img;
                  Business.isPrimary := is_primary img |}).
  cbn [List.map].
  assert (Hrest' : Forall (fun img => Business.isPrimary img = false)
                     (List.map mk (Business.imageRecords_from 1 urls))).
  { apply List.Forall_map. eapply List.Forall_impl; [| exact Hrest]. auto. }
  destruct (ordered_primary_first
              (mk {| image_url := u; is_primary := true;
                     display_order := Some 0%Z |})
              _ eq_refl Hrest') as [Hord Hens].
  rewrite Hens. unfold Business.uploadImagesToStorage. rewrite Hord.
  assert (Hurls : List.map Business.url
                    (mk {| image_url := u; is_primary := true;
                           display_order := Some 0%Z |}
                     :: List.map mk (Business.imageRecords_from 1 urls))
                  = u :: urls).
  { cbn. f_equal. rewrite List.map_map. cbn.
    apply (proj1 (proj2 (records_from 1 urls))). }
  split; [| split; [exact Hurls |]].
  - rewrite upload_kept; [now rewrite Hurls |].
    rewrite List.Forall_forall. intros img Himg.
    assert (Hin : In (Business.url img) (u :: urls))
      by (rewrite <- Hurls; now apply List.in_map).
    rewrite List.Forall_forall in Htruthy. rewrite (Htruthy _ Hin).
    destruct Himg as [<-|Himg]; [reflexivity |].
    apply List.in_map_iff in Himg as (r & <- & _). reflexivity.
  - rewrite primaries_cons. cbn.
    replace (primaries (List.map mk (Business.imageRecords_from 1 urls)))
      with 0%nat; [reflexivity |].
    symmetry. apply primaries_none.
    clear -Hrest'. induction Hrest' as [|x l Hx _ IH]; cbn; [reflexivity |].
    now rewrite Hx.
Qed.

Lemma upload_from_result (upload : nat -> Business.File -> Outcome string)
    (i : nat) (g : list Business.GalleryImage) (urls : list string) :
  Business.upload_from upload i g = Returned urls ->
  List.length urls = List.length g /\
  match g, urls with
  | p :: _, u :: _ => address_of upload i p u
  | [], [] => True
  | _, _ => False
  end.
Proof.
  revert i urls. induction g as [|p g IH]; intros i urls; cbn.
  - intros [= <-]. auto.
  - unfold address_of.
    destruct (Business.uploaded p && Js.truthy (Business.url p)).
    + destruct (Business.upload_from upload (S i) g) as [rest|m] eqn:Er;
        [| discriminate].
      intros [= <-]. destruct (IH _ _ Er) as [Hl _]. cbn. auto.
    + destruct (Business.file p) as [f|]; [| discriminate].
      destruct (upload i f) as [u|m] eqn:Eu; [| discriminate].
      destruct (Business.upload_from upload (S i) g) as [rest|m] eqn:Er;
        [| discriminate].
      intros [= <-]. destruct (IH _ _ Er) as [Hl _]. cbn. eauto.
Qed.

Lemma ordered_length (g : list Business.GalleryImage) :
  List.length (Business.ordered g) = List.length g.
Proof.
  unfold Business.ordered. rewrite List.length_app.
  induction g as [|x g IH]; cbn; [reflexivity |].
  destruct (Business.isPrimary x); cbn; lia.
Qed.

(** X22.  When the gallery holds one primary entry and the upload
    succeeds, the image rows written for the experience make that entry's
    address the main image of every page: the first address returned is
    the primary entry's (the one it already had, or the one its upload was
    given), and the cards and the hero of the detail page show it. *)
Theorem marked_primary_becomes_the_main_image
    (upload : nat -> Business.File -> Outcome string)
    (g : list Business.GalleryImage) (urls : list string) (exp : Experience) :
  primaries g = 1%nat ->
  Business.uploadImagesToStorage upload g = Returned urls ->
  Permutation (image exp) (Business.imageRecords urls) ->
  List.length urls = List.length g /\
  exists p u,
    In p g /\ Business.isPrimary p = true /\
    address_of upload 0 p u /\
    List.hd "" urls = u /\
    getPrimaryImageUrl exp = u /\
    Detail.mainUrl exp = Js.or_else u (Detail.placeholder exp).
Proof.
  intros Hone Hup Hp.
  destruct (stored_images_shown urls exp Hp) as (Hcard & _ & _ & Hmain & _).
  unfold Business.uploadImagesToStorage in Hup.
  destruct g as [|x g]; [discriminate |].
  apply upload_from_result in Hup as [Hlen Hfirst].
  rewrite ordered_length in Hlen. split; [exact Hlen |].
  unfold Business.ordered in Hfirst.
  destruct (List.filter Business.isPrimary (x :: g)) as [|p ps] eqn:Ef;
    [unfold primaries in Hone; rewrite Ef in Hone; discriminate |].
  assert (Hin : In p (List.filter Business.isPrimary (x :: g)))
    by (rewrite Ef; now left).
  apply List.filter_In in Hin as [Hin Hprim].
  cbn [app] in Hfirst. destruct urls as [|u urls]; [contradiction |].
  exists p, u. cbn [List.hd] in *. auto 10.
Qed.

(** ** Truncated card text *)

Lemma substring_head (n : nat) (s : string) :
  String.length (String.substring 0 n s) = Nat.min n (String.length s) /\
  String.prefix (String.substring 0 n s) s = true.
Proof.
  revert s. induction n as [|n IH]; intros [|c s]; cbn; auto.
  destruct (IH s) as [Hl Hp]. rewrite Hl, Hp.
  split; [reflexivity |]. now destruct (Ascii.ascii_dec c c).
Qed.

(** X23.  On ASCII text, where a byte is a character, [truncateText]
    never returns more than [maxLength] characters and the three dots:
    text that fits comes back unchanged, longer text is cut to its first
    [maxLength] characters followed by "...". *)
Theorem truncated_text_is_bounded (text : string) (maxLength : nat) :
  plain text = true ->
  (String.length (Business.truncateText text maxLength) <= maxLength + 3)%nat /\
  ((String.length text <= maxLength)%nat ->
   Business.truncateText text maxLength = text) /\
  ((maxLength < String.length text)%nat ->
   exists kept,
     Business.truncateText text maxLength = (kept ++ "...")%string /\
     String.length kept = maxLength /\
     String.prefix kept text = true).
Proof.
  intros _.
  unfold Business.truncateText, Js.truthy.
  destruct (substring_head maxLength text) as [Hl Hp].
  destruct (String.eqb_spec text "") as [->|Hne]; cbn [negb].
  - split; [cbn; lia | split; [reflexivity | cbn; lia]].
  - destruct (Nat.leb_spec (String.length text) maxLength) as [Hle|Hgt].
    + split; [lia | split; [reflexivity | lia]].
    + split; [rewrite length_app_s, Hl; cbn; lia |].
      split; [lia |]. intros _.
      exists (String.substring 0 maxLength text).
      split; [reflexivity | split; [rewrite Hl; lia | exact Hp]].
Qed.

(** ** The daily activity series *)

Lemma add_total_lookup (m : gmap string Z) (day d : string) (total : Z) :
  default 0%Z (BusinessMetrics.add_total m day total !! d)
  = (default 0%Z (m !! d) + (if String.eqb day d then total else 0))%Z.
Proof.
  unfold BusinessMetrics.add_total.
  destruct (String.eqb_spec day d) as [->|Hne].
  - rewrite lookup_insert_eq. reflexivity.
  - rewrite lookup_insert_ne by exact Hne. lia.
Qed.

Lemma totals_of_from (kind d : string) (rows : list DailyEvent)
    (m : gmap string Z) :
  default 0%Z
    (fold_left
       (fun m r => if String.eqb (de_event_type r) kind
                   then BusinessMetrics.add_total m (de_day r) (de_total r)
                   else m)
       rows m !! d)
  = (default 0%Z (m !! d) + day_total kind d rows)%Z.
Proof.
  revert m. induction rows as [|r rows IH]; intros m; cbn [fold_left].
  - unfold day_total. cbn. lia.
  - rewrite IH. unfold day_total. cbn [List.filter].
    destruct (String.eqb (de_event_type r) kind); cbn [andb].
    + rewrite add_total_lookup.
      destruct (String.eqb (de_day r) d); cbn; lia.
    + lia.
Qed.

Lemma save_totals_from (d : string) (rows : list DailySave) (m : gmap string Z) :
  default 0%Z
    (fold_left (fun m r => BusinessMetrics.add_total m (ds_day r) (ds_saves r))
       rows m !! d)
  = (default 0%Z (m !! d) + day_saves d rows)%Z.
Proof.
  revert m. induction rows as [|r rows IH]; intros m; cbn [fold_left].
  - unfold day_saves. cbn. lia.
  - rewrite IH, add_total_lookup. unfold day_saves. cbn [List.filter].
    destruct (String.eqb (ds_day r) d); cbn; lia.
Qed.

Lemma build_series_sums (dayList : list string) (events : list DailyEvent)
    (saves : list DailySave) :
  BusinessMetrics.build_series dayList events saves
  = {| BusinessMetrics.days := dayList;
       BusinessMetrics.views :=
         List.map (fun d => day_total "view" d events) dayList;
       BusinessMetrics.saves := List.map (fun d => day_saves d saves) dayList;
       BusinessMetrics.bookingClicks :=
         List.map (fun d => day_total "booking_click" d events) dayList |}.
Proof.
  unfold BusinessMetrics.build_series, BusinessMetrics.totals_of,
    BusinessMetrics.save_totals.
  f_equal; apply List.map_ext; intros d;
    rewrite ?totals_of_from, ?save_totals_from, lookup_empty; cbn; lia.
Qed.

(** X24.  When no request rejects, a refresh of the daily activity of a
    known business sends the two daily queries and keeps a series with one
    entry per day of the day list in each of its three lines: the entry of
    a day is the sum of the totals the daily view delivered for that day
    and kind, zero for a day without rows, and zero throughout for a line
    whose query failed; rows of other event kinds and of days outside the
    list count nowhere.  The totals are counts that JavaScript adds
    without rounding: none negative, together within 2^53. *)
Theorem daily_series_sums_the_rows_per_day (p : BusinessMetrics.Page)
    (businessId : string) :
  BusinessMetrics.currentBusiness (BusinessMetrics.vars p) = Some businessId ->
  nothing_rejects (BusinessMetrics.env p) ->
  let start :=
    String.substring 0 10
      (BusinessMetrics.sinceISO (BusinessMetrics.browser p)
         (BusinessMetrics.currentDays (BusinessMetrics.vars p))) in
  let dayList :=
    BusinessMetrics.buildDayList (BusinessMetrics.browser p) start
      (BusinessMetrics.today (BusinessMetrics.browser p)) in
  let id := BusinessMetrics.currentExperienceId (BusinessMetrics.vars p) in
  let n := List.length (sent (BusinessMetrics.env p)) in
  let events :=
    delivered (BusinessMetrics.env p) n (SelectEventsDaily businessId start id)
      (view_events_daily (BusinessMetrics.env p)
         (SelectEventsDaily businessId start id)) in
  let saves :=
    delivered (BusinessMetrics.env p) (S n) (SelectSavesDaily businessId start id)
      (view_saves_daily (BusinessMetrics.env p)
         (SelectSavesDaily businessId start id)) in
  exact_counts (List.map de_total events) ->
  exact_counts (List.map ds_saves saves) ->
  BusinessMetrics.lastDailySeries
    (BusinessMetrics.vars (state_after (BusinessMetrics.refreshDailyActivity p)))
  = Some {| BusinessMetrics.days := dayList;
            BusinessMetrics.views :=
              List.map (fun d => day_total "view" d events) dayList;
            BusinessMetrics.saves :=
              List.map (fun d => day_saves d saves) dayList;
            BusinessMetrics.bookingClicks :=
              List.map (fun d => day_total "booking_click" d events) dayList |} /\
  sent (BusinessMetrics.env (state_after (BusinessMetrics.refreshDailyActivity p)))
  = sent (BusinessMetrics.env p) ++
    [SelectEventsDaily businessId start id; SelectSavesDaily businessId start id].
Proof.
  intros Hb Hnr start dayList id n events saves _ _.
  split; [| apply (proj2 (proj2 (proj2 (refreshDailyActivity_effect p)))), Hb].
  rewrite <- build_series_sums.
  subst events saves. unfold delivered.
  unfold BusinessMetrics.refreshDailyActivity, promise_all2,
    BusinessMetrics.loadEventsDaily,
    BusinessMetrics.loadSavesDaily, select_events_daily, select_saves_daily,
    send, bind, gets, modify, ret, state_after.
  cbn -[BusinessMetrics.build_series]. rewrite Hb.
  cbn -[BusinessMetrics.build_series].
  subst n. fold start. fold id. fold dayList.
  destruct (fault (BusinessMetrics.env p) (List.length _) _) eqn:E1;
    cbn -[BusinessMetrics.build_series];
    try (exfalso; exact (Hnr _ _ _ E1));
    rewrite List.length_app, Nat.add_1_r;
    destruct (fault (BusinessMetrics.env p) (S _) _) eqn:E2;
    cbn -[BusinessMetrics.build_series];
    try (exfalso; exact (Hnr _ _ _ E2));
    reflexivity.
Qed.

(** ** Top referrers *)







(** ** Clearing the filters *)

Lemma wanted_nothing_chosen (env : Env) (e : Experience) :
  wanted env "" "" "" e = listed e.
Proof. unfold wanted. cbn. now rewrite !andb_true_r. Qed.

Lemma refreshMatches_keeps_state (p : Finder.Page) :
  Finder.state (state_after (Finder.refreshMatches p)) = Finder.state p.
Proof.
  unfold Finder.refreshMatches, Finder.fetchMatches,
    Finder.getExperienceIdsForCategory, Finder.run_matches_query,
    select_category_links, select_experiences, send, bind, gets, modify, ret,
    throw, try_catch, state_after.
  cbn -[run_select Finder.matches_query uniq Finder.buildFiltersFromState].
  destruct (Finder.matchesList p); [| reflexivity].
  cbn -[run_select Finder.matches_query uniq Finder.buildFiltersFromState].
  destruct (Js.truthy _);
    cbn -[run_select Finder.matches_query uniq Finder.buildFiltersFromState];
    repeat (match goal with
            | |- context [fault ?e ?n ?r] => destruct (fault e n r)
            | |- context [match uniq ?l with _ => _ end] => destruct (uniq l)
            | |- context [match run_select ?a ?b ?c with _ => _ end] =>
                destruct (run_select a b c)
            end;
            cbn -[run_select Finder.matches_query uniq
                  Finder.buildFiltersFromState]);
    reflexivity.
Qed.

(** X25.  On a platform that answers every request, the reset button of
    the finder brings back the first three listed rows of the experiences
    table, and the clear button of the experiences page every listed row
    with its count, whatever was chosen before. *)
Theorem cleared_filters_show_every_listed_row :
  (forall (p : Finder.Page) (v : Finder.MatchesView),
     healthy (Finder.env p) ->
     Finder.matchesList p = Some v ->
     Finder.state (state_after (Finder.onResetClick p))
       = {| Finder.sel_recipient := ""; Finder.sel_occasion := "";
            Finder.sel_type := ""; Finder.sel_county := "";
            Finder.sel_budget := "" |} /\
     Finder.matchesList (state_after (Finder.onResetClick p))
       = Some (matches_view
                 (firstn 3 (List.filter listed (tbl_experiences (Finder.env p)))))) /\
  (forall (p : Experiences.Page) (m : string) (g : Experiences.GridView),
     healthy (Experiences.env p) ->
     Experiences.resultsMeta p = Some m ->
     Experiences.experiencesGrid p = Some g ->
     Experiences.experiencesGrid (state_after (Experiences.onClearFilters p))
       = Some (grid_view
                 (List.filter listed (tbl_experiences (Experiences.env p)))) /\
     Experiences.resultsMeta (state_after (Experiences.onClearFilters p))
       = Some (Experiences.found_text
                 (List.length
                    (List.filter listed (tbl_experiences (Experiences.env p)))))).
Proof.
  split.
  - intros p v Hh El.
    unfold Finder.onResetClick, Finder.resetFinder, bind, modify.
    set (q := {| Finder.state := _; Finder.nav := Finder.nav p;
                 Finder.matchesList := Finder.matchesList p;
                 Finder.env := Finder.env p |}).
    pose proof (refreshMatches_keeps_state q) as Hst.
    split; [exact Hst |].
    pose proof (finder_view_healthy q v Hh El) as Hv.
    cbn [state_after snd] in *. rewrite Hv. cbn.
    do 3 f_equal. apply List.filter_ext. intros e. apply wanted_nothing_chosen.
  - intros p m g Hh Em Eg.
    unfold Experiences.onClearFilters, bind, modify.
    set (q := {| Experiences.heroSearch := ""; Experiences.categorySelect := "";
                 Experiences.countySelect := ""; Experiences.budgetSelect := "";
                 Experiences.nav := Experiences.nav p;
                 Experiences.resultsMeta := Experiences.resultsMeta p;
                 Experiences.experiencesGrid := Experiences.experiencesGrid p;
                 Experiences.env := Experiences.env p |}).
    destruct (loadExperiences_healthy q m g Hh
                ltac:(cbn; discriminate) Em Eg) as [Hg Hm].
    cbn [state_after snd] in *. rewrite Hg, Hm. cbn.
    rewrite (List.filter_ext _ listed); [auto |].
    intros e. unfold searched. cbn. rewrite wanted_nothing_chosen.
    now rewrite andb_true_r.
Qed.

(** ** Signing out of the detail page *)

(** X26.  A click on sign-out of the detail page never raises.  It
    leaves for the landing page whenever the request does not reject,
    also when the platform answers with an error and the session stays as
    it was; only a rejected request keeps the visitor on the page, with
    the alert. *)
Theorem sign_out_leaves_unless_the_request_rejects (p : Detail.Page) :
  outcome_of (Detail.onSignOutClick p) = Returned tt /\
  match fault (Detail.env p) (List.length (sent (Detail.env p))) AuthSignOut with
  | no_fault =>
      Detail.location (Detail.browser (Detail.step Detail.SignOutClick p))
        = Some "landing.html" /\
      Detail.alerts (Detail.browser (Detail.step Detail.SignOutClick p))
        = Detail.alerts (Detail.browser p) /\
      session (Detail.env (Detail.step Detail.SignOutClick p)) = None
  | error_result _ =>
      Detail.location (Detail.browser (Detail.step Detail.SignOutClick p))
        = Some "landing.html" /\
      Detail.alerts (Detail.browser (Detail.step Detail.SignOutClick p))
        = Detail.alerts (Detail.browser p) /\
      session (Detail.env (Detail.step Detail.SignOutClick p))
        = session (Detail.env p)
  | rejects _ =>
      Detail.location (Detail.browser (Detail.step Detail.SignOutClick p))
        = Detail.location (Detail.browser p) /\
      Detail.alerts (Detail.browser (Detail.step Detail.SignOutClick p))
        = Detail.alerts (Detail.browser p) ++
          ["Could not sign out. Please try again."] /\
      session (Detail.env (Detail.step Detail.SignOutClick p))
        = session (Detail.env p)
  end.
Proof.
  unfold Detail.step, Detail.handler, Detail.onSignOutClick, auth_signOut, send,
    bind, modify, try_catch, outcome_of, state_after.
  cbn. destruct (fault _ _ _); cbn; auto.
Qed.

(** ** The category lookup, as each page makes it *)

Lemma linked_rows (env : Env) (cid id : string) :
  In id (List.map link_experience_id
           (List.filter (fun r => String.eqb (link_category_id r) cid)
              (tbl_experience_category env)))
  <-> exists row, In row (tbl_experience_category env) /\
                  link_category_id row = cid /\ link_experience_id row = id.
Proof.
  rewrite List.in_map_iff. split.
  - intros (row & Hid & Hin). apply List.filter_In in Hin as [Hin Hc].
    apply String.eqb_eq in Hc. eauto.
  - intros (row & Hin & Hc & Hid). exists row. split; [exact Hid |].
    apply List.filter_In. split; [exact Hin | now apply String.eqb_eq].
Qed.

(** X27.  The category lookup of the finder answers each experience id
    the link table holds for the category exactly once; the lookup of the
    experiences page answers the same ids except empty ones, and answers
    "no category" without a request when none is chosen.  Either raises
    exactly when the platform fails the request. *)
Theorem category_lookup_answers_the_linked_ids (cid : string) :
  (forall (p : Finder.Page),
     match outcome_of (Finder.getExperienceIdsForCategory cid p) with
     | Returned ids =>
         fault (Finder.env p) (List.length (sent (Finder.env p)))
           (SelectCategoryLinks cid) = no_fault /\
         List.NoDup ids /\
         forall id, In id ids <->
                    exists row, In row (tbl_experience_category (Finder.env p)) /\
                                link_category_id row = cid /\
                                link_experience_id row = id
     | Threw _ =>
         fault (Finder.env p) (List.length (sent (Finder.env p)))
           (SelectCategoryLinks cid) <> no_fault
     end) /\
  (forall (p : Experiences.Page),
     match outcome_of (Experiences.getExperienceIdsForCategory cid p) with
     | Returned None =>
         cid = "" /\
         state_after (Experiences.getExperienceIdsForCategory cid p) = p
     | Returned (Some ids) =>
         cid <> "" /\
         fault (Experiences.env p) (List.length (sent (Experiences.env p)))
           (SelectCategoryLinks cid) = no_fault /\
         forall id, In id ids <->
                    id <> "" /\
                    exists row,
                      In row (tbl_experience_category (Experiences.env p)) /\
                      link_category_id row = cid /\
                      link_experience_id row = id
     | Threw _ =>
         cid <> "" /\
         fault (Experiences.env p) (List.length (sent (Experiences.env p)))
           (SelectCategoryLinks cid) <> no_fault
     end).
Proof.
  split.
  - intros p.
    unfold Finder.getExperienceIdsForCategory, select_category_links, send, bind,
      ret, throw, outcome_of.
    cbn -[uniq]. destruct (fault _ _ _) eqn:Ef; cbn -[uniq]; try discriminate.
    split; [reflexivity |]. split; [apply uniq_from_NoDup |].
    intros id. rewrite uniq_In. apply linked_rows.
  - intros p.
    unfold Experiences.getExperienceIdsForCategory, select_category_links, send,
      bind, ret, throw, outcome_of, state_after, Js.truthy.
    destruct (String.eqb_spec cid "") as [->|Hne]; cbn; [auto |].
    destruct (fault _ _ _) eqn:Ef; cbn; try (split; [exact Hne | discriminate]).
    split; [exact Hne |]. split; [reflexivity |].
    intros id. rewrite List.filter_In, linked_rows. unfold Js.truthy.
    destruct (String.eqb_spec id ""); split; intros [H1 H2]; split; auto;
      try discriminate; try contradiction.
Qed.

(** ** Worked instances of the further properties *)

Lemma outdoors_panel_shows_the_kayak_tour :
  Finder.matchesList
    (state_after
       (Finder.refreshMatches (finder_page "Outdoors" (platform None no_faults))))
  = Some (Finder.match_cards [Finder.renderMatchCard out_of_order]).
Proof.
  apply (finder_panel_shows_the_first_three_wanted
           (finder_page "Outdoors" (platform None no_faults)) Finder.loading);
    [intros n r; reflexivity | reflexivity].
Defined.

Lemma kayak_search_lists_the_kayak_tour :
  experiences_shown (state_after (Experiences.loadExperiences searching_page))
  = ["e1"] /\
  Experiences.resultsMeta
    (state_after (Experiences.loadExperiences searching_page))
  = Some "1 experiences found".
Proof.
  destruct (experiences_page_lists_every_wanted_row searching_page ""
              Experiences.grid_loading "  " "kayak" " ")
    as (Hshown & _ & Hmeta); try reflexivity.
  - intros n r. reflexivity.
  - repeat constructor; discriminate.
  - right. split; [exists "k"%char, "ayak" | exists "kaya", "k"%char];
      split; reflexivity.
  - split; [rewrite Hshown | rewrite Hmeta]; reflexivity.
Defined.

Lemma outdoors_panel_is_on_the_outdoors_page :
  incl
    (finder_shown
       (state_after
          (Finder.refreshMatches (finder_page "Outdoors" (platform None no_faults)))))
    (experiences_shown
       (state_after
          (Experiences.loadExperiences
             (experiences_page "50f6b39a-2399-43fa-a661-b85930e8f1d3"
                (platform None no_faults))))) /\
  List.length
    (finder_shown
       (state_after
          (Finder.refreshMatches (finder_page "Outdoors" (platform None no_faults)))))
  = Nat.min 3
      (List.length
         (experiences_shown
            (state_after
               (Experiences.loadExperiences
                  (experiences_page "50f6b39a-2399-43fa-a661-b85930e8f1d3"
                     (platform None no_faults)))))).
Proof.
  apply (finder_panel_agrees_with_the_experiences_page
           (finder_page "Outdoors" (platform None no_faults))
           (experiences_page "50f6b39a-2399-43fa-a661-b85930e8f1d3"
              (platform None no_faults))
           Finder.loading "" Experiences.grid_loading);
    try reflexivity;
    [intros n r; reflexivity | intros n r; reflexivity |
     repeat constructor; discriminate].
Defined.

Lemma rejected_search_shows_the_error_state :
  Finder.matchesList
    (state_after
       (Finder.refreshMatches
          (finder_page "" (platform None (fun _ _ => rejects "offline")))))
  = Some Finder.went_wrong.
Proof.
  apply (proj1 a_failed_request_shows_the_error_state
           (finder_page "" (platform None (fun _ _ => rejects "offline")))
           Finder.loading eq_refl).
  exists 0%nat, (SelectExperiences
                   (Finder.matches_query None
                      (Finder.buildFiltersFromState
                         (Finder.state
                            (finder_page ""
                               (platform None (fun _ _ => rejects "offline"))))))).
  split; [cbn; lia | split; [reflexivity | discriminate]].
Defined.

Lemma hostile_title_is_inert_on_cards :
  Js.includes "<" (Finder.card_title (Finder.renderMatchCard hostile)) = false /\
  Js.includes "<" (Finder.card_county (Finder.renderMatchCard hostile)) = false /\
  Js.includes "<" (Finder.card_businessName (Finder.renderMatchCard hostile)) = false /\
  Js.includes "<" (Experiences.card_title (Experiences.renderCard hostile)) = false /\
  Js.includes "<" (Experiences.card_county (Experiences.renderCard hostile)) = false /\
  Js.includes "<" (Experiences.card_desc (Experiences.renderCard hostile)) = false /\
  Js.includes "<" (Experiences.card_businessName (Experiences.renderCard hostile)) = false.
Proof.
  apply (card_text_holds_no_markup hostile "<"). cbn. auto.
Defined.

Lemma signed_in_user_sees_one_variant_on_the_finder :
  exists v,
    variants_shown
      (Finder.nav
         (state_after
            (Finder.updateNavForAuthState
               (finder_page "" (platform (Some "u1") no_faults)))))
    = [v] /\
    (v = business_nav ->
     exists uid,
       session (Finder.env (finder_page "" (platform (Some "u1") no_faults)))
         = Some uid /\
       business_user
         (Finder.env (finder_page "" (platform (Some "u1") no_faults))) uid).
Proof.
  apply (proj1 exactly_one_nav_variant_is_shown
           (finder_page "" (platform (Some "u1") no_faults))).
  repeat split; discriminate.
Defined.

Lemma kayak_tour_page_loads :
  outcome_of
    (Detail.loadAndRenderExperience "e1"
       (detail_page None false "e1" (platform None no_faults)))
  = Returned tt.
Proof.
  apply (proj1 (detail_page_renders_only_a_loadable_experience "e1"
                  (detail_page None false "e1" (platform None no_faults))
                  None eq_refl)).
Defined.

Lemma sea_swim_is_listed_but_does_not_load :
  listed capitalised = true /\
  (exists msg,
     Detail.detailError
       (Detail.dom
          (state_after
             (Detail.loadAndRenderExperience (experience_id capitalised)
                (detail_page None false "e4"
                   (platform_with [out_of_order; capitalised] None no_faults)))))
     = Some (Some msg)) /\
  Detail.mainImage
    (Detail.dom
       (state_after
          (Detail.loadAndRenderExperience (experience_id capitalised)
             (detail_page None false "e4"
                (platform_with [out_of_order; capitalised] None no_faults)))))
  = Detail.mainImage
      (Detail.dom
         (detail_page None false "e4"
            (platform_with [out_of_order; capitalised] None no_faults))).
Proof.
  apply (capitalised_status_is_listed_but_not_loadable capitalised
           (detail_page None false "e4"
              (platform_with [out_of_order; capitalised] None no_faults)) None);
    try reflexivity.
  - cbn. auto.
  - intros e [<-|[<-|[]]]; [discriminate | reflexivity].
Defined.

Lemma page_without_id_shows_missing_id :
  Detail.detailError
    (Detail.dom
       (Detail.step (Detail.DOMContentLoaded 1800000%Z "s1")
          (detail_page None false "" (platform None no_faults))))
  = Some (Some "Missing experience id in URL.").
Proof.
  apply (missing_id_stops_the_page_load
           (detail_page None false "" (platform None no_faults)) None
           1800000%Z "s1");
    [apply Detail.reach_loaded; split; reflexivity | reflexivity | reflexivity].
Defined.


Lemma signed_in_view_from_the_finder :
  tbl_event_metric
    (Detail.env
       (state_after
          (Detail.logEvent "s1" "e1" view
             (arrived_from "Finder"
                (detail_page None false "e1" (platform (Some "u1") no_faults))))))
  = [{| ev_experience_id := "e1"; ev_event_type := view;
        ev_source := "finder"; ev_session_id := "s1";
        ev_user_id := Some "u1" |}].
Proof.
  destruct (logged_event_row "s1" "e1" view
              (arrived_from "Finder"
                 (detail_page None false "e1" (platform (Some "u1") no_faults)))
              ltac:(intros n r; reflexivity) eq_refl eq_refl)
    as (sid & Hs & _ & Hrow).
  assert (Hsid : sid = "s1") by (vm_compute in Hs; congruence).
  rewrite Hrow, Hsid. reflexivity.
Defined.


Lemma unflagged_hero_is_the_first_thumbnail :
  Detail.mainUrl five_images = "a.jpg" /\
  Detail.thumbnails five_images = ["a.jpg"; "b.jpg"; "c.jpg"; "none.jpg"].
Proof.
  split; [| reflexivity].
  rewrite (proj2 (thumbnails_are_the_lowest_display_orders five_images)).
  - reflexivity.
  - intros i [<-|[<-|[<-|[<-|[<-|[]]]]]]; reflexivity.
Defined.

Lemma saved_rows_show_newest_first :
  UserDashboard.favoritesList
    (state_after
       (UserDashboard.loadFavorites (user_page "u1" [] favourites_platform)))
  = Some (UserDashboard.fav_cards
            [UserDashboard.renderCard (dated 30 no_images);
             UserDashboard.renderCard (dated 10 out_of_order)]) /\
  exists rows,
    [UserDashboard.renderCard (dated 30 no_images);
     UserDashboard.renderCard (dated 10 out_of_order)]
    = List.map UserDashboard.renderCard rows /\
    StronglySorted (fun a b => (created_at b <= created_at a)%Z) rows /\
    Forall (fun e => In e (tbl_experiences favourites_platform) /\
                     status e = "approved" /\ is_published e = true /\
                     In (experience_id e) (favourites_of "u1" favourites_platform))
      rows.
Proof.
  split; [reflexivity |].
  apply (proj2 (proj2 (favourites_list_shows_saved_listed_rows "u1"
                         (user_page "u1" [] favourites_platform)
                         UserDashboard.fav_untouched eq_refl eq_refl))).
  reflexivity.
Defined.

Lemma refused_insert_leaves_the_toast_only :
  UserDashboard.toasts
    (state_after
       (UserDashboard.toggleFavorite "e1"
          (user_page "u1" []
             (platform (Some "u1") (fun _ _ => error_result "denied")))))
  = [("Error updating favorites", "error")].
Proof.
  apply (proj1 (proj2 (proj2 (proj2 (proj2
           (failed_toggle_changes_nothing "u1" "e1"
              (user_page "u1" []
                 (platform (Some "u1") (fun _ _ => error_result "denied")))
              eq_refl
              ltac:(discriminate))))))).
Defined.

Lemma unsave_then_save_keeps_the_three :
  UserDashboard.favoriteExperienceIds
    (state_after
       (UserDashboard.toggleFavorite "e8"
          (state_after
             (UserDashboard.toggleFavorite "e8"
                (user_page "u1" ["e1"; "e8"; "e2"] favourites_platform)))))
  = list_to_set ["e1"; "e8"; "e2"] /\
  favourites_of "u1"
    (UserDashboard.env
       (state_after
          (UserDashboard.toggleFavorite "e8"
             (state_after
                (UserDashboard.toggleFavorite "e8"
                   (user_page "u1" ["e1"; "e8"; "e2"] favourites_platform))))))
  = ["e1"; "e2"; "e8"] /\
  favourites_of "u2"
    (UserDashboard.env
       (state_after
          (UserDashboard.toggleFavorite "e8"
             (state_after
                (UserDashboard.toggleFavorite "e8"
                   (user_page "u1" ["e1"; "e8"; "e2"] favourites_platform))))))
  = ["e4"].
Proof.
  destruct (toggling_twice_restores_the_favourites "u1" "e8"
              (user_page "u1" ["e1"; "e8"; "e2"] favourites_platform)
              eq_refl
              ltac:(discriminate)
              ltac:(intros n r; reflexivity)
              ltac:(split; [intros _; cbn; auto | intros _; apply in_ids; cbn; auto]))
    as (Hids & _ & Hothers).
  split; [exact Hids |]. split; [reflexivity |].
  apply (Hothers "u2"). discriminate.
Defined.

Lemma galleries_keep_or_regain_one_primary :
  (List.map (fun i => (Business.preview i, Business.isPrimary i))
     (gallery_step blob_of (Remove 1)
        (gallery_step blob_of (MakePrimary 1)
           (gallery_step blob_of (AddFiles [photo; notes; beach]) [])))
   = [("blob:kayak.jpg", true)]) /\
  (gallery_step blob_of (Remove 1)
     (gallery_step blob_of (MakePrimary 1)
        (gallery_step blob_of (AddFiles [photo; notes; beach]) [])) = [] \/
   primaries
     (gallery_step blob_of (Remove 1)
        (gallery_step blob_of (MakePrimary 1)
           (gallery_step blob_of (AddFiles [photo; notes; beach]) [])))
   = 1%nat) /\
  primaries (Business.editImages flagged_twice) = 2%nat /\
  primaries (Business.setPrimaryImage 2 (Business.editImages flagged_twice))
  = 1%nat.
Proof.
  split; [reflexivity |]. split; [| split].
  - apply (proj1 (gallery_holds_exactly_one_primary blob_of) []
             _ (or_introl eq_refl)).
    apply gallery_act;
      [apply gallery_act; [apply gallery_act; [apply gallery_start | exact I] |] |];
      vm_compute; lia.
  - apply (proj1 (proj2 (gallery_holds_exactly_one_primary blob_of))
             flagged_twice).
    discriminate.
  - apply (proj1 (proj2 (proj2 (gallery_holds_exactly_one_primary blob_of)))).
    vm_compute. lia.
Defined.

Lemma rows_fetched_backwards_show_the_first_address :
  Detail.mainUrl
    (experience_with "e6" "Kayak tour" "approved" true (Some 60)
       (List.rev (Business.imageRecords ["a.jpg"; "b.jpg"])))
  = Js.or_else (List.hd "" ["a.jpg"; "b.jpg"])
      (Detail.placeholder
         (experience_with "e6" "Kayak tour" "approved" true (Some 60)
            (List.rev (Business.imageRecords ["a.jpg"; "b.jpg"])))).
Proof.
  apply (proj1 (proj2 (proj2 (proj2
           (stored_images_show_alike_on_every_page ["a.jpg"; "b.jpg"]
              (experience_with "e6" "Kayak tour" "approved" true (Some 60)
                 (List.rev (Business.imageRecords ["a.jpg"; "b.jpg"])))
              (perm_swap _ _ [])))))).
Defined.

Lemma edit_without_changes_rewrites_both_rows :
  Business.uploadImagesToStorage store_all
    (Business.editImages (List.rev (Business.imageRecords ["a.jpg"; "b.jpg"])))
  = Returned ["a.jpg"; "b.jpg"].
Proof.
  apply (proj1 (editing_keeps_the_stored_images store_all ["a.jpg"; "b.jpg"]
                  (List.rev (Business.imageRecords ["a.jpg"; "b.jpg"]))
                  ltac:(discriminate)
                  ltac:(repeat constructor)
                  (perm_swap _ _ []))).
Defined.

Lemma uploaded_photo_is_the_hero :
  Business.uploadImagesToStorage store_all
    (gallery_step blob_of (MakePrimary 1)
       (gallery_step blob_of (AddFiles [photo; beach]) []))
  = Returned ["https://cdn.example/beach.png"; "https://cdn.example/kayak.jpg"] /\
  getPrimaryImageUrl
    (experience_with "e6" "Kayak tour" "approved" true (Some 60)
       (List.rev
          (Business.imageRecords
             ["https://cdn.example/beach.png"; "https://cdn.example/kayak.jpg"])))
  = "https://cdn.example/beach.png" /\
  Detail.mainUrl
    (experience_with "e6" "Kayak tour" "approved" true (Some 60)
       (List.rev
          (Business.imageRecords
             ["https://cdn.example/beach.png"; "https://cdn.example/kayak.jpg"])))
  = "https://cdn.example/beach.png".
Proof.
  split; [reflexivity |].
  destruct (marked_primary_becomes_the_main_image store_all
              (gallery_step blob_of (MakePrimary 1)
                 (gallery_step blob_of (AddFiles [photo; beach]) []))
              ["https://cdn.example/beach.png"; "https://cdn.example/kayak.jpg"]
              (experience_with "e6" "Kayak tour" "approved" true (Some 60)
                 (List.rev
                    (Business.imageRecords
                       ["https://cdn.example/beach.png";
                        "https://cdn.example/kayak.jpg"])))
              eq_refl eq_refl (perm_swap _ _ []))
    as (_ & p & u & _ & _ & _ & Hhd & Hcard & Hmain).
  cbn [List.hd] in Hhd. subst u. split; [exact Hcard |].
  rewrite Hmain. reflexivity.
Defined.

Lemma long_text_is_cut :
  Business.truncateText "A guided kayak tour of the bay" 14 = "A guided kayak...".
Proof.
  destruct (proj2 (proj2 (truncated_text_is_bounded
                            "A guided kayak tour of the bay" 14 eq_refl)))
    as (kept & Hcut & Hlen & Hpre); [cbn; lia |].
  rewrite Hcut. f_equal.
  destruct kept as [|c0 [|c1 [|c2 [|c3 [|c4 [|c5 [|c6 [|c7 [|c8 [|c9 [|c10
    [|c11 [|c12 [|c13 [|c14 kept]]]]]]]]]]]]]]]; try discriminate Hlen.
  cbn in Hpre.
  repeat match type of Hpre with
         | (if Ascii.ascii_dec ?a ?b then _ else _) = true =>
             destruct (Ascii.ascii_dec a b) as [<-|]; [| discriminate Hpre]
         end.
  reflexivity.
Defined.

Lemma busy_days_add_up :
  BusinessMetrics.lastDailySeries
    (BusinessMetrics.vars
       (state_after
          (BusinessMetrics.refreshDailyActivity (metrics_page busy_platform))))
  = Some {| BusinessMetrics.days := ["2026-10-03"; "2026-11-02"];
            BusinessMetrics.views := [7%Z; 0%Z];
            BusinessMetrics.saves := [0%Z; 5%Z];
            BusinessMetrics.bookingClicks := [0%Z; 2%Z] |} /\
  sent
    (BusinessMetrics.env
       (state_after
          (BusinessMetrics.refreshDailyActivity (metrics_page busy_platform))))
  = [SelectEventsDaily "b1" "2026-10-03" ""; SelectSavesDaily "b1" "2026-10-03" ""].
Proof.
  apply (daily_series_sums_the_rows_per_day (metrics_page busy_platform) "b1"
           eq_refl).
  - intros n r m. discriminate.
  - split; [repeat constructor; cbn; lia | cbn; lia].
  - split; [repeat constructor; cbn; lia | cbn; lia].
Defined.

Lemma reset_after_outdoors_shows_all_three :
  Finder.state
    (state_after
       (Finder.onResetClick (finder_page "Outdoors" (platform None no_faults))))
  = {| Finder.sel_recipient := ""; Finder.sel_occasion := "";
       Finder.sel_type := ""; Finder.sel_county := "";
       Finder.sel_budget := "" |} /\
  Finder.matchesList
    (state_after
       (Finder.onResetClick (finder_page "Outdoors" (platform None no_faults))))
  = Some (matches_view
            (firstn 3
               (List.filter listed
                  (tbl_experiences
                     (Finder.env
                        (finder_page "Outdoors" (platform None no_faults))))))).
Proof.
  apply (proj1 cleared_filters_show_every_listed_row
           (finder_page "Outdoors" (platform None no_faults)) Finder.loading);
    [intros n r; reflexivity | reflexivity].
Defined.
